(** * mysql_ch_replicator: the MySQL -> ClickHouse converter

    A shallow embedding of [mysql_ch_replicator/converter.py] and the
    properties of its type mapper, record transcoder, ALTER TABLE
    dispatcher and WKB POINT decoder.

    Conventions of the embedding:
    - a Python [str] is a Rocq [string] whose characters are the code
      points 0..255 (the Latin-1 block of Unicode); [str.lower],
      [str.strip], [str.split] and the regular-expression classes [\d]
      and [\s] are the restrictions of Python's to that block;
    - a Python [bytes] is a [list byte];
    - a Python [int] is a [Z]; [int(...)] of a digit string is modelled
      without CPython's optional limit on the number of digits;
    - a raised exception is the [Raise] case of [result];
    - a [dict] is a [gmap], a [list] a [list] indexed with [!!];
    - functions of other modules and of third-party libraries are
      variables of the section that uses them. *)

From Stdlib Require Import ZArith Ascii String List Lia Bool.
From Stdlib Require Import Strings.Byte DecimalString SpecFloat.
From stdpp Require Import base strings gmap list.

Open Scope string_scope.

(** Let [simpl] compute the concatenation of strings when its first
    argument starts with a constructor. *)
Arguments String.append !s1 s2 : simpl nomatch.

(** ** Python strings *)

Module PyStr.

Definition code (c : ascii) : N := N_of_ascii c.

(** [str.isspace] on one character, which is also the class [\s] and
    the set that [str.strip()] and [str.split()] remove. *)
Definition is_space (c : ascii) : bool :=
  let n := code c in
  ((9 <=? n) && (n <=? 13) || (28 <=? n) && (n <=? 32)
   || (n =? 133) || (n =? 160))%N.

(** The class [\d]. *)
Definition is_digit (c : ascii) : bool :=
  let n := code c in ((48 <=? n) && (n <=? 57))%N.

Definition is_upper (c : ascii) : bool :=
  let n := code c in
  ((65 <=? n) && (n <=? 90) || (192 <=? n) && (n <=? 214)
   || (216 <=? n) && (n <=? 222))%N.

Definition lower_char (c : ascii) : ascii :=
  if is_upper c then ascii_of_N (code c + 32) else c.

(** [s.lower()] *)
Fixpoint lower (s : string) : string :=
  match s with
  | "" => ""
  | String c s' => String (lower_char c) (lower s')
  end.

(** [s.startswith(p)] *)
Definition startswith (s p : string) : bool := String.prefix p s.

(** [needle in hay] *)
Fixpoint contains (needle hay : string) : bool :=
  String.prefix needle hay
  || match hay with
     | "" => false
     | String _ hay' => contains needle hay'
     end.

(** [s.endswith(p)] *)
Fixpoint endswith (s p : string) : bool :=
  String.eqb s p
  || match s with
     | "" => false
     | String _ s' => endswith s' p
     end.

Fixpoint lstrip (s : string) : string :=
  match s with
  | "" => ""
  | String c s' => if is_space c then lstrip s' else s
  end.

Fixpoint rstrip (s : string) : string :=
  match s with
  | "" => ""
  | String c s' =>
      match rstrip s' with
      | "" => if is_space c then "" else String c ""
      | r => String c r
      end
  end.

(** [s.strip()] *)
Definition strip (s : string) : string := rstrip (lstrip s).

(** [s[1:]] *)
Definition tail (s : string) : string :=
  match s with
  | "" => ""
  | String _ s' => s'
  end.

(** [s[:-1]] *)
Fixpoint init (s : string) : string :=
  match s with
  | "" => ""
  | String c s' =>
      match s' with
      | "" => ""
      | _ => String c (init s')
      end
  end.

(** [s.split()]: the maximal runs of characters that are not
    whitespace, [cur] being the run under construction. *)
Fixpoint split_go (cur : option string) (s : string) : list string :=
  match s with
  | "" => match cur with Some w => [w] | None => [] end
  | String c s' =>
      if is_space c
      then match cur with
           | Some w => w :: split_go None s'
           | None => split_go None s'
           end
      else split_go (Some (match cur with
                           | Some w => w +:+ String c ""
                           | None => String c ""
                           end)) s'
  end.

Definition split (s : string) : list string := split_go None s.

(** [s.split(sep)] for a separator of one character: one more piece
    than there are separators. *)
Fixpoint split_on (sep : ascii) (s : string) : list string :=
  match s with
  | "" => [""]
  | String c s' =>
      if Ascii.eqb c sep
      then "" :: split_on sep s'
      else match split_on sep s' with
           | w :: ws => String c w :: ws
           | [] => [String c ""]
           end
  end.

(** [sep.join(l)] *)
Definition join (sep : string) (l : list string) : string :=
  String.concat sep l.

(** The one-character strings of [s], what iterating over a [str]
    yields. *)
Fixpoint chars (s : string) : list string :=
  match s with
  | "" => []
  | String c s' => String c "" :: chars s'
  end.

Fixpoint drop (n : nat) (s : string) : string :=
  match n, s with
  | O, _ => s
  | S n', String _ s' => drop n' s'
  | S _, "" => ""
  end.

(** [s.replace(old, new)] for a non-empty [old]: the occurrences are
    taken left to right and do not overlap. [fuel] bounds the
    recursion by the length of [s]. *)
Fixpoint replace_go (fuel : nat) (old new s : string) : string :=
  match fuel with
  | O => s
  | S fuel' =>
      match s with
      | "" => ""
      | String c s' =>
          if String.prefix old s
          then new +:+ replace_go fuel' old new
                         (drop (String.length old) s)
          else String c (replace_go fuel' old new s')
      end
  end.

Definition replace (s old new : string) : string :=
  replace_go (String.length s) old new s.

(** [s.find(c) != -1] for a one-character [c]. *)
Definition has_char (c : ascii) (s : string) : bool :=
  contains (String c "") s.

(** [str(n)] and the [{n}] of an f-string, for an [int]. *)
Definition of_Z (z : Z) : string := NilZero.string_of_int (Z.to_int z).

Definition digit_value (c : ascii) : N := code c - 48.

(** [int(s)] for a string of decimal digits. *)
Definition int_of_digits (s : string) : Z :=
  Z.of_N (fold_left (fun acc c => acc * 10 + digit_value c)%N
                    (list_ascii_of_string s) 0%N).

(** [(ds, rest)]: the longest prefix of digits and what follows. *)
Fixpoint span_digits (s : string) : string * string :=
  match s with
  | "" => ("", "")
  | String c s' =>
      if is_digit c
      then let '(ds, rest) := span_digits s' in (String c ds, rest)
      else ("", s)
  end.

Definition all_digits (s : string) : bool :=
  forallb is_digit (list_ascii_of_string s).

Definition all_space (s : string) : bool :=
  forallb is_space (list_ascii_of_string s).

End PyStr.

(** ** Exceptions *)

Inductive exn : Type :=
| ValueError (msg : string)
| IndexError (msg : string)
| TypeError (msg : string)
| AttributeError (msg : string)
| StructError (msg : string)
| Exception (msg : string).

Inductive result (A : Type) : Type :=
| Ok (a : A)
| Raise (e : exn).

Arguments Ok {A} a.
Arguments Raise {A} e.

#[global] Instance result_ret : MRet result := fun A a => Ok a.

#[global] Instance result_bind : MBind result := fun A B k r =>
  match r with
  | Ok a => k a
  | Raise e => Raise e
  end.

Definition is_ok {A : Type} (r : result A) : bool :=
  match r with Ok _ => true | Raise _ => false end.

(** [l[i]] on a Python list. *)
Definition getitem {A : Type} (l : list A) (i : nat) : result A :=
  match l !! i with
  | Some a => Ok a
  | None => Raise (IndexError "list index out of range")
  end.

(** [l[i:j]] on a Python list or [bytes]. *)
Definition slice {A : Type} (l : list A) (i j : nat) : list A :=
  take (j - i) (drop i l).

(** ** The [struct] module: the two formats the decoder uses *)

Module Struct.

(** The byte-order characters ['>'] and ['<']. *)
Inductive endian : Type := Big | Little.

Definition byte_value (b : byte) : Z := Z.of_N (Byte.to_N b).

(** The unsigned integer a sequence of bytes denotes, most
    significant byte first. *)
Definition be_value (bs : list byte) : Z :=
  fold_left (fun acc b => acc * 256 + byte_value b)%Z bs 0%Z.

Definition uint_of_bytes (e : endian) (bs : list byte) : Z :=
  be_value (match e with Big => bs | Little => rev bs end).

(** The IEEE 754 binary64 number with bit pattern [w]: sign bit 63,
    biased exponent in bits 62..52, fraction in bits 51..0. *)
Definition double_of_bits (w : Z) : spec_float :=
  let sign := Z.testbit w 63 in
  let e := Z.land (Z.shiftr w 52) 2047 in
  let m := Z.land w (2 ^ 52 - 1) in
  if (e =? 0)%Z then
    if (m =? 0)%Z then S754_zero sign
    else S754_finite sign (Z.to_pos m) (-1074)
  else if (e =? 2047)%Z then
    if (m =? 0)%Z then S754_infinity sign else S754_nan
  else S754_finite sign (Z.to_pos (m + 2 ^ 52)) (e - 1075).

Definition double_of_bytes (e : endian) (bs : list byte) : spec_float :=
  double_of_bits (uint_of_bytes e bs).

(** [struct.unpack(endian + 'I', buf)[0]] *)
Definition unpack_I (e : endian) (buf : list byte) : result Z :=
  if (length buf =? 4)%nat then Ok (uint_of_bytes e buf)
  else Raise (StructError "unpack requires a buffer of 4 bytes").

(** [struct.unpack(endian + 'd', buf)[0]] *)
Definition unpack_d (e : endian) (buf : list byte) : result spec_float :=
  if (length buf =? 8)%nat then Ok (double_of_bytes e buf)
  else Raise (StructError "unpack requires a buffer of 8 bytes").

End Struct.

Import Struct.

(** A Python number: the decoder returns the [int]s [0, 0] for a null
    payload and [float]s otherwise. *)
Inductive num : Type :=
| NInt (z : Z)
| NFloat (f : spec_float).

(** ** [parse_mysql_point] *)

(** The [if byte_order == 0 ... elif byte_order == 1 ... else raise] of
    both branches. *)
Definition endian_of_byte_order (byte_order : Z) : result endian :=
  if (byte_order =? 0)%Z then Ok Big
  else if (byte_order =? 1)%Z then Ok Little
  else Raise (ValueError "Invalid byte order in WKB POINT").

Definition parse_mysql_point (binary : option (list byte))
  : result (num * num) :=
  match binary with
  | None => Ok (NInt 0, NInt 0)
  | Some binary =>
      if (length binary =? 21)%nat then
        byte_order ← getitem binary 0;
        endian ← endian_of_byte_order (byte_value byte_order);
        wkb_type ← unpack_I endian (slice binary 1 5);
        if negb (wkb_type =? 1)%Z
        then Raise (ValueError "Not a WKB POINT type")
        else
          x ← unpack_d endian (slice binary 5 13);
          y ← unpack_d endian (slice binary 13 21);
          Ok (NFloat x, NFloat y)
      else if (length binary =? 25)%nat then
        srid ← unpack_I Big (slice binary 0 4);
        byte_order ← getitem binary 4;
        endian ← endian_of_byte_order (byte_value byte_order);
        wkb_type ← unpack_I endian (slice binary 5 9);
        if negb (wkb_type =? 1)%Z
        then Raise (ValueError "Not a WKB POINT type")
        else
          x ← unpack_d endian (slice binary 9 17);
          y ← unpack_d endian (slice binary 17 25);
          Ok (NFloat x, NFloat y)
      else Raise (ValueError "Invalid binary length for WKB POINT")
  end.

(** ** [strip_sql_name] and [split_high_level] *)

Definition strip_sql_name (name : string) : string :=
  let name := PyStr.strip name in
  let name := if PyStr.startswith name "`" then PyStr.tail name else name in
  let name := if PyStr.endswith name "`" then PyStr.init name else name in
  name.

(** The state of the loop of [split_high_level]. *)
Record split_state : Type := {
  results : list string;
  level : Z;
  curr_data : string;
}.

(** One iteration of [for c in data], [c] being a one-character
    string. *)
Definition split_step (token : string) (st : split_state) (c : ascii)
  : split_state :=
  if String.eqb (String c "") token && (level st =? 0)%Z then
    {| results := results st ++ [PyStr.strip (curr_data st)];
       level := level st;
       curr_data := "" |}
  else
    let level1 :=
      if Ascii.eqb c "("%char then (level st + 1)%Z else level st in
    let level2 :=
      if Ascii.eqb c ")"%char then (level1 - 1)%Z else level1 in
    {| results := results st;
       level := level2;
       curr_data := curr_data st +:+ String c "" |}.

Definition split_loop (token : string) (st : split_state) (data : string)
  : split_state :=
  fold_left (split_step token) (list_ascii_of_string data) st.

Definition split_high_level (data token : string) : list string :=
  let st := split_loop token
              {| results := []; level := 0; curr_data := "" |} data in
  if negb (String.eqb (curr_data st) "")
  then results st ++ [PyStr.strip (curr_data st)]
  else results st.

(** ** [convert_timestamp_to_datetime64] *)

(** [re.match(r'^timestamp(?:\((\d+)\))?$', s, re.IGNORECASE)] on a
    stripped [s]: [None] when there is no match, else the first group,
    which is itself absent when the parenthesised part is. *)
Definition match_timestamp (s : string) : option (option string) :=
  if String.eqb (PyStr.lower (String.substring 0 9 s)) "timestamp" then
    match PyStr.drop 9 s with
    | "" => Some None
    | String c rest =>
        if Ascii.eqb c "("%char then
          let '(ds, rest') := PyStr.span_digits rest in
          if negb (String.eqb ds "") && String.eqb rest' ")"
          then Some (Some ds)
          else None
        else None
    end
  else None.

Definition convert_timestamp_to_datetime64 (input_str : string)
  : result string :=
  match match_timestamp (PyStr.strip input_str) with
  | Some (Some precision) => Ok ("DateTime64(" +:+ precision +:+ ")")
  | Some None => Ok "DateTime64"
  | None =>
      Raise (ValueError
               ("Invalid input string format: '" +:+ input_str +:+ "'"))
  end.

(** ** The pattern of [numeric(precision, scale)] *)

(** A match of [numeric\((\d+)\s*,\s*(\d+)\)] that starts at the first
    character of [s], with its two groups. The repetitions are greedy;
    none of them can give a character back, as the character after a
    run of digits or of spaces has to be of another class. *)
Definition match_numeric_at (s : string) : option (string * string) :=
  if String.prefix "numeric(" s then
    let '(d1, r1) := PyStr.span_digits (PyStr.drop 8 s) in
    if String.eqb d1 "" then None
    else
      match PyStr.lstrip r1 with
      | String c r3 =>
          if Ascii.eqb c ","%char then
            let '(d2, r5) := PyStr.span_digits (PyStr.lstrip r3) in
            if String.eqb d2 "" then None
            else
              match r5 with
              | String c' _ =>
                  if Ascii.eqb c' ")"%char then Some (d1, d2) else None
              | "" => None
              end
          else None
      | "" => None
      end
  else None.

(** [re.search(pattern, s)]: the match at the leftmost position that
    has one. *)
Fixpoint search_numeric (s : string) : option (string * string) :=
  match match_numeric_at s with
  | Some groups => Some groups
  | None =>
      match s with
      | "" => None
      | String _ s' => search_numeric s'
      end
  end.

(** ** The converter and what it is given *)

Module Config.
Record t : Type := {
  types_mapping : gmap string string;
  is_database_matches : string -> bool;
  is_table_matches : string -> bool;
}.
End Config.

Module DbReplicator.
Record t : Type := {
  database : string;
  target_database : string;
  config : Config.t;
}.
End DbReplicator.

Record MysqlToClickhouseConverter : Type := {
  db_replicator : option DbReplicator.t;
  types_mapping : gmap string string;
}.

Definition __init__ (db_replicator : option DbReplicator.t)
  : MysqlToClickhouseConverter :=
  {| db_replicator := db_replicator;
     types_mapping :=
       match db_replicator with
       | Some r => Config.types_mapping (DbReplicator.config r)
       | None => ∅
       end |}.

(** The character that closes and opens a Python double-quoted
    string. *)
Definition dquote : string := String "034"%char "".

(** ** [convert_type] and [convert_field_type] *)

Section TypeMapper.

(** [parse_mysql_enum] of the [enum] module: the labels of an
    [enum(...)] declaration, in order, or an exception. *)
Variable parse_mysql_enum : string -> result (list string).

Variable self : MysqlToClickhouseConverter.

Definition decimal_type (precision scale : Z) : string :=
  "Decimal(" +:+ PyStr.of_Z precision +:+ ", " +:+ PyStr.of_Z scale +:+ ")".

(** The body of [if mysql_type.startswith('numeric'):]. *)
Definition convert_numeric (mysql_type : string) (is_unsigned : bool)
  : result string :=
  ps ← (if PyStr.contains "(" mysql_type && PyStr.contains ")" mysql_type
        then
          match search_numeric mysql_type with
          | None =>
              Raise (ValueError
                       ("Invalid numeric type definition: " +:+ mysql_type))
          | Some (g1, g2) =>
              Ok (PyStr.int_of_digits g1, PyStr.int_of_digits g2)
          end
        else Ok (10, 0)%Z);
  let '(precision, scale) := ps in
  if (scale =? 0)%Z then
    if is_unsigned then
      if (precision <=? 9)%Z then Ok "UInt32"
      else if (precision <=? 18)%Z then Ok "UInt64"
      else Ok (decimal_type precision scale)
    else
      if (precision <=? 9)%Z then Ok "Int32"
      else if (precision <=? 18)%Z then Ok "Int64"
      else Ok (decimal_type precision scale)
  else Ok (decimal_type precision scale).

(** The body of [if mysql_type.startswith('enum'):]. *)
Definition convert_enum (mysql_type : string) : result string :=
  enum_values ← parse_mysql_enum mysql_type;
  let ch_enum_values :=
    imap (fun idx value_name =>
            "'" +:+ PyStr.lower value_name +:+ "' = "
            +:+ PyStr.of_Z (Z.of_nat idx + 1))
         enum_values in
  let ch_enum_values := PyStr.join ", " ch_enum_values in
  if (length enum_values <=? 127)%nat
  then Ok ("Enum8(" +:+ ch_enum_values +:+ ")")
  else Ok ("Enum16(" +:+ ch_enum_values +:+ ")").

Definition signedness (is_unsigned : bool) (u s : string) : result string :=
  if is_unsigned then Ok u else Ok s.

Definition convert_type (mysql_type parameters : string) : result string :=
  let is_unsigned := PyStr.contains "unsigned" (PyStr.lower parameters) in
  let has sub := PyStr.contains sub mysql_type in
  let is_ s := String.eqb mysql_type s in
  match types_mapping self !! mysql_type with
  | Some result_type => Ok result_type
  | None =>
  if is_ "point" then Ok "Tuple(x Float32, y Float32)"
  else if PyStr.startswith mysql_type "numeric"
  then convert_numeric mysql_type is_unsigned
  else if is_ "int" then signedness is_unsigned "UInt32" "Int32"
  else if is_ "integer" then signedness is_unsigned "UInt32" "Int32"
  else if is_ "bigint" then signedness is_unsigned "UInt64" "Int64"
  else if is_ "double" then Ok "Float64"
  else if is_ "real" then Ok "Float64"
  else if is_ "float" then Ok "Float32"
  else if is_ "date" then Ok "Date32"
  else if is_ "tinyint(1)" then Ok "Bool"
  else if is_ "bit(1)" then Ok "Bool"
  else if is_ "bool" then Ok "Bool"
  else if has "smallint" then signedness is_unsigned "UInt16" "Int16"
  else if has "tinyint" then signedness is_unsigned "UInt8" "Int8"
  else if has "mediumint" then signedness is_unsigned "UInt32" "Int32"
  else if has "datetime"
  then Ok (PyStr.replace mysql_type "datetime" "DateTime64")
  else if has "longtext" then Ok "String"
  else if has "varchar" then Ok "String"
  else if PyStr.startswith mysql_type "enum" then convert_enum mysql_type
  else if has "text" then Ok "String"
  else if has "blob" then Ok "String"
  else if has "char" then Ok "String"
  else if has "json" then Ok "String"
  else if has "decimal" then Ok "Float64"
  else if has "float" then Ok "Float32"
  else if has "double" then Ok "Float64"
  else if has "bigint" then signedness is_unsigned "UInt64" "Int64"
  else if has "integer" || has "int("
  then signedness is_unsigned "UInt32" "Int32"
  else if has "real" then Ok "Float64"
  else if PyStr.startswith mysql_type "timestamp"
  then convert_timestamp_to_datetime64 mysql_type
  else if PyStr.startswith mysql_type "time" then Ok "String"
  else if has "varbinary" then Ok "String"
  else if has "binary" then Ok "String"
  else if has "set(" then Ok "String"
  else Raise (Exception ("unknown mysql type " +:+ dquote +:+ mysql_type
                         +:+ dquote))
  end.

Definition convert_field_type (mysql_type mysql_parameters : string)
  : result string :=
  let mysql_type := PyStr.lower mysql_type in
  let mysql_parameters := PyStr.lower mysql_parameters in
  let not_null := PyStr.contains "not null" mysql_parameters in
  clickhouse_type ← convert_type mysql_type mysql_parameters;
  let not_null :=
    if PyStr.contains "Tuple" clickhouse_type then true else not_null in
  let clickhouse_type :=
    if negb not_null then "Nullable(" +:+ clickhouse_type +:+ ")"
    else clickhouse_type in
  Ok clickhouse_type.

End TypeMapper.

(** ** Row values and table structures *)

(** What a column of a row holds: the null, an integer, a text, a byte
    string or a set of labels on the way in; the decoder of POINT adds a
    pair of coordinates on the way out. *)
Inductive value : Type :=
| VNone
| VInt (z : Z)
| VStr (s : string)
| VBytes (b : list byte)
| VSet (labels : list string)
| VPoint (x y : num).

Module TableField.
Record t : Type := {
  name : string;
  field_type : string;
  parameters : string;
  additional_data : option (list string);
}.
End TableField.

Module TableStructure.
Record t : Type := {
  table_name : string;
  fields : list TableField.t;
  primary_keys : list string;
  primary_key_ids : list nat;
  if_not_exists : bool;
  charset_python : option string;
}.
End TableStructure.

(** [x is not None] *)
Definition is_not_None (v : value) : bool :=
  match v with VNone => false | _ => true end.

(** [len(x)] *)
Definition py_len (v : value) : result nat :=
  match v with
  | VStr s => Ok (String.length s)
  | VBytes b => Ok (length b)
  | VSet l => Ok (length l)
  | VPoint _ _ => Ok 2%nat
  | VInt _ => Raise (TypeError "object of type 'int' has no len()")
  | VNone => Raise (TypeError "object of type 'NoneType' has no len()")
  end.

(** [x < 0] *)
Definition lt0 (v : value) : result bool :=
  match v with
  | VInt z => Ok (z <? 0)%Z
  | _ => Raise (TypeError "'<' not supported between instances")
  end.

(** [k + x] *)
Definition add_to (k : Z) (v : value) : result value :=
  match v with
  | VInt z => Ok (VInt (k + z))
  | _ => Raise (TypeError "unsupported operand type(s) for +")
  end.

(** [if applies and x < 0: x = modulus + x]; the comparison is only
    evaluated when [applies] holds. *)
Definition correct_negative (applies : bool) (modulus : Z) (v : value)
  : result value :=
  if applies then
    negative ← lt0 v;
    if negative : bool then add_to modulus v else Ok v
  else Ok v.

(** Lines 410-419 of [convert_record]: five corrections in a row, each
    one looking at the value the one before left. *)
Definition unsigned_correction (mysql_field_type clickhouse_field_type : string)
  (v : value) : result value :=
  v ← correct_negative (PyStr.contains "UInt16" clickhouse_field_type)
        65536 v;
  v ← correct_negative (PyStr.contains "UInt8" clickhouse_field_type)
        256 v;
  v ← correct_negative
        (PyStr.contains "mediumint" (PyStr.lower mysql_field_type))
        16777216 v;
  v ← correct_negative (PyStr.contains "UInt32" clickhouse_field_type)
        4294967296 v;
  correct_negative (PyStr.contains "UInt64" clickhouse_field_type)
    18446744073709551616 v.

(** [parse_mysql_point] on whatever the column holds: [len], indexing
    and [struct.unpack] raise on what is not a byte string. *)
Definition parse_mysql_point_value (v : value) : result value :=
  let as_value r := '(x, y) ← r; Ok (VPoint x y) in
  match v with
  | VNone => as_value (parse_mysql_point None)
  | VBytes b => as_value (parse_mysql_point (Some b))
  | _ =>
      n ← py_len v;
      if (n =? 21)%nat then
        match v with
        | VStr _ => Raise (ValueError "Invalid byte order in WKB POINT")
        | _ => Raise (TypeError "object is not subscriptable")
        end
      else if (n =? 25)%nat then
        match v with
        | VStr _ => Raise (TypeError "a bytes-like object is required")
        | _ => Raise (TypeError "object is not subscriptable")
        end
      else Raise (ValueError "Invalid binary length for WKB POINT")
  end.

(** ** [convert_record] *)

Section RecordTranscoder.

(** [str(x)] *)
Variable py_str : value -> string.
(** [repr] of a list of [str], as an f-string prints it. *)
Variable repr_list : list string -> string.
(** [json.dumps(convert_bytes(x))] *)
Variable json_dumps : value -> result string.
(** [b.decode(charset)] *)
Variable decode : list byte -> string -> result string.
(** [uuid.UUID(x).bytes] *)
Variable uuid_bytes : value -> result (list byte).
(** [EnumConverter.convert_mysql_to_clickhouse_enum] of the [enum]
    module. *)
Variable convert_mysql_to_clickhouse_enum :
  value -> option (list string) -> string -> result value.

Variable mysql_field_types : list string.
Variable clickhouse_field_types : list string.
Variable mysql_structure : TableStructure.t.
Variable only_primary : bool.

Definition uuid_step (clickhouse_field_type : string) (v : value)
  : result value :=
  if PyStr.contains "UUID" clickhouse_field_type then
    n ← py_len v;
    if (n =? 36)%nat then
      v ← match v with
          | VBytes b => s ← decode b "utf-8"; Ok (VStr s)
          | _ => Ok v
          end;
      b ← uuid_bytes v;
      Ok (VBytes b)
    else Ok v
  else Ok v.

Definition charset_step (mysql_field_type clickhouse_field_type : string)
  (v : value) : result value :=
  if PyStr.contains "String" clickhouse_field_type
     && (PyStr.contains "text" mysql_field_type
         || PyStr.contains "char" mysql_field_type)
  then
    match v with
    | VBytes b =>
        let charset :=
          match TableStructure.charset_python mysql_structure with
          | Some cs => if String.eqb cs "" then "utf-8" else cs
          | None => "utf-8"
          end in
        s ← decode b charset;
        Ok (VStr s)
    | _ => Ok v
    end
  else Ok v.

(** [for ... in enumerate(set_values)] and [for v in set_values] *)
Definition iterate (set_values : option (list string))
  : result (list string) :=
  match set_values with
  | Some l => Ok l
  | None => Raise (TypeError "'NoneType' object is not iterable")
  end.

Definition set_step (idx : nat) (mysql_field_type : string) (v : value)
  : result value :=
  if PyStr.contains "set(" mysql_field_type then
    field ← getitem (TableStructure.fields mysql_structure) idx;
    let set_values := TableField.additional_data field in
    labels ←
      match v with
      | VInt bit_mask =>
          l ← iterate set_values;
          Ok (omap (fun '(idx, val) =>
                      if negb (Z.land bit_mask
                                 (Z.shiftl 1 (Z.of_nat idx)) =? 0)%Z
                      then Some val else None)
                   (imap (fun idx val => (idx, val)) l))
      | VSet members =>
          l ← iterate set_values;
          Ok (filter (fun v => v ∈ members) l)
      | VStr s => Ok (PyStr.chars s)
      | VBytes [] => Ok []
      | _ => Raise (TypeError "sequence item: expected str instance")
      end;
    Ok (VStr (PyStr.join "," labels))
  else Ok v.

Definition index_error_message (idx : nat) (mysql_record : list value)
  (mysql_field_value : value) : string :=
  "Field index " +:+ PyStr.of_Z (Z.of_nat idx)
  +:+ " out of range for table '"
  +:+ TableStructure.table_name mysql_structure
  +:+ "' with field_value: " +:+ py_str mysql_field_value
  +:+ ". Record has " +:+ PyStr.of_Z (Z.of_nat (length mysql_record))
  +:+ " fields but schema has "
  +:+ PyStr.of_Z (Z.of_nat (length mysql_field_types))
  +:+ " fields. Field types defined in schema: "
  +:+ repr_list mysql_field_types
  +:+ ". This may indicate a schema mismatch between MySQL and the replication process.".

(** The body of the loop over the columns of one row. *)
Definition convert_column (mysql_record : list value) (idx : nat)
  (mysql_field_value : value) : result value :=
  if only_primary
     && negb (bool_decide
                (idx ∈ TableStructure.primary_key_ids mysql_structure))
  then Ok mysql_field_value
  else
    let v := mysql_field_value in
    mysql_field_type ←
      match mysql_field_types !! idx with
      | Some t => Ok t
      | None =>
          Raise (IndexError
                   (index_error_message idx mysql_record mysql_field_value))
      end;
    clickhouse_field_type ← getitem clickhouse_field_types idx;
    let v :=
      if PyStr.startswith mysql_field_type "time"
         && PyStr.contains "String" clickhouse_field_type
      then VStr (py_str mysql_field_value) else v in
    v ← (if String.eqb mysql_field_type "json"
            && PyStr.contains "String" clickhouse_field_type
         then match v with
              | VStr _ => Ok v
              | _ => s ← json_dumps v; Ok (VStr s)
              end
         else Ok v);
    v ← (if is_not_None v then
           v ← uuid_step clickhouse_field_type v;
           v ← unsigned_correction mysql_field_type clickhouse_field_type v;
           v ← charset_step mysql_field_type clickhouse_field_type v;
           set_step idx mysql_field_type v
         else Ok v);
    v ← (if PyStr.startswith mysql_field_type "point"
         then parse_mysql_point_value v else Ok v);
    if PyStr.startswith mysql_field_type "enum(" then
      field ← getitem (TableStructure.fields mysql_structure) idx;
      let enum_values := TableField.additional_data field in
      let field_name := TableField.name field in
      convert_mysql_to_clickhouse_enum v enum_values field_name
    else Ok v.

(** [for idx, mysql_field_value in enumerate(mysql_record)], from
    column [idx] on. *)
Fixpoint convert_columns (mysql_record : list value) (idx : nat)
  (rest : list value) : result (list value) :=
  match rest with
  | [] => Ok []
  | mysql_field_value :: rest' =>
      v ← convert_column mysql_record idx mysql_field_value;
      vs ← convert_columns mysql_record (S idx) rest';
      Ok (v :: vs)
  end.

Definition convert_record (mysql_record : list value)
  : result (list value) :=
  convert_columns mysql_record 0 mysql_record.

End RecordTranscoder.

(** ** [convert_alter_query] *)

Definition __basic_validate_query (mysql_query : string) : result string :=
  let mysql_query := PyStr.strip mysql_query in
  let mysql_query :=
    if PyStr.endswith mysql_query ";" then PyStr.init mysql_query
    else mysql_query in
  if PyStr.has_char ";" mysql_query
  then Raise (Exception "multi-query statement not supported")
  else Ok mysql_query.

Definition get_db_and_table_name (self : MysqlToClickhouseConverter)
  (token db_name : string) : result (string * string * bool) :=
  names ←
    (if PyStr.contains "." token then
       match PyStr.split_on "."%char token with
       | [db_name; table_name] => Ok (db_name, table_name)
       | _ :: _ :: _ :: _ =>
           Raise (ValueError "too many values to unpack (expected 2)")
       | _ =>
           Raise (ValueError "not enough values to unpack (expected 2)")
       end
     else Ok (db_name, token));
  let '(db_name, table_name) := names in
  let db_name := strip_sql_name db_name in
  let table_name := strip_sql_name table_name in
  match db_replicator self with
  | Some r =>
      let db_name :=
        if String.eqb db_name (DbReplicator.database r)
        then DbReplicator.target_database r else db_name in
      let matches_config :=
        Config.is_database_matches (DbReplicator.config r) db_name
        && Config.is_table_matches (DbReplicator.config r) table_name in
      Ok (db_name, table_name, matches_config)
  | None => Ok (db_name, table_name, true)
  end.

(** [x in ('constraint', 'index', 'foreign', 'unique')] *)
Definition is_constraint_keyword (x : string) : bool :=
  String.eqb x "constraint" || String.eqb x "index"
  || String.eqb x "foreign" || String.eqb x "unique".

Section DdlTranslator.

(** What the four column operations read and change: the table
    structures of the replication session and the statements sent to
    ClickHouse. *)
Variable World : Type.

(** The four column operations, given the database name, the table
    name and the tokens of the sub-operation. *)
Variable __convert_alter_table_add_column :
  string -> string -> list string -> World -> result World.
Variable __convert_alter_table_drop_column :
  string -> string -> list string -> World -> result World.
Variable __convert_alter_table_modify_column :
  string -> string -> list string -> World -> result World.
Variable __convert_alter_table_change_column :
  string -> string -> list string -> World -> result World.

(** The body of [for subquery in subqueries]; [Ok] is the end of the
    iteration, by [continue] or not. *)
Definition convert_subquery (mysql_query db_name table_name : string)
  (subquery : string) (w : World) : result World :=
  let subquery := PyStr.strip subquery in
  let tokens := PyStr.split subquery in
  t ← getitem tokens 0;
  let op_name := PyStr.lower t in
  let tokens := drop 1 tokens in
  t ← getitem tokens 0;
  let tokens :=
    if String.eqb (PyStr.lower t) "column" then drop 1 tokens
    else tokens in
  if String.eqb op_name "add" then
    t ← getitem tokens 0;
    if is_constraint_keyword (PyStr.lower t) then Ok w
    else __convert_alter_table_add_column db_name table_name tokens w
  else if String.eqb op_name "drop" then
    t ← getitem tokens 0;
    if is_constraint_keyword (PyStr.lower t) then Ok w
    else __convert_alter_table_drop_column db_name table_name tokens w
  else if String.eqb op_name "modify" then
    __convert_alter_table_modify_column db_name table_name tokens w
  else if String.eqb op_name "alter" then Ok w
  else if String.eqb op_name "auto_increment" then Ok w
  else if String.eqb op_name "change" then
    __convert_alter_table_change_column db_name table_name tokens w
  else
    Raise (Exception ("operation " +:+ op_name
                      +:+ " not implement, query: " +:+ subquery
                      +:+ ", full query: " +:+ mysql_query)).

Fixpoint convert_subqueries (mysql_query db_name table_name : string)
  (subqueries : list string) (w : World) : result World :=
  match subqueries with
  | [] => Ok w
  | subquery :: rest =>
      w ← convert_subquery mysql_query db_name table_name subquery w;
      convert_subqueries mysql_query db_name table_name rest w
  end.

Definition convert_alter_query (self : MysqlToClickhouseConverter)
  (mysql_query db_name : string) (w : World) : result World :=
  mysql_query ← __basic_validate_query mysql_query;
  let tokens := PyStr.split mysql_query in
  t ← getitem tokens 0;
  if negb (String.eqb (PyStr.lower t) "alter")
  then Raise (Exception "wrong query")
  else
    t ← getitem tokens 1;
    if negb (String.eqb (PyStr.lower t) "table")
    then Raise (Exception "wrong query")
    else
      t ← getitem tokens 2;
      '(db_name, table_name, matches_config) ←
        get_db_and_table_name self t db_name;
      if negb matches_config then Ok w
      else
        let subqueries := PyStr.join " " (drop 3 tokens) in
        let subqueries := split_high_level subqueries "," in
        convert_subqueries mysql_query db_name table_name subqueries w.

End DdlTranslator.

(** ** [convert_records] *)

Section BatchTranscoder.

Variable py_str : value -> string.
Variable repr_list : list string -> string.
Variable json_dumps : value -> result string.
Variable decode : list byte -> string -> result string.
Variable uuid_bytes : value -> result (list byte).
Variable convert_mysql_to_clickhouse_enum :
  value -> option (list string) -> string -> result value.

(** [for mysql_record in mysql_records], the rows being appended to
    [clickhouse_records] in order. *)
Fixpoint convert_rows (mysql_field_types clickhouse_filed_types : list string)
  (mysql_structure : TableStructure.t) (only_primary : bool)
  (mysql_records : list (list value)) : result (list (list value)) :=
  match mysql_records with
  | [] => Ok []
  | mysql_record :: rest =>
      clickhouse_record ←
        convert_record py_str repr_list json_dumps decode uuid_bytes
          convert_mysql_to_clickhouse_enum mysql_field_types
          clickhouse_filed_types mysql_structure only_primary mysql_record;
      clickhouse_records ←
        convert_rows mysql_field_types clickhouse_filed_types
          mysql_structure only_primary rest;
      Ok (clickhouse_record :: clickhouse_records)
  end.

Definition convert_records (mysql_records : list (list value))
  (mysql_structure clickhouse_structure : TableStructure.t)
  (only_primary : bool) : result (list (list value)) :=
  let mysql_field_types :=
    map TableField.field_type (TableStructure.fields mysql_structure) in
  let clickhouse_filed_types :=
    map TableField.field_type (TableStructure.fields clickhouse_structure) in
  convert_rows mysql_field_types clickhouse_filed_types mysql_structure
    only_primary mysql_records.

End BatchTranscoder.

(** ** [convert_bytes] *)

(** The keys of a [dict]: [bytes], [str] and [int] objects, equal when
    they are of the same type and have the same content. *)
Inductive key : Type :=
| KBytes (b : list byte)
| KStr (s : string)
| KInt (z : Z).

(** The objects that [convert_bytes] is given: what a JSON document is
    made of, with [bytes] where the MySQL driver leaves them. A [dict]
    is the list of its items in insertion order. *)
#[warnings="-register-all"]
Inductive pyobj : Type :=
| PDict (items : list (key * pyobj))
| PTuple (items : list pyobj)
| PList (items : list pyobj)
| PBytes (b : list byte)
| PStr (s : string)
| PInt (z : Z)
| PBool (b : bool)
| PNone.

Fixpoint bytes_eqb (a b : list byte) : bool :=
  match a, b with
  | [], [] => true
  | x :: a', y :: b' => Byte.eqb x y && bytes_eqb a' b'
  | _, _ => false
  end.

Definition key_eqb (k1 k2 : key) : bool :=
  match k1, k2 with
  | KBytes a, KBytes b => bytes_eqb a b
  | KStr a, KStr b => String.eqb a b
  | KInt a, KInt b => (a =? b)%Z
  | _, _ => false
  end.

(** [d[k] = v]: the value of an existing key is replaced where it is,
    a new key goes to the end. *)
Fixpoint dict_set (d : list (key * pyobj)) (k : key) (v : pyobj)
  : list (key * pyobj) :=
  match d with
  | [] => [(k, v)]
  | (k', v') :: d' =>
      if key_eqb k' k then (k', v) :: d'
      else (k', v') :: dict_set d' k v
  end.

Section BytesToText.

(** [b.decode('utf-8')], which raises on bytes that are not UTF-8. *)
Variable decode_utf8 : list byte -> result string.

Fixpoint convert_bytes (obj : pyobj) : result pyobj :=
  match obj with
  | PDict items =>
      (fix items_loop (items new_obj : list (key * pyobj))
         : result pyobj :=
         match items with
         | [] => Ok (PDict new_obj)
         | (k, v) :: rest =>
             new_key ← match k with
                       | KBytes b => s ← decode_utf8 b; Ok (KStr s)
                       | _ => Ok k
                       end;
             new_value ← convert_bytes v;
             items_loop rest (dict_set new_obj new_key new_value)
         end) items []
  | PTuple items =>
      new_obj ← (fix item_loop (items : list pyobj)
                   : result (list pyobj) :=
                   match items with
                   | [] => Ok []
                   | item :: rest =>
                       x ← convert_bytes item;
                       xs ← item_loop rest;
                       Ok (x :: xs)
                   end) items;
      Ok (PTuple new_obj)
  | PList items =>
      new_obj ← (fix item_loop (items : list pyobj)
                   : result (list pyobj) :=
                   match items with
                   | [] => Ok []
                   | item :: rest =>
                       x ← convert_bytes item;
                       xs ← item_loop rest;
                       Ok (x :: xs)
                   end) items;
      Ok (PList new_obj)
  | PBytes b => s ← decode_utf8 b; Ok (PStr s)
  | _ => Ok obj
  end.

End BytesToText.

(** * Specifications

    The definitions below are not translations of the source: they say
    in the words of the specification what the functions above are
    compared with. *)

(** ** Scanning *)

(** The text does not start with a digit. *)
Definition no_digit_head (s : string) : Prop :=
  match s with
  | "" => True
  | String c _ => PyStr.is_digit c = false
  end.

(** The text does not start with a space. *)
Definition no_space_head (s : string) : Prop :=
  match s with
  | "" => True
  | String c _ => PyStr.is_space c = false
  end.

(** ** Splitting at the top level *)

(** The nesting a text adds: its opening parentheses minus its closing
    ones. *)
Fixpoint nesting (s : string) : Z :=
  match s with
  | "" => 0
  | String c s' =>
      ((if Ascii.eqb c "("%char then 1 else 0)
       - (if Ascii.eqb c ")"%char then 1 else 0) + nesting s')%Z
  end.

(** Every occurrence of the separator in [seg] is nested: the text of
    [seg] before it has a nesting other than 0. *)
Definition only_nested (token seg : string) : Prop :=
  forall pre c post,
    seg = pre +:+ String c post -> String c "" = token ->
    nesting pre <> 0%Z.

(** [pieces ++ [final]] cuts [data] at separators of nesting 0, and at
    all of them: the pieces joined by the separator give [data] back,
    every piece before a cut is balanced, and no piece has a separator
    of nesting 0 left in it. The separator is looked for one character
    at a time: one of another length cuts nowhere. *)
Definition top_level_pieces (token data : string) (pieces : list string)
  (final : string) : Prop :=
  data = PyStr.join token (pieces ++ [final])
  /\ Forall (fun p => only_nested token p /\ nesting p = 0%Z) pieces
  /\ only_nested token final
  /\ (pieces <> [] -> String.length token = 1%nat).

(** The last piece is kept only when it is not empty. *)
Definition keep_final (final : string) : list string :=
  if String.eqb final "" then [] else [final].

(** ** The WKB encoding of a POINT *)

(** The byte-order flag: 0 is big-endian, 1 is little-endian. *)
Definition flag_endian (flag : byte) (e : endian) : Prop :=
  (byte_value flag = 0%Z /\ e = Big) \/ (byte_value flag = 1%Z /\ e = Little).

(** An optional SRID of 4 bytes in front of the WKB. *)
Definition srid_prefix (srid : list byte) : Prop :=
  length srid = 0%nat \/ length srid = 4%nat.

(** A well-formed payload: SRID or not, flag, geometry type 1 on 4
    bytes, and the two coordinates on 8 bytes each. *)
Inductive wkb_point : list byte -> spec_float -> spec_float -> Prop :=
| wkb_point_intro (srid : list byte) (flag : byte) (e : endian)
    (ty xs ys : list byte) :
    srid_prefix srid ->
    flag_endian flag e ->
    length ty = 4%nat -> uint_of_bytes e ty = 1%Z ->
    length xs = 8%nat -> length ys = 8%nat ->
    wkb_point (srid ++ flag :: ty ++ xs ++ ys)%list
      (double_of_bytes e xs) (double_of_bytes e ys).

(** What a payload of 20 bytes after the flag decodes to, an SRID in
    front or not. *)
Definition decode_after_flag (flag : byte) (ty xs ys : list byte)
  : result (num * num) :=
  endian ← endian_of_byte_order (byte_value flag);
  if negb (uint_of_bytes endian ty =? 1)%Z
  then Raise (ValueError "Not a WKB POINT type")
  else Ok (NFloat (double_of_bytes endian xs),
           NFloat (double_of_bytes endian ys)).

Definition bad_length (b : list byte) : Prop :=
  length b <> 21%nat /\ length b <> 25%nat.

Definition bad_flag (b : list byte) : Prop :=
  exists srid flag rest,
    b = (srid ++ flag :: rest)%list /\ srid_prefix srid /\ length rest = 20%nat
    /\ byte_value flag <> 0%Z /\ byte_value flag <> 1%Z.

Definition bad_type (b : list byte) : Prop :=
  exists srid flag e ty rest,
    b = (srid ++ flag :: ty ++ rest)%list /\ srid_prefix srid /\ flag_endian flag e
    /\ length ty = 4%nat /\ length rest = 16%nat
    /\ uint_of_bytes e ty <> 1%Z.

(** ** Unsigned-width correction *)

(** One correction on an integer: the modulus is added when the
    correction applies and the integer is negative. *)
Definition add_if_negative (applies : bool) (modulus z : Z) : Z :=
  if applies && (z <? 0)%Z then (z + modulus)%Z else z.

(** The corrections in the order of the source, each on what the one
    before left. *)
Definition sequential_correction (mysql_field_type clickhouse_field_type : string)
  (z : Z) : Z :=
  let z := add_if_negative
             (PyStr.contains "UInt16" clickhouse_field_type) (2 ^ 16) z in
  let z := add_if_negative
             (PyStr.contains "UInt8" clickhouse_field_type) (2 ^ 8) z in
  let z := add_if_negative
             (PyStr.contains "mediumint" (PyStr.lower mysql_field_type))
             (2 ^ 24) z in
  let z := add_if_negative
             (PyStr.contains "UInt32" clickhouse_field_type) (2 ^ 32) z in
  add_if_negative (PyStr.contains "UInt64" clickhouse_field_type) (2 ^ 64) z.

(** The destination type names the unsigned width of [bits] bits and no
    other. *)
Definition names_width (clickhouse_field_type : string) (bits : Z) : Prop :=
  exists w8 w16 w32 w64 : bool,
    PyStr.contains "UInt8" clickhouse_field_type = w8
    /\ PyStr.contains "UInt16" clickhouse_field_type = w16
    /\ PyStr.contains "UInt32" clickhouse_field_type = w32
    /\ PyStr.contains "UInt64" clickhouse_field_type = w64
    /\ ((bits = 8%Z /\ (w8, w16, w32, w64) = (true, false, false, false))
        \/ (bits = 16%Z /\ (w8, w16, w32, w64) = (false, true, false, false))
        \/ (bits = 32%Z /\ (w8, w16, w32, w64) = (false, false, true, false))
        \/ (bits = 64%Z /\ (w8, w16, w32, w64) = (false, false, false, true))).

(** The modulus of the unsigned width a destination type names. *)
Definition width_modulus (clickhouse_field_type : string) : Z :=
  if PyStr.contains "UInt8" clickhouse_field_type then 2 ^ 8
  else if PyStr.contains "UInt16" clickhouse_field_type then 2 ^ 16
  else if PyStr.contains "UInt32" clickhouse_field_type then 2 ^ 32
  else if PyStr.contains "UInt64" clickhouse_field_type then 2 ^ 64
  else 0.

(** The correction of a negative integer read as one rule: the modulus
    of the destination width, and 2^24 more for a [mediumint]. *)
Definition cumulative_correction (mysql_field_type clickhouse_field_type : string)
  (z : Z) : Z :=
  (z + width_modulus clickhouse_field_type
   + (if PyStr.contains "mediumint" mysql_field_type then 2 ^ 24 else 0))%Z.

(** A table without fields, and stand-ins for the functions of other
    modules, for the rows that do not reach them. *)
Definition empty_structure : TableStructure.t :=
  {| TableStructure.table_name := "t";
     TableStructure.fields := [];
     TableStructure.primary_keys := [];
     TableStructure.primary_key_ids := [];
     TableStructure.if_not_exists := false;
     TableStructure.charset_python := None |}.

Definition no_str (v : value) : string := "".
Definition no_repr (l : list string) : string := "".
Definition no_json (v : value) : result string :=
  Raise (TypeError "not JSON serializable").
Definition no_decode (b : list byte) (charset : string) : result string :=
  Raise (ValueError "cannot decode").
Definition no_uuid (v : value) : result (list byte) :=
  Raise (ValueError "badly formed hexadecimal UUID string").

(** A table with one [enum] column. *)
Definition enum_structure : TableStructure.t :=
  {| TableStructure.table_name := "t";
     TableStructure.fields :=
       [{| TableField.name := "colour";
           TableField.field_type := "enum('a','b')";
           TableField.parameters := "";
           TableField.additional_data := Some ["a"; "b"] |}];
     TableStructure.primary_keys := [];
     TableStructure.primary_key_ids := [];
     TableStructure.if_not_exists := false;
     TableStructure.charset_python := None |}.

(** ** The numeric and enum types *)

(** [s] starts with a text that [numeric\((\d+)\s*,\s*(\d+)\)] matches,
    its two groups being [g1] and [g2]. *)
Definition numeric_pattern (s g1 g2 : string) : Prop :=
  exists ws1 ws2 post,
    s = "numeric(" +:+ g1 +:+ ws1 +:+ "," +:+ ws2 +:+ g2 +:+ ")" +:+ post
    /\ g1 <> "" /\ PyStr.all_digits g1 = true
    /\ PyStr.all_space ws1 = true /\ PyStr.all_space ws2 = true
    /\ g2 <> "" /\ PyStr.all_digits g2 = true.

(** The type of a numeric of precision [p] and scale [s]. *)
Definition numeric_type (is_unsigned : bool) (p s : Z) : string :=
  if (s =? 0)%Z && (p <=? 9)%Z then
    if is_unsigned then "UInt32" else "Int32"
  else if (s =? 0)%Z && (p <=? 18)%Z then
    if is_unsigned then "UInt64" else "Int64"
  else "Decimal(" +:+ PyStr.of_Z p +:+ ", " +:+ PyStr.of_Z s +:+ ")".

(** The labels in lower case, in the order of the declaration, each
    with its ordinal: 1 for the first. *)
Definition enum_members (labels : list string) : list (string * nat) :=
  combine (map PyStr.lower labels) (seq 1 (length labels)).

Definition enum_member (member : string * nat) : string :=
  "'" +:+ fst member +:+ "' = " +:+ PyStr.of_Z (Z.of_nat (snd member)).

Definition enum_type (labels : list string) : string :=
  (if (length labels <=? 127)%nat then "Enum8(" else "Enum16(")
  +:+ PyStr.join ", " (map enum_member (enum_members labels)) +:+ ")".

(** Modelled from the spec: [parse_mysql_enum] of the [enum] module,
    which is not part of the source at hand. The specification says
    that it parses the ordered labels of an [enum(...)] declaration;
    here they are the texts between the parentheses, separated by
    commas, each without the spaces around it and without its quotes. *)
Definition unquote (s : string) : string :=
  let s := PyStr.strip s in
  if PyStr.startswith s "'" && PyStr.endswith s "'"
  then PyStr.init (PyStr.tail s) else s.

Definition parse_mysql_enum_spec (enum_definition : string)
  : result (list string) :=
  let s := PyStr.strip enum_definition in
  if String.eqb (PyStr.lower (String.substring 0 5 s)) "enum("
     && PyStr.endswith s ")"
  then Ok (map unquote (PyStr.split_on ","%char (PyStr.init (PyStr.drop 5 s))))
  else Raise (ValueError "String does not start with 'enum'").

(** A replicator whose configuration overrides two types. *)
Definition override_replicator : DbReplicator.t :=
  {| DbReplicator.database := "db";
     DbReplicator.target_database := "db";
     DbReplicator.config :=
       {| Config.types_mapping :=
            {[ "numeric(5,0)" := "String";
               "enum('a','b')" := "String" ]};
          Config.is_database_matches := fun _ => true;
          Config.is_table_matches := fun _ => true |} |}.

(** ** Sub-operations *)

(** The tokens of a sub-operation after its keyword [op] and the token
    [t] that follows it, the optional [COLUMN] removed. *)
Definition operands (t : string) (rest : list string) : list string :=
  if String.eqb (PyStr.lower t) "column" then rest else t :: rest.

(** * More specifications *)

(** ** Flat texts *)

(** The text has no parenthesis. *)
Definition no_parens (s : string) : bool :=
  forallb (fun c => negb (Ascii.eqb c "("%char || Ascii.eqb c ")"%char))
          (list_ascii_of_string s).

(** The pieces without the last one when it is empty. *)
Fixpoint without_empty_last (l : list string) : list string :=
  match l with
  | [] => []
  | [final] => keep_final final
  | p :: l' => p :: without_empty_last l'
  end.

(** The text has no occurrence of the one-character text [token]. *)
Definition free_of (token s : string) : Prop :=
  forall pre c post, s = pre +:+ String c post -> String c "" <> token.

(** ** Temporal types *)

(** [s] is the word [timestamp] in any letter case, alone or followed
    by a parenthesised run of digits. *)
Definition timestamp_form (s : string) (precision : option string) : Prop :=
  exists keyword,
    PyStr.lower keyword = "timestamp"
    /\ match precision with
       | None => s = keyword
       | Some ds =>
           s = keyword +:+ "(" +:+ ds +:+ ")"
           /\ ds <> "" /\ PyStr.all_digits ds = true
       end.

Definition datetime64 (precision : option string) : string :=
  match precision with
  | None => "DateTime64"
  | Some ds => "DateTime64(" +:+ ds +:+ ")"
  end.

(** ** Signed and unsigned *)

(** Two results of the type mapping that differ at most by the sign of
    an integer type: the same exception, the same type, or [IntN] on
    one side and [UIntN] on the other. *)
Definition same_up_to_sign (signed unsigned : result string) : Prop :=
  match signed, unsigned with
  | Ok a, Ok b =>
      a = b
      \/ exists bits, bits ∈ ["8"; "16"; "32"; "64"]
                      /\ a = "Int" +:+ bits /\ b = "UInt" +:+ bits
  | Raise e, Raise e' => e = e'
  | _, _ => False
  end.

(** ** Sets *)

(** The labels whose bit is set in [mask], the first label having bit
    0, from position [i] on. *)
Fixpoint flagged_from (i : nat) (mask : Z) (labels : list string)
  : list string :=
  match labels with
  | [] => []
  | l :: labels' =>
      if Z.testbit mask (Z.of_nat i)
      then l :: flagged_from (S i) mask labels'
      else flagged_from (S i) mask labels'
  end.

Definition flagged (mask : Z) (labels : list string) : list string :=
  flagged_from 0 mask labels.

(** A table with one [set] column. *)
Definition set_structure : TableStructure.t :=
  {| TableStructure.table_name := "t";
     TableStructure.fields :=
       [{| TableField.name := "flags";
           TableField.field_type := "set('a','b','c')";
           TableField.parameters := "";
           TableField.additional_data := Some ["a"; "b"; "c"] |}];
     TableStructure.primary_keys := [];
     TableStructure.primary_key_ids := [];
     TableStructure.if_not_exists := false;
     TableStructure.charset_python := None |}.

(** ** Writing a POINT *)

(** The byte of value [z mod 256]. *)
Definition byte_of_Z (z : Z) : byte :=
  match Byte.of_N (Z.to_N (z mod 256)) with
  | Some b => b
  | None => x00
  end.

(** The [n] bytes that write the unsigned integer [w], most significant
    byte first. *)
Fixpoint bytes_of_uint (n : nat) (w : Z) : list byte :=
  match n with
  | O => []
  | S n' => (bytes_of_uint n' (w / 256) ++ [byte_of_Z w])%list
  end.

Definition in_order (e : endian) (bs : list byte) : list byte :=
  match e with Big => bs | Little => rev bs end.

Definition flag_of (e : endian) : byte :=
  match e with Big => x00 | Little => x01 end.

(** The WKB of the POINT whose coordinates have the bit patterns [wx]
    and [wy], in the byte order [e]. *)
Definition encode_point (e : endian) (wx wy : Z) : list byte :=
  (flag_of e :: in_order e (bytes_of_uint 4 1)
     ++ in_order e (bytes_of_uint 8 wx)
     ++ in_order e (bytes_of_uint 8 wy))%list.

(** ** Statements *)

(** No character of [s] is in the class [bad]. *)
Definition none_of (bad : ascii -> bool) (s : string) : bool :=
  forallb (fun c => negb (bad c)) (list_ascii_of_string s).

(** The character [c] does not occur in [s]. *)
Definition without (c : ascii) (s : string) : bool :=
  none_of (Ascii.eqb c) s.

(** A word of a statement: not empty and without white space. *)
Definition word (w : string) : bool :=
  negb (String.eqb w "") && none_of PyStr.is_space w.

(** The database that a replication session writes to for the source
    database [db_name]. *)
Definition target (r : DbReplicator.t) (db_name : string) : string :=
  if String.eqb db_name (DbReplicator.database r)
  then DbReplicator.target_database r else db_name.


(** The keywords of the sub-operations that [convert_alter_query]
    knows. *)
Definition known_operations : list string :=
  ["add"; "drop"; "modify"; "alter"; "auto_increment"; "change"].

(** ** Objects without [bytes] *)

Definition is_bytes_key (k : key) : bool :=
  match k with KBytes _ => true | _ => false end.

(** A [bytes] object is in [obj]: as [obj] itself, as an item of a
    list or of a tuple, or as a key or a value of a [dict], at any
    depth. *)
Fixpoint has_bytes (obj : pyobj) : bool :=
  match obj with
  | PDict items =>
      existsb (fun kv => is_bytes_key (fst kv) || has_bytes (snd kv)) items
  | PTuple items => existsb has_bytes items
  | PList items => existsb has_bytes items
  | PBytes _ => true
  | _ => false
  end.

(** No two items of a [dict] have the same key, in [obj] and in the
    objects inside it: what every Python object satisfies. *)
Fixpoint distinct_keys (obj : pyobj) : Prop :=
  match obj with
  | PDict items =>
      NoDup (map fst items)
      /\ (fix all (items : list (key * pyobj)) : Prop :=
            match items with
            | [] => True
            | kv :: rest => distinct_keys (snd kv) /\ all rest
            end) items
  | PTuple items | PList items =>
      (fix all (items : list pyobj) : Prop :=
         match items with
         | [] => True
         | item :: rest => distinct_keys item /\ all rest
         end) items
  | _ => True
  end.

Section Loops.

Variable decode_utf8 : list byte -> result string.

(** The conversion [f] of one object. *)
Variable f : pyobj -> result pyobj.

(** The loop of [convert_bytes] over the items of a list or of a
    tuple. *)
Fixpoint convert_each (items : list pyobj) : result (list pyobj) :=
  match items with
  | [] => Ok []
  | item :: rest =>
      x ← f item;
      xs ← convert_each rest;
      Ok (x :: xs)
  end.

(** The conversion of a key of a [dict]. *)
Definition convert_key (k : key) : result key :=
  match k with
  | KBytes b => s ← decode_utf8 b; Ok (KStr s)
  | _ => Ok k
  end.

(** The loop of [convert_bytes] over the items of a [dict]. *)
Fixpoint convert_items (items new_obj : list (key * pyobj)) : result pyobj :=
  match items with
  | [] => Ok (PDict new_obj)
  | (k, v) :: rest =>
      new_key ← convert_key k;
      new_value ← f v;
      convert_items rest (dict_set new_obj new_key new_value)
  end.

End Loops.

(** An item of a [dict] without [bytes]. *)
Definition clean_item (kv : key * pyobj) : Prop :=
  is_bytes_key (fst kv) = false /\ has_bytes (snd kv) = false.

(** The same as [distinct_keys] on the values of the items of a
    [dict] and on the items of a list. *)
Definition distinct_in_values (items : list (key * pyobj)) : Prop :=
  Forall (fun kv => distinct_keys (snd kv)) items.

(** UTF-8 decoding on the bytes below 128, where it is the identity;
    another byte is refused, as the first byte of a sequence that is
    not continued. *)
Definition decode_ascii (b : list byte) : result string :=
  if forallb (fun x => (Byte.to_N x <? 128)%N) b
  then Ok (string_of_list_byte b)
  else Raise (ValueError "'utf-8' codec can't decode bytes").

(** * Properties of the string operations *)

Section StringFacts.

Lemma str_prefix_inv (p s : string) :
  String.prefix p s = true -> exists rest, s = p +:+ rest.
Proof.
  revert s. induction p as [|a p IH]; intros s H.
  - exists s. reflexivity.
  - destruct s as [|b s]; simpl in H; [discriminate|].
    destruct (ascii_dec a b) as [->|]; [|discriminate].
    destruct (IH _ H) as [rest ->]. exists rest. reflexivity.
Qed.

Lemma str_prefix_app (p rest : string) : String.prefix p (p +:+ rest) = true.
Proof.
  induction p as [|a p IH]; simpl; [destruct rest; reflexivity|].
  destruct (ascii_dec a a); [exact IH|congruence].
Qed.

Lemma str_prefix_nil (s : string) : String.prefix "" s = true.
Proof. destruct s; reflexivity. Qed.

End StringFacts.

Section StringLength.

Lemma str_length_app (a b : string) :
  String.length (a +:+ b) = (String.length a + String.length b)%nat.
Proof. induction a as [|c a IH]; simpl; [reflexivity|]. rewrite IH. lia. Qed.

Lemma str_app_assoc (a b c : string) : (a +:+ b) +:+ c = a +:+ (b +:+ c).
Proof. induction a as [|x a IH]; simpl; congruence. Qed.

Lemma str_app_nil_r (a : string) : a +:+ "" = a.
Proof. induction a as [|x a IH]; simpl; congruence. Qed.

End StringLength.

Section SplitOn.

Lemma split_on_nonempty (sep : ascii) (s : string) :
  exists a l, PyStr.split_on sep s = a :: l.
Proof.
  destruct s as [|c s]; simpl; [eauto|].
  destruct (Ascii.eqb c sep); [eauto|].
  destruct (PyStr.split_on sep s); eauto.
Qed.

(** A text that contains the separator splits in two pieces at
    least. *)
Lemma split_on_contains (sep : ascii) (s : string) :
  PyStr.contains (String sep "") s = true ->
  exists a b l, PyStr.split_on sep s = a :: b :: l.
Proof.
  induction s as [|c s IH]; intros H; simpl in H; [discriminate|].
  simpl. destruct (ascii_dec sep c) as [<-|Hc].
  - rewrite Ascii.eqb_refl.
    destruct (split_on_nonempty sep s) as (a & l & ->). eauto.
  - simpl in H. destruct (Ascii.eqb_spec c sep); [congruence|].
    destruct (IH H) as (a & b & l & ->). eauto.
Qed.

End SplitOn.

Section Scanning.

Lemma digit_not_space (c : ascii) :
  PyStr.is_digit c = true -> PyStr.is_space c = false.
Proof.
  unfold PyStr.is_digit, PyStr.is_space. generalize (PyStr.code c) as n.
  intros n H. apply andb_true_iff in H as [H1 H2].
  apply N.leb_le in H1, H2.
  repeat match goal with
         | |- context [(?a <=? ?b)%N] => destruct (N.leb_spec a b)
         | |- context [(?a =? ?b)%N] => destruct (N.eqb_spec a b)
         end; simpl; try reflexivity; lia.
Qed.

Lemma space_not_digit (c : ascii) :
  PyStr.is_space c = true -> PyStr.is_digit c = false.
Proof.
  intros H. destruct (PyStr.is_digit c) eqn:D; [|reflexivity].
  apply digit_not_space in D. congruence.
Qed.

Lemma all_digits_cons (c : ascii) (s : string) :
  PyStr.all_digits (String c s) = PyStr.is_digit c && PyStr.all_digits s.
Proof. reflexivity. Qed.

Lemma all_space_cons (c : ascii) (s : string) :
  PyStr.all_space (String c s) = PyStr.is_space c && PyStr.all_space s.
Proof. reflexivity. Qed.

(** [span_digits] cuts after the longest run of digits... *)
Lemma span_digits_sound (s : string) :
  forall ds rest,
    PyStr.span_digits s = (ds, rest) ->
    s = ds +:+ rest /\ PyStr.all_digits ds = true /\ no_digit_head rest.
Proof.
  induction s as [|c s IH]; intros ds rest H; simpl in H.
  - injection H as <- <-. repeat split.
  - destruct (PyStr.is_digit c) eqn:D.
    + destruct (PyStr.span_digits s) as [ds' rest'].
      injection H as <- <-.
      destruct (IH _ _ eq_refl) as (-> & Hd & Hr).
      rewrite all_digits_cons, D, Hd. repeat split. exact Hr.
    + injection H as <- <-. repeat split. exact D.
Qed.

(** ... and at no other place. *)
Lemma span_digits_app (ds rest : string) :
  PyStr.all_digits ds = true -> no_digit_head rest ->
  PyStr.span_digits (ds +:+ rest) = (ds, rest).
Proof.
  intros Hd Hr. induction ds as [|c ds IH]; simpl.
  - destruct rest as [|c rest]; [reflexivity|].
    simpl in Hr. simpl. rewrite Hr. reflexivity.
  - rewrite all_digits_cons in Hd. apply andb_true_iff in Hd as [Hc Hd].
    rewrite Hc, (IH Hd). reflexivity.
Qed.

Lemma lstrip_sound (s : string) :
  exists ws,
    s = ws +:+ PyStr.lstrip s /\ PyStr.all_space ws = true
    /\ no_space_head (PyStr.lstrip s).
Proof.
  induction s as [|c s (ws & Hs & Hw & Hh)]; simpl.
  - exists "". repeat split.
  - destruct (PyStr.is_space c) eqn:E.
    + exists (String c ws). simpl. rewrite <- Hs, all_space_cons, E, Hw.
      repeat split. exact Hh.
    + exists "". repeat split. exact E.
Qed.

Lemma lstrip_app (ws rest : string) :
  PyStr.all_space ws = true -> no_space_head rest ->
  PyStr.lstrip (ws +:+ rest) = rest.
Proof.
  intros Hw Hr. induction ws as [|c ws IH]; simpl.
  - destruct rest as [|c rest]; [reflexivity|].
    simpl in Hr. simpl. rewrite Hr. reflexivity.
  - rewrite all_space_cons in Hw. apply andb_true_iff in Hw as [Hc Hw].
    rewrite Hc. exact (IH Hw).
Qed.

Lemma digits_head (g rest : string) :
  g <> "" -> PyStr.all_digits g = true -> no_space_head (g +:+ rest).
Proof.
  destruct g as [|c g]; [congruence|]. intros _ H.
  rewrite all_digits_cons in H. apply andb_true_iff in H as [H _].
  simpl. apply digit_not_space, H.
Qed.

Lemma spaces_head (ws : string) (c : ascii) (rest : string) :
  PyStr.all_space ws = true -> PyStr.is_digit c = false ->
  no_digit_head (ws +:+ String c rest).
Proof.
  destruct ws as [|x ws]; intros H Hc; simpl; [exact Hc|].
  rewrite all_space_cons in H. apply andb_true_iff in H as [H _].
  apply space_not_digit, H.
Qed.

End Scanning.

Section Contains.

Lemma contains_app_r (needle a b : string) :
  PyStr.contains needle b = true -> PyStr.contains needle (a +:+ b) = true.
Proof.
  intros H. induction a as [|c a IH]; simpl; [exact H|].
  rewrite IH. apply orb_true_r.
Qed.

Lemma contains_prefix (needle s : string) :
  String.prefix needle s = true -> PyStr.contains needle s = true.
Proof. intros H. destruct s; cbn [PyStr.contains]; rewrite H; reflexivity. Qed.

Lemma contains_here (needle rest : string) :
  PyStr.contains needle (needle +:+ rest) = true.
Proof. apply contains_prefix, str_prefix_app. Qed.

Lemma contains_middle (needle a b : string) :
  PyStr.contains needle (a +:+ needle +:+ b) = true.
Proof. apply contains_app_r, contains_here. Qed.

End Contains.

(** * The pattern of the numeric type *)

Section NumericPattern.

Lemma eqb_empty_false (g : string) : g <> "" -> String.eqb g "" = false.
Proof. intros H. apply String.eqb_neq, H. Qed.

(** The matcher finds the match the pattern describes... *)
Lemma match_numeric_at_complete (s g1 g2 : string) :
  numeric_pattern s g1 g2 -> match_numeric_at s = Some (g1, g2).
Proof.
  intros (ws1 & ws2 & post & -> & N1 & D1 & W1 & W2 & N2 & D2).
  unfold match_numeric_at.
  rewrite (str_prefix_app "numeric(").
  simpl (PyStr.drop _ _).
  rewrite (span_digits_app g1);
    [| exact D1 | apply spaces_head; [exact W1 | reflexivity]].
  rewrite (eqb_empty_false _ N1).
  rewrite (lstrip_app ws1); [| exact W1 | reflexivity].
  simpl.
  rewrite (lstrip_app ws2); [| exact W2 | apply digits_head; assumption].
  rewrite (span_digits_app g2); [| exact D2 | reflexivity].
  rewrite (eqb_empty_false _ N2). reflexivity.
Qed.

(** ... and nothing else. *)
Lemma match_numeric_at_sound (s g1 g2 : string) :
  match_numeric_at s = Some (g1, g2) -> numeric_pattern s g1 g2.
Proof.
  unfold match_numeric_at. intros H.
  destruct (String.prefix "numeric(" s) eqn:P; [|discriminate].
  apply str_prefix_inv in P as [r0 ->].
  simpl (PyStr.drop _ _) in H.
  destruct (PyStr.span_digits r0) as [d1 r1] eqn:S1.
  apply span_digits_sound in S1 as (-> & D1 & _).
  destruct (String.eqb_spec d1 ""); [discriminate|].
  destruct (lstrip_sound r1) as (ws1 & E1 & W1 & _).
  destruct (PyStr.lstrip r1) as [|c r3]; [discriminate|].
  destruct (Ascii.eqb_spec c ","); [subst c|discriminate].
  destruct (lstrip_sound r3) as (ws2 & E2 & W2 & _).
  destruct (PyStr.span_digits (PyStr.lstrip r3)) as [d2 r5] eqn:S2.
  apply span_digits_sound in S2 as (E3 & D2 & _).
  destruct (String.eqb_spec d2 ""); [discriminate|].
  destruct r5 as [|c' post]; [discriminate|].
  destruct (Ascii.eqb_spec c' ")"); [subst c'|discriminate].
  injection H as <- <-.
  exists ws1, ws2, post. repeat split; auto.
  rewrite E1, E2, E3. reflexivity.
Qed.

(** [search_numeric] answers with the groups of a match at some
    position... *)
Lemma search_numeric_sound (s g1 g2 : string) :
  search_numeric s = Some (g1, g2) ->
  exists pre rest, s = pre +:+ rest /\ numeric_pattern rest g1 g2.
Proof.
  induction s as [|c s IH]; intros H.
  - discriminate H.
  - cbn [search_numeric] in H.
    destruct (match_numeric_at (String c s)) as [[a b]|] eqn:M.
    + injection H as <- <-. exists "", (String c s).
      split; [reflexivity|]. apply match_numeric_at_sound, M.
    + destruct (IH H) as (pre & rest & -> & Hp).
      exists (String c pre), rest. split; [reflexivity|exact Hp].
Qed.

(** ... and finds none only when no position has a match. *)
Lemma search_numeric_none (s : string) :
  search_numeric s = None ->
  forall pre rest g1 g2, s = pre +:+ rest -> ~ numeric_pattern rest g1 g2.
Proof.
  induction s as [|c s IH]; intros H pre rest g1 g2 E Hp;
    apply match_numeric_at_complete in Hp; cbn [search_numeric] in H.
  - destruct pre; [|discriminate]. simpl in E. subst rest.
    rewrite Hp in H. discriminate.
  - destruct (match_numeric_at (String c s)) as [[a b]|] eqn:M;
      [discriminate|].
    destruct pre as [|x pre]; simpl in E.
    + subst rest. congruence.
    + injection E as <- ->.
      eapply IH; eauto. apply match_numeric_at_sound, Hp.
Qed.

Lemma search_numeric_here (s g1 g2 : string) :
  numeric_pattern s g1 g2 -> search_numeric s = Some (g1, g2).
Proof.
  intros H. apply match_numeric_at_complete in H.
  destruct s; cbn [search_numeric]; rewrite H; reflexivity.
Qed.

Lemma numeric_pattern_parens (s g1 g2 : string) :
  numeric_pattern s g1 g2 ->
  PyStr.startswith s "numeric" = true
  /\ PyStr.contains "(" s = true /\ PyStr.contains ")" s = true.
Proof.
  intros (ws1 & ws2 & post & -> & _). split; [reflexivity|]. split.
  - apply (contains_middle "(" "numeric").
  - do 6 apply contains_app_r. apply contains_here.
Qed.

End NumericPattern.

Section NumericMapping.

Variable parse_mysql_enum : string -> result (list string).
Variable self : MysqlToClickhouseConverter.

Lemma convert_numeric_type (u : bool) (p s : Z) :
  (if (s =? 0)%Z then
     if u then
       if (p <=? 9)%Z then Ok "UInt32"
       else if (p <=? 18)%Z then Ok "UInt64"
       else Ok (decimal_type p s)
     else
       if (p <=? 9)%Z then Ok "Int32"
       else if (p <=? 18)%Z then Ok "Int64"
       else Ok (decimal_type p s)
   else Ok (decimal_type p s))
  = Ok (numeric_type u p s).
Proof.
  unfold numeric_type, decimal_type.
  destruct (s =? 0)%Z, u, (p <=? 9)%Z, (p <=? 18)%Z; reflexivity.
Qed.

(** A type that starts with [numeric] and is not overridden is mapped
    by the numeric rule. *)
Lemma convert_type_numeric (t params : string) :
  types_mapping self !! t = None ->
  PyStr.startswith t "numeric" = true ->
  convert_type parse_mysql_enum self t params
  = convert_numeric t (PyStr.contains "unsigned" (PyStr.lower params)).
Proof.
  intros Hmap Hstart. unfold convert_type. rewrite Hmap, Hstart.
  destruct (str_prefix_inv _ _ Hstart) as [rest ->]. reflexivity.
Qed.

Lemma convert_numeric_found (t : string) (u : bool) (g1 g2 : string) :
  PyStr.contains "(" t && PyStr.contains ")" t = true ->
  search_numeric t = Some (g1, g2) ->
  convert_numeric t u
  = Ok (numeric_type u (PyStr.int_of_digits g1) (PyStr.int_of_digits g2)).
Proof.
  intros Hp Hs. unfold convert_numeric. rewrite Hp, Hs.
  cbn [mbind result_bind]. apply convert_numeric_type.
Qed.

Lemma convert_numeric_default (t : string) (u : bool) :
  PyStr.contains "(" t && PyStr.contains ")" t = false ->
  convert_numeric t u = Ok (numeric_type u 10 0).
Proof.
  intros Hp. unfold convert_numeric. rewrite Hp.
  cbn [mbind result_bind]. apply convert_numeric_type.
Qed.

Lemma convert_numeric_invalid (t : string) (u : bool) :
  PyStr.contains "(" t && PyStr.contains ")" t = true ->
  search_numeric t = None ->
  convert_numeric t u
  = Raise (ValueError ("Invalid numeric type definition: " +:+ t)).
Proof.
  intros Hp Hs. unfold convert_numeric. rewrite Hp, Hs. reflexivity.
Qed.

End NumericMapping.

(** C1, as the code has it. For a type string that starts with
    [numeric] and has no entry in the override table, [convert_type]
    gives: for the form [numeric(p,s)], with scale 0, a 32-bit integer
    type up to precision 9 and a 64-bit one up to precision 18, unsigned
    when the parameters contain [unsigned] in any letter case and signed
    otherwise; [Decimal(p, s)] for a scale 0 of precision above 18 and
    for every other scale; the same with p = 10 and s = 0 when the
    string has not both parentheses; and an exception when it has both
    and no part of it matches the pattern. *)
Theorem convert_type_numeric_mapping
  (parse_mysql_enum : string -> result (list string))
  (self : MysqlToClickhouseConverter) (t params : string) :
  types_mapping self !! t = None ->
  PyStr.startswith t "numeric" = true ->
  (forall g1 g2,
      numeric_pattern t g1 g2 ->
      convert_type parse_mysql_enum self t params
      = Ok (numeric_type (PyStr.contains "unsigned" (PyStr.lower params))
              (PyStr.int_of_digits g1) (PyStr.int_of_digits g2)))
  /\ (PyStr.contains "(" t && PyStr.contains ")" t = false ->
      convert_type parse_mysql_enum self t params
      = Ok (numeric_type (PyStr.contains "unsigned" (PyStr.lower params))
              10 0))
  /\ (PyStr.contains "(" t && PyStr.contains ")" t = true ->
      (forall pre rest g1 g2,
          t = pre +:+ rest -> ~ numeric_pattern rest g1 g2) ->
      convert_type parse_mysql_enum self t params
      = Raise (ValueError ("Invalid numeric type definition: " +:+ t))).
Proof.
  intros Hmap Hstart.
  rewrite (convert_type_numeric parse_mysql_enum self t params Hmap Hstart).
  split; [|split].
  - intros g1 g2 Hp. apply convert_numeric_found.
    + destruct (numeric_pattern_parens _ _ _ Hp) as (_ & -> & ->).
      reflexivity.
    + apply search_numeric_here, Hp.
  - apply convert_numeric_default.
  - intros Hp Hnone. apply convert_numeric_invalid; [exact Hp|].
    destruct (search_numeric t) as [[g1 g2]|] eqn:S; [|reflexivity].
    destruct (search_numeric_sound _ _ _ S) as (pre & rest & E & Hpat).
    destruct (Hnone _ _ _ _ E Hpat).
Qed.

Lemma convert_type_numeric_mapping_witness :
  convert_type (fun _ => Ok []) (__init__ None) "numeric(12, 0)" "unsigned"
  = Ok "UInt64"
  /\ convert_type (fun _ => Ok []) (__init__ None) "numeric(20,4)" ""
     = Ok "Decimal(20, 4)"
  /\ convert_type (fun _ => Ok []) (__init__ None) "numeric" "" = Ok "Int64"
  /\ convert_type (fun _ => Ok []) (__init__ None) "numeric)(" ""
     = Raise (ValueError "Invalid numeric type definition: numeric)(").
Proof.
  split; [|split; [|split]].
  - apply (proj1 (convert_type_numeric_mapping (fun _ => Ok [])
                    (__init__ None) "numeric(12, 0)" "unsigned"
                    eq_refl eq_refl) "12" "0").
    exists "", " ", "". repeat split; discriminate.
  - apply (proj1 (convert_type_numeric_mapping (fun _ => Ok [])
                    (__init__ None) "numeric(20,4)" ""
                    eq_refl eq_refl) "20" "4").
    exists "", "", "". repeat split; discriminate.
  - apply (proj1 (proj2 (convert_type_numeric_mapping (fun _ => Ok [])
                           (__init__ None) "numeric" "" eq_refl eq_refl))).
    reflexivity.
  - apply (proj2 (proj2 (convert_type_numeric_mapping (fun _ => Ok [])
                           (__init__ None) "numeric)(" "" eq_refl eq_refl)));
      [reflexivity|].
    intros pre rest g1 g2 E Hp.
    apply match_numeric_at_complete in Hp.
    assert (Hs : search_numeric "numeric)(" = None) by reflexivity.
    pose proof (fun g1 g2 P => search_numeric_none _ Hs pre rest g1 g2 E P)
      as Hno.
    apply (Hno g1 g2). apply match_numeric_at_sound, Hp.
Defined.

(** C1 as stated fails on two counts: an entry of the override table
    wins over the numeric rule, and [UNSIGNED] in capitals, which does
    not contain [unsigned], gives the unsigned type. *)
Lemma convert_type_numeric_counterexample :
  convert_type (fun _ => Ok []) (__init__ (Some override_replicator))
    "numeric(5,0)" ""
  = Ok "String"
  /\ PyStr.contains "unsigned" "UNSIGNED" = false
  /\ convert_type (fun _ => Ok []) (__init__ None) "numeric(5,0)" "UNSIGNED"
     = Ok "UInt32".
Proof. repeat split. Qed.

(** * Properties of the unsigned-width correction *)

Section UnsignedCorrection.

Lemma correct_negative_int (applies : bool) (modulus z : Z) :
  correct_negative applies modulus (VInt z)
  = Ok (VInt (add_if_negative applies modulus z)).
Proof.
  unfold correct_negative, add_if_negative.
  destruct applies; simpl; [|reflexivity].
  destruct (z <? 0)%Z; simpl; [f_equal; f_equal; lia | reflexivity].
Qed.

Lemma unsigned_correction_int (mt ct : string) (z : Z) :
  unsigned_correction mt ct (VInt z)
  = Ok (VInt (sequential_correction mt ct z)).
Proof.
  unfold unsigned_correction, sequential_correction.
  repeat (rewrite correct_negative_int; simpl mbind).
  unfold mbind, result_bind.
  repeat rewrite correct_negative_int. reflexivity.
Qed.

Lemma add_if_negative_nonneg (applies : bool) (modulus z : Z) :
  (0 <= z)%Z -> add_if_negative applies modulus z = z.
Proof.
  intros H. unfold add_if_negative.
  destruct (Z.ltb_spec z 0); [lia|]. rewrite andb_false_r. reflexivity.
Qed.

Lemma add_if_negative_skip (modulus z : Z) :
  add_if_negative false modulus z = z.
Proof. reflexivity. Qed.

Lemma add_if_negative_neg (modulus z : Z) :
  (z < 0)%Z -> add_if_negative true modulus z = (z + modulus)%Z.
Proof.
  intros H. unfold add_if_negative.
  destruct (Z.ltb_spec z 0); [reflexivity|lia].
Qed.

Lemma sequential_correction_nonneg (mt ct : string) (z : Z) :
  (0 <= z)%Z -> sequential_correction mt ct z = z.
Proof.
  intros H. unfold sequential_correction.
  rewrite !(add_if_negative_nonneg _ _ z) by assumption. reflexivity.
Qed.

End UnsignedCorrection.

(** C9. A non-negative integer goes through the unsigned-width
    correction unchanged, whatever the two types are. *)
Theorem unsigned_correction_nonneg (mt ct : string) (z : Z) :
  (0 <= z)%Z -> unsigned_correction mt ct (VInt z) = Ok (VInt z).
Proof.
  intros H. rewrite unsigned_correction_int.
  rewrite sequential_correction_nonneg by assumption. reflexivity.
Qed.

Lemma unsigned_correction_nonneg_witness :
  (0 <= 65535)%Z
  /\ unsigned_correction "smallint" "UInt16" (VInt 65535) = Ok (VInt 65535).
Proof.
  split; [lia|]. apply (unsigned_correction_nonneg "smallint" "UInt16" 65535).
  lia.
Defined.

(** A corrected value is left alone by a second pass when the first
    pass made it non-negative. *)
Lemma unsigned_correction_twice (mt ct : string) (z : Z) :
  (0 <= sequential_correction mt ct z)%Z ->
  (v ← unsigned_correction mt ct (VInt z); unsigned_correction mt ct v)
  = unsigned_correction mt ct (VInt z).
Proof.
  intros H. rewrite unsigned_correction_int. simpl.
  rewrite unsigned_correction_int.
  rewrite (sequential_correction_nonneg _ _ _ H). reflexivity.
Qed.

(** In a row, a non-negative integer of a column that no other step
    touches comes out as it is. *)
Lemma convert_column_nonneg_int
  (py_str : value -> string) (repr_list : list string -> string)
  (json_dumps : value -> result string)
  (decode : list byte -> string -> result string)
  (uuid_bytes : value -> result (list byte))
  (to_enum : value -> option (list string) -> string -> result value)
  (mysql_field_types clickhouse_field_types : list string)
  (mysql_structure : TableStructure.t) (only_primary : bool)
  (record : list value) (idx : nat) (mt ct : string) (z : Z) :
  mysql_field_types !! idx = Some mt ->
  clickhouse_field_types !! idx = Some ct ->
  PyStr.contains "String" ct = false ->
  PyStr.contains "UUID" ct = false ->
  PyStr.contains "set(" mt = false ->
  PyStr.startswith mt "point" = false ->
  PyStr.startswith mt "enum(" = false ->
  (0 <= z)%Z ->
  convert_column py_str repr_list json_dumps decode uuid_bytes to_enum
    mysql_field_types clickhouse_field_types mysql_structure only_primary
    record idx (VInt z)
  = Ok (VInt z).
Proof.
  intros Hmt Hct Hstr Huuid Hset Hpoint Henum Hz.
  unfold convert_column.
  destruct (only_primary && _); [reflexivity|].
  unfold getitem. rewrite Hmt, Hct. cbn [mbind result_bind].
  rewrite Hstr, !andb_false_r. cbn [mbind result_bind is_not_None].
  unfold uuid_step. rewrite Huuid. cbn [mbind result_bind].
  rewrite unsigned_correction_int, sequential_correction_nonneg by exact Hz.
  cbn [mbind result_bind].
  unfold charset_step, set_step. rewrite Hstr, Hset. cbn [andb].
  cbn [mbind result_bind]. rewrite Hpoint, Henum. reflexivity.
Qed.

(** C2, as the code has it. The five corrections run in the order
    UInt16, UInt8, mediumint, UInt32, UInt64, each adding its modulus
    only when the value the one before left is still negative. So a
    negative value of a type that is not a [mediumint] gets the modulus
    of the one unsigned width its destination names; a negative
    [mediumint] of at least -2^24 whose destination names neither UInt8
    nor UInt16 gets 2^24 and nothing else; and -1 in a [smallint]
    column mapped to UInt16 becomes 65535. *)
Theorem unsigned_correction_sequential :
  (forall mt ct z,
      unsigned_correction mt ct (VInt z)
      = Ok (VInt (sequential_correction mt ct z)))
  /\ (forall mt ct z bits,
         (z < 0)%Z ->
         PyStr.contains "mediumint" (PyStr.lower mt) = false ->
         names_width ct bits ->
         unsigned_correction mt ct (VInt z) = Ok (VInt (z + 2 ^ bits)))
  /\ (forall mt ct z,
         (- 2 ^ 24 <= z < 0)%Z ->
         PyStr.contains "mediumint" (PyStr.lower mt) = true ->
         PyStr.contains "UInt16" ct = false ->
         PyStr.contains "UInt8" ct = false ->
         unsigned_correction mt ct (VInt z) = Ok (VInt (z + 2 ^ 24)))
  /\ (forall py_str repr_list json_dumps decode uuid_bytes to_enum
        mysql_structure,
         convert_record py_str repr_list json_dumps decode uuid_bytes to_enum
           ["smallint"] ["UInt16"] mysql_structure false [VInt (-1)]
         = Ok [VInt 65535]).
Proof.
  split; [exact unsigned_correction_int|]. split; [|split].
  - intros mt ct z bits Hz Hm (w8 & w16 & w32 & w64 & H8 & H16 & H32 & H64 & W).
    rewrite unsigned_correction_int. unfold sequential_correction.
    rewrite Hm, H8, H16, H32, H64.
    destruct W as [[-> [= -> -> -> ->]]|[[-> [= -> -> -> ->]]
                  |[[-> [= -> -> -> ->]]|[-> [= -> -> -> ->]]]]];
      rewrite ?add_if_negative_skip, add_if_negative_neg by assumption;
      reflexivity.
  - intros mt ct z Hz Hm H16 H8.
    rewrite unsigned_correction_int. unfold sequential_correction.
    rewrite Hm, H8, H16, !add_if_negative_skip.
    rewrite (add_if_negative_neg _ z) by lia.
    rewrite !(add_if_negative_nonneg _ _ (z + 2 ^ 24)) by lia. reflexivity.
  - reflexivity.
Qed.

Lemma unsigned_correction_sequential_witness :
  unsigned_correction "int" "UInt32" (VInt (-5)) = Ok (VInt 4294967291)
  /\ unsigned_correction "mediumint" "UInt32" (VInt (-1))
     = Ok (VInt 16777215).
Proof.
  destruct unsigned_correction_sequential as (_ & Hwidth & Hmedium & _).
  split.
  - apply (Hwidth "int" "UInt32" (-5)%Z 32%Z); [lia | reflexivity |].
    exists false, false, true, false. repeat split; auto.
  - apply (Hmedium "mediumint" "UInt32" (-1)%Z); [lia | reflexivity ..].
Defined.

(** C2 as stated fails: -1 in a [mediumint] column mapped to UInt32
    becomes 2^24 - 1; the modulus of the destination width is not
    added to it. *)
Lemma unsigned_correction_not_cumulative :
  convert_record no_str no_repr no_json no_decode no_uuid
    (fun v _ _ => Ok v) ["mediumint"] ["UInt32"] empty_structure false
    [VInt (-1)]
  = Ok [VInt 16777215]
  /\ cumulative_correction "mediumint" "UInt32" (-1) = 4311744511%Z
  /\ convert_record no_str no_repr no_json no_decode no_uuid
       (fun v _ _ => Ok v) ["mediumint"] ["UInt32"] empty_structure false
       [VInt (-1)]
     <> Ok [VInt (cumulative_correction "mediumint" "UInt32" (-1))].
Proof.
  split; [reflexivity|]. split; [reflexivity|]. discriminate.
Qed.

(** * The null short-circuit of [convert_record] *)

Section NullShortCircuit.

Variable py_str : value -> string.
Variable repr_list : list string -> string.
Variable json_dumps : value -> result string.
Variable decode : list byte -> string -> result string.
Variable uuid_bytes : value -> result (list byte).
Variable to_enum : value -> option (list string) -> string -> result value.
Variable mysql_field_types clickhouse_field_types : list string.
Variable mysql_structure : TableStructure.t.
Variable only_primary : bool.

Local Abbreviation column :=
  (convert_column py_str repr_list json_dumps decode uuid_bytes to_enum
     mysql_field_types clickhouse_field_types mysql_structure only_primary).

Local Abbreviation columns :=
  (convert_columns py_str repr_list json_dumps decode uuid_bytes to_enum
     mysql_field_types clickhouse_field_types mysql_structure only_primary).

(** The null of a column that is not of a time, json, point or enum
    type comes out as it is. *)
Lemma convert_column_null_plain (record : list value) (idx : nat)
  (mt ct : string) :
  mysql_field_types !! idx = Some mt ->
  clickhouse_field_types !! idx = Some ct ->
  PyStr.startswith mt "time" = false -> mt <> "json" ->
  PyStr.startswith mt "point" = false ->
  PyStr.startswith mt "enum(" = false ->
  column record idx VNone = Ok VNone.
Proof.
  intros Hmt Hct Htime Hjson Hpoint Henum.
  unfold convert_column.
  destruct (only_primary && _); [reflexivity|].
  unfold getitem. rewrite Hmt, Hct. simpl.
  apply String.eqb_neq in Hjson. rewrite Htime, Hjson. simpl.
  rewrite Hpoint. simpl. rewrite Henum. reflexivity.
Qed.

(** The null of an [enum] column is handed to the enum converter. *)
Lemma convert_column_null_enum (record : list value) (idx : nat)
  (mt ct : string) (field : TableField.t) :
  mysql_field_types !! idx = Some mt ->
  clickhouse_field_types !! idx = Some ct ->
  PyStr.startswith mt "enum(" = true ->
  TableStructure.fields mysql_structure !! idx = Some field ->
  only_primary = false
  \/ idx ∈ TableStructure.primary_key_ids mysql_structure ->
  column record idx VNone
  = to_enum VNone (TableField.additional_data field)
      (TableField.name field).
Proof.
  intros Hmt Hct Henum Hfield Hprim.
  unfold convert_column.
  assert (only_primary
          && negb (bool_decide
                     (idx ∈ TableStructure.primary_key_ids mysql_structure))
          = false) as ->.
  { destruct Hprim as [->|Hin]; [reflexivity|].
    rewrite (bool_decide_eq_true_2 _ Hin). apply andb_false_r. }
  unfold getitem. rewrite Hmt, Hct. clear Hmt. simpl.
  destruct (str_prefix_inv _ _ Henum) as [rest ->].
  simpl. unfold PyStr.startswith. rewrite str_prefix_nil, Hfield. reflexivity.
Qed.

(** The null of a [point] column becomes the origin. *)
Lemma convert_column_null_point (record : list value) (idx : nat)
  (mt ct : string) :
  mysql_field_types !! idx = Some mt ->
  clickhouse_field_types !! idx = Some ct ->
  PyStr.startswith mt "point" = true ->
  only_primary = false
  \/ idx ∈ TableStructure.primary_key_ids mysql_structure ->
  column record idx VNone = Ok (VPoint (NInt 0) (NInt 0)).
Proof.
  intros Hmt Hct Hpoint Hprim.
  unfold convert_column.
  assert (only_primary
          && negb (bool_decide
                     (idx ∈ TableStructure.primary_key_ids mysql_structure))
          = false) as ->.
  { destruct Hprim as [->|Hin]; [reflexivity|].
    rewrite (bool_decide_eq_true_2 _ Hin). apply andb_false_r. }
  unfold getitem. rewrite Hmt, Hct. clear Hmt. simpl.
  destruct (str_prefix_inv _ _ Hpoint) as [rest ->].
  simpl. unfold PyStr.startswith. rewrite str_prefix_nil. reflexivity.
Qed.

(** The columns of a converted row are the converted columns. *)
Lemma convert_columns_lookup (record : list value) :
  forall rest idx out,
    columns record idx rest = Ok out ->
    forall k v, rest !! k = Some v ->
                exists v', out !! k = Some v'
                           /\ column record (idx + k) v = Ok v'.
Proof.
  induction rest as [|x rest IH]; intros idx out H k v Hk;
    [discriminate|].
  simpl in H.
  destruct (column record idx x) as [x'|] eqn:Hx; [|discriminate].
  simpl in H.
  destruct (columns record (S idx) rest) as [out'|] eqn:Hrest;
    [|discriminate].
  injection H as <-.
  destruct k as [|k]; simpl in Hk.
  - injection Hk as <-. exists x'. rewrite Nat.add_0_r. auto.
  - destruct (IH _ _ Hrest k v Hk) as (v' & Hv' & Hcol).
    exists v'. split; [exact Hv'|].
    replace (idx + S k)%nat with (S idx + k)%nat by lia. exact Hcol.
Qed.

End NullShortCircuit.

(** C3, as the code has it. For a null value, the UUID repacking, the
    unsigned-width correction, the charset decoding and the set
    expansion are skipped; the point and enum steps are after the guard
    and still run: the null of a [point] column becomes the origin and
    the null of an [enum] column is what the enum converter makes of it.
    So the null of a column that has a type in both lists, and whose
    MySQL type is not a time, json, point or enum type, comes out
    null. *)
Theorem convert_column_null
  (py_str : value -> string) (repr_list : list string -> string)
  (json_dumps : value -> result string)
  (decode : list byte -> string -> result string)
  (uuid_bytes : value -> result (list byte))
  (to_enum : value -> option (list string) -> string -> result value)
  (mysql_field_types clickhouse_field_types : list string)
  (mysql_structure : TableStructure.t) (only_primary : bool)
  (record : list value) (idx : nat) (mt ct : string) :
  mysql_field_types !! idx = Some mt ->
  clickhouse_field_types !! idx = Some ct ->
  (PyStr.startswith mt "time" = false -> mt <> "json" ->
   PyStr.startswith mt "point" = false ->
   PyStr.startswith mt "enum(" = false ->
   convert_column py_str repr_list json_dumps decode uuid_bytes to_enum
     mysql_field_types clickhouse_field_types mysql_structure only_primary
     record idx VNone
   = Ok VNone)
  /\ (only_primary = false
      \/ idx ∈ TableStructure.primary_key_ids mysql_structure ->
      (PyStr.startswith mt "point" = true ->
       convert_column py_str repr_list json_dumps decode uuid_bytes to_enum
         mysql_field_types clickhouse_field_types mysql_structure
         only_primary record idx VNone
       = Ok (VPoint (NInt 0) (NInt 0)))
      /\ (forall field,
             PyStr.startswith mt "enum(" = true ->
             TableStructure.fields mysql_structure !! idx = Some field ->
             convert_column py_str repr_list json_dumps decode uuid_bytes
               to_enum mysql_field_types clickhouse_field_types
               mysql_structure only_primary record idx VNone
             = to_enum VNone (TableField.additional_data field)
                 (TableField.name field))).
Proof.
  intros Hmt Hct. split; [|intros Hprim; split].
  - intros. eapply convert_column_null_plain; eauto.
  - intros. eapply convert_column_null_point; eauto.
  - intros. eapply convert_column_null_enum; eauto.
Qed.

Lemma convert_column_null_witness :
  PyStr.startswith "varchar(10)" "time" = false
  /\ convert_column no_str no_repr no_json no_decode no_uuid
       (fun v _ _ => Ok v) ["varchar(10)"] ["Nullable(String)"]
       empty_structure false [VNone] 0 VNone
     = Ok VNone.
Proof.
  split; [reflexivity|].
  apply (proj1 (convert_column_null no_str no_repr no_json no_decode no_uuid
                  (fun v _ _ => Ok v) ["varchar(10)"] ["Nullable(String)"]
                  empty_structure false [VNone] 0 "varchar(10)"
                  "Nullable(String)" eq_refl eq_refl));
    [reflexivity | discriminate | reflexivity | reflexivity].
Defined.

(** In a converted row, the null of such a column is still a null. *)
Lemma convert_record_null
  (py_str : value -> string) (repr_list : list string -> string)
  (json_dumps : value -> result string)
  (decode : list byte -> string -> result string)
  (uuid_bytes : value -> result (list byte))
  (to_enum : value -> option (list string) -> string -> result value)
  (mysql_field_types clickhouse_field_types : list string)
  (mysql_structure : TableStructure.t) (only_primary : bool)
  (record out : list value) (idx : nat) (mt ct : string) :
  convert_record py_str repr_list json_dumps decode uuid_bytes to_enum
    mysql_field_types clickhouse_field_types mysql_structure only_primary
    record
  = Ok out ->
  record !! idx = Some VNone ->
  mysql_field_types !! idx = Some mt ->
  clickhouse_field_types !! idx = Some ct ->
  PyStr.startswith mt "time" = false -> mt <> "json" ->
  PyStr.startswith mt "point" = false ->
  PyStr.startswith mt "enum(" = false ->
  out !! idx = Some VNone.
Proof.
  intros Hout Hidx Hmt Hct Htime Hjson Hpoint Henum.
  destruct (convert_columns_lookup _ _ _ _ _ _ _ _ _ _ _ _ _ _ Hout
              idx VNone Hidx) as (v & Hv & Hcol).
  simpl in Hcol.
  rewrite (convert_column_null_plain _ _ _ _ _ _ _ _ _ _ record idx mt ct)
    in Hcol by assumption.
  congruence.
Qed.

(** C3 as stated fails: the enum step is not skipped for a null. The
    output of a null in an [enum] column is the answer of the enum
    converter, here the ordinal 0; and when the table structure has no
    field at the index of the column, the step fails on the look-up of
    the field, whatever the enum converter is. *)
Lemma null_enum_not_skipped :
  convert_record no_str no_repr no_json no_decode no_uuid
    (fun _ _ _ => Ok (VInt 0)) ["enum('a','b')"] ["Enum8('a' = 1, 'b' = 2)"]
    enum_structure false [VNone]
  = Ok [VInt 0]
  /\ ~ (forall to_enum,
          convert_record no_str no_repr no_json no_decode no_uuid to_enum
            ["enum('a','b')"] ["Enum8('a' = 1, 'b' = 2)"] enum_structure
            false [VNone]
          = Ok [VNone])
  /\ (forall to_enum,
         convert_record no_str no_repr no_json no_decode no_uuid to_enum
           ["enum('a','b')"] ["Enum8('a' = 1, 'b' = 2)"] empty_structure
           false [VNone]
         = Raise (IndexError "list index out of range")).
Proof.
  split; [reflexivity|]. split; [|reflexivity].
  intros H. specialize (H (fun _ _ _ => Ok (VInt 0))). discriminate.
Qed.

(** * Nullability wrapping and the converter without a replicator *)

Section Nullable.

Lemma nullable_differs (ch : string) : "Nullable(" +:+ ch +:+ ")" <> ch.
Proof.
  intros H. apply (f_equal String.length) in H.
  simpl in H. rewrite str_length_app in H. simpl in H. lia.
Qed.

End Nullable.

(** C4. [convert_field_type] lower-cases its two arguments and maps
    them with [convert_type]; the mapped type comes back wrapped in
    [Nullable(...)] if and only if the lower-cased parameters do not
    contain [not null] and the mapped type does not contain [Tuple];
    otherwise it comes back as it is. An exception of [convert_type]
    goes through. Where the override table has no entry for them,
    [('int', 'unsigned')] gives [Nullable(UInt32)] and the POINT
    mapping is not wrapped, whatever the parameters; so it is with a
    converter built without replicator. *)
Theorem convert_field_type_nullable :
  (forall parse_mysql_enum self t p ch,
      convert_type parse_mysql_enum self (PyStr.lower t) (PyStr.lower p)
      = Ok ch ->
      exists r,
        convert_field_type parse_mysql_enum self t p = Ok r
        /\ (r = "Nullable(" +:+ ch +:+ ")" <->
            PyStr.contains "not null" (PyStr.lower p) = false
            /\ PyStr.contains "Tuple" ch = false)
        /\ (r = ch <->
            PyStr.contains "not null" (PyStr.lower p) = true
            \/ PyStr.contains "Tuple" ch = true))
  /\ (forall parse_mysql_enum self t p e,
         convert_type parse_mysql_enum self (PyStr.lower t) (PyStr.lower p)
         = Raise e ->
         convert_field_type parse_mysql_enum self t p = Raise e)
  /\ (forall parse_mysql_enum self,
         types_mapping self !! "int" = None ->
         convert_field_type parse_mysql_enum self "int" "unsigned"
         = Ok "Nullable(UInt32)")
  /\ (forall parse_mysql_enum self p,
         types_mapping self !! "point" = None ->
         convert_field_type parse_mysql_enum self "point" p
         = Ok "Tuple(x Float32, y Float32)")
  /\ (forall parse_mysql_enum,
         convert_field_type parse_mysql_enum (__init__ None) "int" "unsigned"
         = Ok "Nullable(UInt32)").
Proof.
  split; [|split; [|split; [|split]]].
  - intros parse self t p ch H. unfold convert_field_type. rewrite H. simpl.
    destruct (PyStr.contains "Tuple" ch) eqn:HT; simpl.
    + exists ch. split; [reflexivity|]. split.
      * split; [intros E; symmetry in E; destruct (nullable_differs _ E)
               | intros [_ ?]; discriminate].
      * split; auto.
    + destruct (PyStr.contains "not null" (PyStr.lower p)) eqn:HN; simpl.
      * exists ch. split; [reflexivity|]. split.
        -- split; [intros E; symmetry in E; destruct (nullable_differs _ E)
                  | intros [? _]; discriminate].
        -- split; auto.
      * exists ("Nullable(" +:+ ch +:+ ")"). split; [reflexivity|]. split.
        -- split; auto.
        -- split; [intros E; destruct (nullable_differs _ E)
                  | intros [?|?]; discriminate].
  - intros parse self t p e H. unfold convert_field_type. rewrite H.
    reflexivity.
  - intros parse self H. unfold convert_field_type.
    change (PyStr.lower "int") with "int". unfold convert_type.
    rewrite H. reflexivity.
  - intros parse self p H. unfold convert_field_type.
    change (PyStr.lower "point") with "point". unfold convert_type.
    rewrite H. reflexivity.
  - intros parse. reflexivity.
Qed.

Lemma convert_field_type_nullable_witness :
  convert_field_type (fun _ => Ok []) (__init__ None) "BIGINT" "NOT NULL"
  = Ok "Int64"
  /\ convert_field_type (fun _ => Ok []) (__init__ None) "FOO" ""
     = Raise (Exception ("unknown mysql type " +:+ dquote +:+ "foo"
                         +:+ dquote)).
Proof.
  destruct convert_field_type_nullable as (Hwrap & Hraise & _).
  split.
  - destruct (Hwrap (fun _ => Ok []) (__init__ None) "BIGINT" "NOT NULL"
                "Int64" eq_refl) as (r & -> & _ & Hsame).
    f_equal. apply Hsame. left. reflexivity.
  - apply Hraise. reflexivity.
Defined.

(** * The converter built without a replicator *)

(** C10. A converter built without a replicator has an empty override
    table. Its [get_db_and_table_name] either fails to unpack a token
    with more than one dot, or reports a match, with the names of the
    token (or the database name it was given) stripped and not
    replaced. So its [convert_alter_query], once the statement is
    validated and read as [ALTER TABLE name ...], always goes on to the
    sub-operations, under those names. *)
Theorem converter_without_replicator :
  types_mapping (__init__ None) = ∅
  /\ (forall token db_name,
         PyStr.contains "." token = false ->
         get_db_and_table_name (__init__ None) token db_name
         = Ok (strip_sql_name db_name, strip_sql_name token, true))
  /\ (forall token db_name,
         PyStr.contains "." token = true ->
         (exists db table,
             PyStr.split_on "."%char token = [db; table]
             /\ get_db_and_table_name (__init__ None) token db_name
                = Ok (strip_sql_name db, strip_sql_name table, true))
         \/ get_db_and_table_name (__init__ None) token db_name
            = Raise (ValueError "too many values to unpack (expected 2)"))
  /\ (forall token db_name db table matches,
         get_db_and_table_name (__init__ None) token db_name
         = Ok (db, table, matches) ->
         matches = true)
  /\ (forall (World : Type) add drop modify change
        mysql_query db_name (w : World) validated t0 t1 t2 rest
        db table matches,
         __basic_validate_query mysql_query = Ok validated ->
         PyStr.split validated = t0 :: t1 :: t2 :: rest ->
         PyStr.lower t0 = "alter" -> PyStr.lower t1 = "table" ->
         get_db_and_table_name (__init__ None) t2 db_name
         = Ok (db, table, matches) ->
         convert_alter_query World add drop modify change (__init__ None)
           mysql_query db_name w
         = convert_subqueries World add drop modify change validated db table
             (split_high_level (PyStr.join " " rest) ",") w).
Proof.
  assert (Hmatch : forall token db_name db table matches,
             get_db_and_table_name (__init__ None) token db_name
             = Ok (db, table, matches) -> matches = true).
  { intros token db_name db table matches.
    unfold get_db_and_table_name. simpl.
    destruct (PyStr.contains "." token).
    - destruct (PyStr.split_on "." token) as [|? [|? [|? ?]]]; simpl;
        congruence.
    - simpl. congruence. }
  split; [reflexivity|]. split; [|split; [|split]].
  - intros token db_name H. unfold get_db_and_table_name. rewrite H.
    reflexivity.
  - intros token db_name H. unfold get_db_and_table_name. rewrite H.
    destruct (split_on_contains _ _ H) as (a & b & [|c l] & ->); simpl.
    + left. eauto.
    + right. reflexivity.
  - exact Hmatch.
  - intros World add drop modify change mysql_query db_name w validated
      t0 t1 t2 rest db table matches Hv Hs H0 H1 Hn.
    unfold convert_alter_query. rewrite Hv. simpl. rewrite Hs. simpl.
    rewrite H0, H1. simpl. rewrite Hn. simpl.
    rewrite (Hmatch _ _ _ _ _ Hn). reflexivity.
Qed.

Lemma converter_without_replicator_witness :
  get_db_and_table_name (__init__ None) "`shop`.`orders`" "db"
  = Ok ("shop", "orders", true)
  /\ get_db_and_table_name (__init__ None) "orders" " `db` "
     = Ok ("db", "orders", true).
Proof.
  destruct converter_without_replicator as (_ & Hplain & Hdot & _ & _).
  split.
  - destruct (Hdot "`shop`.`orders`" "db" eq_refl)
      as [(db & table & Hsplit & ->)|H]; [|discriminate H].
    injection Hsplit as <- <-. reflexivity.
  - exact (Hplain "orders" " `db` " eq_refl).
Defined.

(** * Properties of [parse_mysql_point] *)

Section ParsePoint.

Lemma length_S_inv {A : Type} (l : list A) (n : nat) :
  length l = S n -> exists x l', l = x :: l' /\ length l' = n.
Proof. destruct l as [|x l']; [discriminate|]. intros [= H]. eauto. Qed.

Lemma length_0_inv {A : Type} (l : list A) : length l = 0%nat -> l = [].
Proof. destruct l; [reflexivity|discriminate]. Qed.

(** Name the elements of a list whose length is a known numeral. *)
Ltac explode H :=
  repeat (let x := fresh "b" in
          let l := fresh "l" in
          let E := fresh "E" in
          apply length_S_inv in H as (x & l & E & H); subst);
  apply length_0_inv in H; subst.

Lemma endian_of_byte_order_flag (flag : byte) (e : endian) :
  endian_of_byte_order (byte_value flag) = Ok e <-> flag_endian flag e.
Proof.
  unfold endian_of_byte_order, flag_endian.
  destruct (byte_value flag =? 0)%Z eqn:E0;
    [apply Z.eqb_eq in E0 | apply Z.eqb_neq in E0].
  - split; [intros [= <-]; auto | intros [[_ ->]|[H _]]; [auto | lia]].
  - destruct (byte_value flag =? 1)%Z eqn:E1;
      [apply Z.eqb_eq in E1 | apply Z.eqb_neq in E1].
    + split; [intros [= <-]; auto | intros [[H _]|[_ ->]]; [lia | auto]].
    + split; [discriminate | intros [[H _]|[H _]]; lia].
Qed.

Lemma endian_of_byte_order_bad (flag : byte) (e : exn) :
  endian_of_byte_order (byte_value flag) = Raise e <->
  e = ValueError "Invalid byte order in WKB POINT"
  /\ byte_value flag <> 0%Z /\ byte_value flag <> 1%Z.
Proof.
  unfold endian_of_byte_order.
  destruct (byte_value flag =? 0)%Z eqn:E0;
    [apply Z.eqb_eq in E0 | apply Z.eqb_neq in E0].
  - split; [discriminate | intros (_ & H & _); lia].
  - destruct (byte_value flag =? 1)%Z eqn:E1;
      [apply Z.eqb_eq in E1 | apply Z.eqb_neq in E1].
    + split; [discriminate | intros (_ & _ & H); lia].
    + split; [intros [= <-]; auto | intros (-> & _); reflexivity].
Qed.

Lemma parse_payload (srid : list byte) (flag : byte) (ty xs ys : list byte) :
  srid_prefix srid ->
  length ty = 4%nat -> length xs = 8%nat -> length ys = 8%nat ->
  parse_mysql_point (Some (srid ++ flag :: ty ++ xs ++ ys)%list)
  = decode_after_flag flag ty xs ys.
Proof.
  intros [Hs|Hs] Hty Hxs Hys; explode Hs; explode Hty; explode Hxs;
    explode Hys; unfold decode_after_flag; simpl;
    destruct (endian_of_byte_order (byte_value flag)); reflexivity.
Qed.

(** A payload of 21 or 25 bytes has the layout of [parse_payload]. *)
Lemma payload_layout (b : list byte) :
  length b = 21%nat \/ length b = 25%nat ->
  exists srid flag ty xs ys,
    b = (srid ++ flag :: ty ++ xs ++ ys)%list /\ srid_prefix srid
    /\ length ty = 4%nat /\ length xs = 8%nat /\ length ys = 8%nat.
Proof.
  intros [H|H]; explode H.
  - eexists [], _, [_; _; _; _], [_; _; _; _; _; _; _; _],
      [_; _; _; _; _; _; _; _].
    unfold srid_prefix. simpl. auto 10.
  - eexists [_; _; _; _], _, [_; _; _; _], [_; _; _; _; _; _; _; _],
      [_; _; _; _; _; _; _; _].
    unfold srid_prefix. simpl. auto 10.
Qed.

Lemma split_20 (rest : list byte) :
  length rest = 20%nat ->
  exists ty xs ys,
    rest = (ty ++ xs ++ ys)%list
    /\ length ty = 4%nat /\ length xs = 8%nat /\ length ys = 8%nat.
Proof.
  intros H. explode H.
  eexists [_; _; _; _], [_; _; _; _; _; _; _; _], [_; _; _; _; _; _; _; _].
  simpl. auto.
Qed.

Lemma split_16 (rest : list byte) :
  length rest = 16%nat ->
  exists xs ys,
    rest = (xs ++ ys)%list /\ length xs = 8%nat /\ length ys = 8%nat.
Proof.
  intros H. explode H.
  eexists [_; _; _; _; _; _; _; _], [_; _; _; _; _; _; _; _].
  simpl. auto.
Qed.

Lemma parse_other_length (b : list byte) :
  bad_length b ->
  parse_mysql_point (Some b)
  = Raise (ValueError "Invalid binary length for WKB POINT").
Proof.
  intros [H21 H25]. unfold parse_mysql_point.
  apply Nat.eqb_neq in H21, H25. rewrite H21, H25. reflexivity.
Qed.

(** The three outcomes of a payload of the right length. *)
Lemma decode_after_flag_cases (flag : byte) (ty xs ys : list byte) :
  (exists e, flag_endian flag e /\ uint_of_bytes e ty = 1%Z
             /\ decode_after_flag flag ty xs ys
                = Ok (NFloat (double_of_bytes e xs),
                      NFloat (double_of_bytes e ys)))
  \/ (exists e, flag_endian flag e /\ uint_of_bytes e ty <> 1%Z
                /\ decode_after_flag flag ty xs ys
                   = Raise (ValueError "Not a WKB POINT type"))
  \/ (byte_value flag <> 0%Z /\ byte_value flag <> 1%Z
      /\ decode_after_flag flag ty xs ys
         = Raise (ValueError "Invalid byte order in WKB POINT")).
Proof.
  unfold decode_after_flag.
  destruct (endian_of_byte_order (byte_value flag)) as [e|e] eqn:E.
  - apply endian_of_byte_order_flag in E. simpl.
    destruct (uint_of_bytes e ty =? 1)%Z eqn:T;
      [apply Z.eqb_eq in T | apply Z.eqb_neq in T]; simpl; eauto 10.
  - apply endian_of_byte_order_bad in E as (-> & H0 & H1). simpl. auto.
Qed.

Lemma flag_endian_fun (flag : byte) (e e' : endian) :
  flag_endian flag e -> flag_endian flag e' -> e = e'.
Proof. intros [[? ->]|[? ->]] [[? ->]|[? ->]]; congruence. Qed.

Lemma flag_endian_good (flag : byte) (e : endian) :
  flag_endian flag e ->
  ~ (byte_value flag <> 0%Z /\ byte_value flag <> 1%Z).
Proof. intros [[? _]|[? _]] [? ?]; congruence. Qed.

End ParsePoint.

(** C6. [parse_mysql_point] gives [(0, 0)] for a null payload. A
    payload is decoded exactly when it is a well-formed WKB POINT of 21
    bytes, or of 25 bytes with an SRID in front: the result is then the
    pair of its two coordinates read in the byte order of the flag. It
    fails exactly when the length is neither 21 nor 25, when the flag is
    neither 0 nor 1, or when the geometry type is not 1, each with its
    own message. *)
Theorem parse_mysql_point_spec :
  parse_mysql_point None = Ok (NInt 0, NInt 0)
  /\ (forall b x y,
        parse_mysql_point (Some b) = Ok (x, y) <->
        exists fx fy, wkb_point b fx fy /\ x = NFloat fx /\ y = NFloat fy)
  /\ (forall b e,
        parse_mysql_point (Some b) = Raise e <->
        (e = ValueError "Invalid binary length for WKB POINT"
         /\ bad_length b)
        \/ (e = ValueError "Invalid byte order in WKB POINT" /\ bad_flag b)
        \/ (e = ValueError "Not a WKB POINT type" /\ bad_type b)).
Proof.
  split; [reflexivity|]. split.
  - intros b x y. split.
    + intros H.
      destruct (decide (length b = 21%nat \/ length b = 25%nat)) as [L|L].
      * destruct (payload_layout b L)
          as (srid & flag & ty & xs & ys & -> & Hs & Hty & Hxs & Hys).
        rewrite parse_payload in H by assumption.
        destruct (decode_after_flag_cases flag ty xs ys)
          as [(e & Hf & Ht & R)|[(e & Hf & Ht & R)|(H0 & H1 & R)]];
          rewrite R in H; try discriminate.
        injection H as <- <-. eexists _, _. split; [|split; reflexivity].
        constructor; assumption.
      * rewrite parse_other_length in H; [discriminate|].
        split; intros E; apply L; auto.
    + intros (fx & fy & W & -> & ->).
      destruct W as [srid flag e ty xs ys Hs Hf Hty Ht Hxs Hys].
      rewrite parse_payload by assumption.
      destruct (decode_after_flag_cases flag ty xs ys)
        as [(e' & Hf' & Ht' & R)|[(e' & Hf' & Ht' & R)|(H0 & H1 & R)]].
      * rewrite R, (flag_endian_fun _ _ _ Hf Hf'). reflexivity.
      * rewrite (flag_endian_fun _ _ _ Hf Hf') in Ht. contradiction.
      * exfalso. eapply flag_endian_good; eauto.
  - intros b e. split.
    + intros H.
      destruct (decide (length b = 21%nat \/ length b = 25%nat)) as [L|L].
      * destruct (payload_layout b L)
          as (srid & flag & ty & xs & ys & -> & Hs & Hty & Hxs & Hys).
        rewrite parse_payload in H by assumption.
        destruct (decode_after_flag_cases flag ty xs ys)
          as [(e' & Hf & Ht & R)|[(e' & Hf & Ht & R)|(H0 & H1 & R)]];
          rewrite R in H; try discriminate; injection H as <-.
        -- right. right. split; [reflexivity|].
           exists srid, flag, e', ty, (xs ++ ys)%list.
           rewrite length_app. repeat split; auto; lia.
        -- right. left. split; [reflexivity|].
           exists srid, flag, (ty ++ xs ++ ys)%list.
           rewrite !length_app. repeat split; auto; lia.
      * assert (B : bad_length b) by (split; intros E; apply L; auto).
        rewrite (parse_other_length b B) in H. injection H as <-. auto.
    + intros [[-> B]|[[-> B]|[-> B]]].
      * apply parse_other_length, B.
      * destruct B as (srid & flag & rest & -> & Hs & Hrest & H0 & H1).
        destruct (split_20 rest Hrest) as (ty & xs & ys & -> & Hty & Hxs & Hys).
        rewrite parse_payload by assumption.
        destruct (decode_after_flag_cases flag ty xs ys)
          as [(e' & Hf & Ht & R)|[(e' & Hf & Ht & R)|(_ & _ & R)]];
          [exfalso; eapply flag_endian_good; eauto ..| exact R].
      * destruct B as (srid & flag & e & ty & rest & -> & Hs & Hf & Hty
                       & Hrest & Ht).
        destruct (split_16 rest Hrest) as (xs & ys & -> & Hxs & Hys).
        rewrite parse_payload by assumption.
        destruct (decode_after_flag_cases flag ty xs ys)
          as [(e' & Hf' & Ht' & R)|[(e' & Hf' & Ht' & R)|(H0 & H1 & R)]].
        -- rewrite (flag_endian_fun _ _ _ Hf Hf') in Ht. contradiction.
        -- exact R.
        -- exfalso. eapply flag_endian_good; eauto.
Qed.

(** The payload of the specification's scenario: 21 bytes, big-endian,
    x = 1.0 and y = 2.0. *)
Example parse_mysql_point_scenario :
  parse_mysql_point
    (Some [x00; x00; x00; x00; x01;
           x3f; xf0; x00; x00; x00; x00; x00; x00;
           x40; x00; x00; x00; x00; x00; x00; x00])
  = Ok (NFloat (S754_finite false 4503599627370496 (-52)),
        NFloat (S754_finite false 4503599627370496 (-51))).
Proof. reflexivity. Qed.


(** * Properties of [split_high_level] *)

Section SplitHighLevel.

Variable token : string.

Lemma nesting_app (a b : string) :
  nesting (a +:+ b) = (nesting a + nesting b)%Z.
Proof.
  induction a as [|c a IH]; simpl; [reflexivity|].
  rewrite IH. lia.
Qed.

(** Where a character of [a +:+ String c ""] sits: in [a], or it is
    the last one. *)
Lemma snoc_occurrence (a : string) (c : ascii) :
  forall pre c' post,
    a +:+ String c "" = pre +:+ String c' post ->
    (pre = a /\ c' = c /\ post = "")
    \/ (exists post', a = pre +:+ String c' post').
Proof.
  induction a as [|x a IH]; intros pre c' post H.
  - destruct pre as [|y pre]; simpl in H.
    + injection H as -> <-. left. auto.
    + injection H as _ H. destruct pre; discriminate.
  - destruct pre as [|y pre]; simpl in H.
    + injection H as <- H. right. exists a. reflexivity.
    + injection H as <- H.
      destruct (IH _ _ _ H) as [(-> & -> & ->)|[post' ->]].
      * left. auto.
      * right. exists post'. reflexivity.
Qed.

Lemma only_nested_empty : only_nested token "".
Proof.
  intros pre c post H. destruct pre; discriminate.
Qed.

Lemma only_nested_snoc (curr : string) (c : ascii) :
  only_nested token curr ->
  (String c "" = token -> nesting curr <> 0%Z) ->
  only_nested token (curr +:+ String c "").
Proof.
  intros Hcurr Hc pre c' post H Htok.
  destruct (snoc_occurrence _ _ _ _ _ H) as [(-> & -> & ->)|[post' ->]].
  - auto.
  - eapply Hcurr; eauto.
Qed.

Lemma join_cons (p : string) (ps : list string) (final : string) :
  PyStr.join token ((p :: ps) ++ [final])
  = p +:+ token +:+ PyStr.join token (ps ++ [final]).
Proof.
  unfold PyStr.join. simpl. destruct (ps ++ [final])%list eqn:E.
  - destruct ps; discriminate.
  - reflexivity.
Qed.

(** The invariant of the loop: what is in [results] are the stripped
    pieces cut so far, [curr_data] is the piece under construction
    and [level] its nesting. *)
Lemma split_loop_pieces (data : string) :
  forall st,
    level st = nesting (curr_data st) ->
    only_nested token (curr_data st) ->
    exists pieces final,
      split_loop token st data
      = {| results := results st ++ map PyStr.strip pieces;
           level := nesting final;
           curr_data := final |}
      /\ top_level_pieces token (curr_data st +:+ data) pieces final.
Proof.
  induction data as [|c data IH]; intros [res lvl curr] Hlvl Hnest;
    simpl in Hlvl, Hnest.
  - exists [], curr. split.
    + unfold split_loop. simpl. rewrite app_nil_r. congruence.
    + split; [|split; [|split]]; [| constructor | exact Hnest | tauto].
      simpl. apply str_app_nil_r.
  - unfold split_loop in *. simpl fold_left. unfold split_step at 2.
    simpl results; simpl level; simpl curr_data.
    destruct (String.eqb (String c "") token && (lvl =? 0)%Z) eqn:Hcut.
    + apply andb_true_iff in Hcut as [Htok Hz].
      apply String.eqb_eq in Htok. apply Z.eqb_eq in Hz. subst lvl.
      edestruct (IH {| results := res ++ [PyStr.strip curr];
                       level := 0; curr_data := "" |})
        as (pieces & final & Hrun & Hjoin & Hall & Hfin & _);
        [reflexivity | apply only_nested_empty |].
      exists (curr :: pieces), final. split.
      * rewrite Hz, Hrun. simpl. rewrite <- app_assoc. reflexivity.
      * split; [|split; [|split]];
          [| constructor; auto | exact Hfin
           | intros _; rewrite <- Htok; reflexivity].
        rewrite join_cons. simpl in Hjoin. rewrite <- Hjoin, <- Htok.
        reflexivity.
    + set (lvl' := (if Ascii.eqb c ")"%char
                    then (if Ascii.eqb c "("%char then lvl + 1 else lvl) - 1
                    else if Ascii.eqb c "("%char then lvl + 1 else lvl)%Z).
      assert (Hlvl' : lvl' = nesting (curr +:+ String c "")).
      { rewrite nesting_app. simpl. subst lvl' lvl.
        destruct (Ascii.eqb c ")"), (Ascii.eqb c "("); lia. }
      assert (Hnest' : only_nested token (curr +:+ String c "")).
      { apply only_nested_snoc; auto. intros Htok Hz.
        rewrite <- Htok, String.eqb_refl, Hlvl, Hz in Hcut.
        discriminate. }
      edestruct (IH {| results := res; level := lvl';
                       curr_data := curr +:+ String c "" |})
        as (pieces & final & Hrun & Hjoin & Hall & Hfin & Hone); eauto.
      exists pieces, final. split; [exact Hrun|].
      split; [|split; [|split]]; [| exact Hall | exact Hfin | exact Hone].
      simpl in Hjoin. rewrite str_app_assoc in Hjoin. exact Hjoin.
Qed.

End SplitHighLevel.

Section SplitUnique.

(** Two texts that agree up to a separator each: the separators are
    at the same place, or one of them is inside the other text. *)
Lemma first_separator (c : ascii) (a b r1 r2 : string) :
  a +:+ String c r1 = b +:+ String c r2 ->
  (a = b /\ r1 = r2)
  \/ (exists x, b = a +:+ String c x)
  \/ (exists x, a = b +:+ String c x).
Proof.
  revert b. induction a as [|x a IH]; intros [|y b] H; simpl in H.
  - injection H as ->. auto.
  - injection H as <- _. right. left. exists b. reflexivity.
  - injection H as -> _. right. right. exists a. reflexivity.
  - injection H as <- H.
    destruct (IH _ H) as [[-> ->]|[[z ->]|[z ->]]]; eauto.
Qed.

(** The pieces are determined by the text. *)
Lemma top_level_pieces_unique (token data : string) (p1 : list string) :
  forall p2 f1 f2,
    top_level_pieces token data p1 f1 ->
    top_level_pieces token data p2 f2 ->
    p1 = p2 /\ f1 = f2.
Proof.
  revert token data.
  induction p1 as [|a p1 IH]; intros token data [|b p2] f1 f2
    (J1 & A1 & F1 & O1) (J2 & A2 & F2 & O2).
  - simpl in J1, J2. split; congruence.
  - exfalso. destruct token as [|c [|? ?]];
      try (specialize (O2 ltac:(discriminate)); discriminate).
    rewrite (join_cons (String c "")) in J2. simpl in J1, J2. rewrite J1 in J2.
    apply Forall_cons in A2 as [[_ Hb] _].
    apply (F1 b c _ J2); [reflexivity | exact Hb].
  - exfalso. destruct token as [|c [|? ?]];
      try (specialize (O1 ltac:(discriminate)); discriminate).
    rewrite (join_cons (String c "")) in J1. simpl in J1, J2. rewrite J2 in J1.
    apply Forall_cons in A1 as [[_ Ha] _].
    apply (F2 a c _ J1); [reflexivity | exact Ha].
  - destruct token as [|c [|? ?]];
      try (specialize (O1 ltac:(discriminate)); discriminate).
    rewrite (join_cons (String c "")) in J1, J2. simpl in J1, J2. rewrite J1 in J2.
    apply Forall_cons in A1 as [[Na Ha] A1'].
    apply Forall_cons in A2 as [[Nb Hb] A2'].
    destruct (first_separator _ _ _ _ _ J2) as [[-> Hrest]|[[x ->]|[x ->]]].
    + destruct (IH (String c "")
                  (PyStr.join (String c "") (p1 ++ [f1])) p2 f1 f2)
        as [-> ->]; auto.
      * split; [|split; [|split]]; auto.
      * split; [|split; [|split]]; auto.
    + exfalso. apply (Nb a c x); [reflexivity | reflexivity | exact Ha].
    + exfalso. apply (Na b c x); [reflexivity | reflexivity | exact Hb].
Qed.

End SplitUnique.


(** * The mapping of the enum type *)

Section EnumMapping.

Variable parse_mysql_enum : string -> result (list string).
Variable self : MysqlToClickhouseConverter.

(** The loop over [enumerate(enum_values)] pairs each label with its
    position plus one. *)
Lemma enumerate_members (labels : list string) (k : nat) :
  imap (fun idx value_name =>
          "'" +:+ PyStr.lower value_name +:+ "' = "
          +:+ PyStr.of_Z (Z.of_nat (k + idx) + 1))
       labels
  = map enum_member
      (combine (map PyStr.lower labels) (seq (S k) (length labels))).
Proof.
  revert k. induction labels as [|l labels IH]; intros k; [reflexivity|].
  rewrite imap_cons. simpl. f_equal.
  - unfold enum_member. simpl.
    replace (Z.of_nat (k + 0) + 1)%Z with (Z.of_nat (S k)) by lia.
    reflexivity.
  - rewrite <- IH. apply imap_ext. intros i x _. simpl.
    replace (Z.of_nat (k + S i) + 1)%Z with (Z.of_nat (S k + i) + 1)%Z
      by lia.
    reflexivity.
Qed.

Lemma enumerate_members_all (labels : list string) :
  imap (fun idx value_name =>
          "'" +:+ PyStr.lower value_name +:+ "' = "
          +:+ PyStr.of_Z (Z.of_nat idx + 1))
       labels
  = map enum_member (enum_members labels).
Proof. exact (enumerate_members labels 0). Qed.

Lemma convert_enum_type (t : string) (labels : list string) :
  parse_mysql_enum t = Ok labels ->
  convert_enum parse_mysql_enum t = Ok (enum_type labels).
Proof.
  intros H. unfold convert_enum, enum_type. rewrite H.
  cbn [mbind result_bind].
  rewrite enumerate_members_all.
  destruct (length labels <=? 127)%nat; reflexivity.
Qed.

(** The rules that come before the enum rule and compare the whole
    type string do not apply to a string that starts with [enum]. *)
Lemma enum_not_whole (t : string) :
  PyStr.startswith t "enum" = true ->
  PyStr.startswith t "numeric" = false
  /\ Forall (fun x => String.eqb t x = false)
       ["point"; "int"; "integer"; "bigint"; "double"; "real"; "float";
        "date"; "tinyint(1)"; "bit(1)"; "bool"].
Proof.
  intros H. destruct (str_prefix_inv _ _ H) as [rest ->].
  split; [reflexivity|]. repeat constructor.
Qed.

Lemma combine_fst {A B : Type} (l : list A) :
  forall k : list B, length l = length k -> map fst (combine l k) = l.
Proof.
  induction l as [|x l IH]; intros [|y k] H; simpl in *;
    try discriminate; [reflexivity|].
  f_equal. apply IH. lia.
Qed.

Lemma combine_snd {A B : Type} (l : list A) :
  forall k : list B, length l = length k -> map snd (combine l k) = k.
Proof.
  induction l as [|x l IH]; intros [|y k] H; simpl in *;
    try discriminate; [reflexivity|].
  f_equal. apply IH. lia.
Qed.

Lemma enum_members_fst (labels : list string) :
  map fst (enum_members labels) = map PyStr.lower labels.
Proof.
  unfold enum_members. apply combine_fst.
  rewrite length_map, length_seq. reflexivity.
Qed.

Lemma enum_members_snd (labels : list string) :
  map snd (enum_members labels) = seq 1 (length labels).
Proof.
  unfold enum_members. apply combine_snd.
  rewrite length_map, length_seq. reflexivity.
Qed.

End EnumMapping.

(** C5, as the code has it. For a type string that starts with [enum],
    has no entry in the override table and contains none of
    [smallint], [tinyint], [mediumint], [datetime], [longtext] and
    [varchar], whose labels [parse_mysql_enum] gives, [convert_type]
    returns [Enum8(...)] for at most 127 labels and [Enum16(...)] for
    more, listing the labels in lower case and in the order of the
    declaration, each with its ordinal: 1, 2, ... up to the number of
    labels, never 0. *)
Theorem convert_type_enum_mapping
  (parse_mysql_enum : string -> result (list string))
  (self : MysqlToClickhouseConverter) (t params : string)
  (labels : list string) :
  types_mapping self !! t = None ->
  PyStr.startswith t "enum" = true ->
  PyStr.contains "smallint" t = false ->
  PyStr.contains "tinyint" t = false ->
  PyStr.contains "mediumint" t = false ->
  PyStr.contains "datetime" t = false ->
  PyStr.contains "longtext" t = false ->
  PyStr.contains "varchar" t = false ->
  parse_mysql_enum t = Ok labels ->
  convert_type parse_mysql_enum self t params = Ok (enum_type labels)
  /\ map fst (enum_members labels) = map PyStr.lower labels
  /\ map snd (enum_members labels) = seq 1 (length labels)
  /\ Forall (fun member => 1 <= snd member <= length labels)%nat
       (enum_members labels).
Proof.
  intros Hmap Hstart H1 H2 H3 H4 H5 H6 Hparse.
  split; [|split; [|split]].
  - destruct (enum_not_whole t Hstart) as [Hnum Hwhole].
    repeat match type of Hwhole with
           | Forall _ (_ :: _) =>
               apply Forall_cons in Hwhole as [? Hwhole]
           end.
    unfold convert_type. cbv zeta.
    repeat match goal with
           | H : _ = _ |- _ => rewrite H
           end.
    apply convert_enum_type, Hparse.
  - apply enum_members_fst.
  - apply enum_members_snd.
  - apply Forall_forall. intros [l k] Hin.
    apply list_elem_of_In, (in_map snd) in Hin.
    rewrite enum_members_snd in Hin.
    apply in_seq in Hin. simpl in *. lia.
Qed.

Lemma convert_type_enum_mapping_witness :
  parse_mysql_enum_spec "enum('red','green','black')"
  = Ok ["red"; "green"; "black"]
  /\ convert_type parse_mysql_enum_spec (__init__ None)
       "enum('red','green','black')" ""
     = Ok "Enum8('red' = 1, 'green' = 2, 'black' = 3)"
  /\ convert_type (fun _ => Ok ["Red"; "GREEN"]) (__init__ None)
       "enum('Red','GREEN')" ""
     = Ok "Enum8('red' = 1, 'green' = 2)".
Proof.
  split; [reflexivity|]. split.
  - apply (proj1 (convert_type_enum_mapping parse_mysql_enum_spec
                    (__init__ None) "enum('red','green','black')" ""
                    ["red"; "green"; "black"]
                    eq_refl eq_refl eq_refl eq_refl eq_refl eq_refl eq_refl
                    eq_refl eq_refl)).
  - apply (proj1 (convert_type_enum_mapping (fun _ => Ok ["Red"; "GREEN"])
                    (__init__ None) "enum('Red','GREEN')" ""
                    ["Red"; "GREEN"]
                    eq_refl eq_refl eq_refl eq_refl eq_refl eq_refl eq_refl
                    eq_refl eq_refl)).
Defined.

(** With more than 127 labels the type is an [Enum16]. *)
Example convert_type_enum16 :
  exists members,
    convert_type (fun _ => Ok (repeat "x" 128)) (__init__ None) "enum(...)" ""
    = Ok ("Enum16(" +:+ members +:+ ")").
Proof. eexists. reflexivity. Qed.

(** C5 as stated fails on two counts: an entry of the override table
    wins over the enum rule, and so does the rule of [smallint] (as
    those of [tinyint], [mediumint], [datetime], [longtext] and
    [varchar]) when a label contains that word. *)
Lemma convert_type_enum_counterexample :
  convert_type parse_mysql_enum_spec (__init__ (Some override_replicator))
    "enum('a','b')" ""
  = Ok "String"
  /\ parse_mysql_enum_spec "enum('smallint','x')" = Ok ["smallint"; "x"]
  /\ convert_type parse_mysql_enum_spec (__init__ None)
       "enum('smallint','x')" ""
     = Ok "Int16".
Proof. repeat split. Qed.

(** * The dispatch of [convert_alter_query] *)

Section Dispatch.

Variable World : Type.
Variables add_column drop_column modify_column change_column :
  string -> string -> list string -> World -> result World.

Local Abbreviation subquery_ :=
  (convert_subquery World add_column drop_column modify_column
     change_column).

(** [ADD] and [DROP] of a constraint, an index, a foreign key or a
    unique key are skipped. *)
Lemma convert_subquery_skip (q db table subquery : string) (w : World)
  (op t k : string) (rest rest' : list string) :
  PyStr.split (PyStr.strip subquery) = op :: t :: rest ->
  PyStr.lower op = "add" \/ PyStr.lower op = "drop" ->
  operands t rest = k :: rest' ->
  is_constraint_keyword (PyStr.lower k) = true ->
  subquery_ q db table subquery w = Ok w.
Proof.
  intros Hs Hop Hk Hc. unfold convert_subquery.
  rewrite Hs. cbn [getitem lookup list_lookup mbind result_bind drop].
  change (drop 0 rest) with rest. fold (operands t rest). rewrite Hk.
  cbn [getitem lookup list_lookup mbind result_bind]. rewrite Hc.
  destruct Hop as [-> | ->]; reflexivity.
Qed.

(** [ALTER] and [AUTO_INCREMENT] do nothing. *)
Lemma convert_subquery_noop (q db table subquery : string) (w : World)
  (op t : string) (rest : list string) :
  PyStr.split (PyStr.strip subquery) = op :: t :: rest ->
  PyStr.lower op = "alter" \/ PyStr.lower op = "auto_increment" ->
  subquery_ q db table subquery w = Ok w.
Proof.
  intros Hs Hop. unfold convert_subquery.
  rewrite Hs. cbn [getitem lookup list_lookup mbind result_bind drop].
  destruct Hop as [-> | ->]; reflexivity.
Qed.

(** Another keyword than the six is refused, with a message that
    names it, the sub-operation and the statement. *)
Lemma convert_subquery_unknown (q db table subquery : string) (w : World)
  (op t : string) (rest : list string) :
  PyStr.split (PyStr.strip subquery) = op :: t :: rest ->
  PyStr.lower op ∉ ["add"; "drop"; "modify"; "alter"; "auto_increment";
                    "change"] ->
  subquery_ q db table subquery w
  = Raise (Exception ("operation " +:+ PyStr.lower op
                      +:+ " not implement, query: " +:+ PyStr.strip subquery
                      +:+ ", full query: " +:+ q)).
Proof.
  intros Hs Hop. unfold convert_subquery.
  rewrite Hs. cbn [getitem lookup list_lookup mbind result_bind drop].
  repeat match goal with
         | |- context [String.eqb (PyStr.lower op) ?k] =>
             destruct (String.eqb_spec (PyStr.lower op) k) as [E|_];
             [exfalso; apply Hop; rewrite E; set_solver|]
         end.
  reflexivity.
Qed.

(** A sub-operation of one token fails on the look at its second
    token, whatever its keyword. *)
Lemma convert_subquery_one_token (q db table subquery : string)
  (w : World) (op : string) :
  PyStr.split (PyStr.strip subquery) = [op] ->
  subquery_ q db table subquery w
  = Raise (IndexError "list index out of range").
Proof.
  intros Hs. unfold convert_subquery. rewrite Hs. reflexivity.
Qed.

End Dispatch.

(** C8 at [ALTER TABLE t FORCE] and [ALTER TABLE t ENGINE=InnoDB]: the
    sub-operation has one token, and the statement fails with the
    [IndexError] of a list, before the keyword is looked at; with a
    second token, the same kind of statement fails with the message
    that names the operation, the sub-operation and the statement. *)
Theorem convert_alter_query_one_token
  (World : Type)
  (add_column drop_column modify_column change_column :
     string -> string -> list string -> World -> result World)
  (w : World) :
  convert_alter_query World add_column drop_column modify_column
    change_column (__init__ None) "ALTER TABLE t FORCE" "db" w
  = Raise (IndexError "list index out of range")
  /\ convert_alter_query World add_column drop_column modify_column
       change_column (__init__ None) "ALTER TABLE t ENGINE=InnoDB" "db" w
     = Raise (IndexError "list index out of range")
  /\ convert_alter_query World add_column drop_column modify_column
       change_column (__init__ None) "ALTER TABLE t ENGINE = InnoDB" "db" w
     = Raise (Exception
                "operation engine not implement, query: ENGINE = InnoDB, full query: ALTER TABLE t ENGINE = InnoDB").
Proof. repeat split. Qed.

(** A statement whose sub-operations have two tokens or more and are
    all skipped or without effect leaves everything as it is. *)
Lemma convert_subquery_dispatch_examples
  (World : Type)
  (add_column drop_column modify_column change_column :
     string -> string -> list string -> World -> result World)
  (w : World) :
  convert_alter_query World add_column drop_column modify_column
    change_column (__init__ None)
    "alter table t add index i (a, b), DROP FOREIGN KEY k, Alter column c set default 1, auto_increment = 5;"
    "db" w
  = Ok w.
Proof. reflexivity. Qed.

(** * More on the string operations *)

Section Stripping.

Lemma lstrip_head (s : string) : no_space_head s -> PyStr.lstrip s = s.
Proof. destruct s as [|c s]; simpl; [reflexivity|]. intros ->. reflexivity. Qed.

Lemma rstrip_spaces (ws : string) :
  PyStr.all_space ws = true -> PyStr.rstrip ws = "".
Proof.
  induction ws as [|c ws IH]; [reflexivity|].
  rewrite all_space_cons. intros [Hc Hws]%andb_true_iff.
  simpl. rewrite (IH Hws), Hc. reflexivity.
Qed.

(** What follows a last character that is not a space is removed when
    it is made of spaces. *)
Lemma rstrip_pad (body : string) (c : ascii) (ws : string) :
  PyStr.is_space c = false -> PyStr.all_space ws = true ->
  PyStr.rstrip (body +:+ String c ws) = body +:+ String c "".
Proof.
  intros Hc Hws. induction body as [|x body IH]; simpl.
  - rewrite (rstrip_spaces ws Hws), Hc. reflexivity.
  - rewrite IH. destruct (body +:+ String c "") eqn:E; [|reflexivity].
    destruct body; discriminate.
Qed.

Lemma lstrip_pad (ws rest : string) :
  PyStr.all_space ws = true -> no_space_head rest ->
  PyStr.lstrip (ws +:+ rest) = rest.
Proof. apply lstrip_app. Qed.

(** [strip] removes the spaces around a text that starts and ends with
    something else. *)
Lemma strip_pad (ws1 : string) (a : ascii) (body : string) (c : ascii)
  (ws2 : string) :
  PyStr.all_space ws1 = true -> PyStr.all_space ws2 = true ->
  PyStr.is_space a = false -> PyStr.is_space c = false ->
  PyStr.strip (ws1 +:+ String a (body +:+ String c ws2))
  = String a (body +:+ String c "").
Proof.
  intros H1 H2 Ha Hc. unfold PyStr.strip.
  rewrite lstrip_pad by (simpl; auto).
  exact (rstrip_pad (String a body) c ws2 Hc H2).
Qed.

Lemma strip_pad_one (ws1 : string) (a : ascii) (ws2 : string) :
  PyStr.all_space ws1 = true -> PyStr.all_space ws2 = true ->
  PyStr.is_space a = false ->
  PyStr.strip (ws1 +:+ String a ws2) = String a "".
Proof.
  intros H1 H2 Ha. unfold PyStr.strip.
  rewrite lstrip_pad by (simpl; auto).
  exact (rstrip_pad "" a ws2 Ha H2).
Qed.

Lemma rstrip_head (s : string) :
  no_space_head s -> no_space_head (PyStr.rstrip s).
Proof.
  destruct s as [|c s]; simpl; [auto|]. intros Hc.
  destruct (PyStr.rstrip s); [rewrite Hc|]; exact Hc.
Qed.

Lemma rstrip_idem (s : string) : PyStr.rstrip (PyStr.rstrip s) = PyStr.rstrip s.
Proof.
  induction s as [|c s IH]; [reflexivity|]. simpl.
  destruct (PyStr.rstrip s) as [|x r] eqn:E.
  - destruct (PyStr.is_space c) eqn:Hc; [reflexivity|].
    simpl. rewrite Hc. reflexivity.
  - simpl. simpl in IH. rewrite IH. destruct (PyStr.rstrip r); reflexivity.
Qed.

Lemma lstrip_no_space_head (s : string) : no_space_head (PyStr.lstrip s).
Proof.
  induction s as [|c s IH]; simpl; [exact I|].
  destruct (PyStr.is_space c) eqn:Hc; [exact IH | exact Hc].
Qed.

(** A stripped text is left alone by [strip]. *)
Lemma strip_idem (s : string) : PyStr.strip (PyStr.strip s) = PyStr.strip s.
Proof.
  unfold PyStr.strip.
  rewrite (lstrip_head (PyStr.rstrip (PyStr.lstrip s)))
    by apply rstrip_head, lstrip_no_space_head.
  apply rstrip_idem.
Qed.

Lemma endswith_snoc (s : string) (c : ascii) :
  PyStr.endswith (s +:+ String c "") (String c "") = true.
Proof.
  induction s as [|x s IH]; simpl.
  - rewrite Ascii.eqb_refl. reflexivity.
  - rewrite IH. apply orb_true_r.
Qed.

Lemma init_snoc (s : string) (c : ascii) :
  PyStr.init (s +:+ String c "") = s.
Proof.
  induction s as [|x s IH]; [reflexivity|].
  simpl. rewrite IH. destruct (s +:+ String c "") eqn:E; [|reflexivity].
  destruct s; discriminate.
Qed.

End Stripping.

(** * [strip_sql_name] *)

(** X1. [strip_sql_name] undoes the quoting of a name: a name between
    two backquotes, with spaces around the quotes or not, comes back as
    it was, whatever it contains. *)
Theorem strip_sql_name_quoted (ws1 name ws2 : string) :
  PyStr.all_space ws1 = true -> PyStr.all_space ws2 = true ->
  strip_sql_name (ws1 +:+ "`" +:+ name +:+ "`" +:+ ws2) = name.
Proof.
  intros H1 H2. unfold strip_sql_name.
  change (ws1 +:+ "`" +:+ name +:+ "`" +:+ ws2)
    with (ws1 +:+ String "`" (name +:+ String "`" ws2)).
  rewrite strip_pad by (auto; reflexivity).
  unfold PyStr.startswith. simpl String.prefix. rewrite str_prefix_nil.
  simpl PyStr.tail. rewrite endswith_snoc. apply init_snoc.
Qed.

Lemma strip_sql_name_quoted_witness :
  strip_sql_name " `my table` " = "my table".
Proof. exact (strip_sql_name_quoted " " "my table" " " eq_refl eq_refl). Defined.

(** * More on [split_high_level] *)

Section SplitMore.

(** The pieces of the specification are what the function returns. *)
Lemma split_high_level_pieces (token data : string) (pieces : list string)
  (final : string) :
  top_level_pieces token data pieces final ->
  split_high_level data token = map PyStr.strip (pieces ++ keep_final final).
Proof.
  intros Hspec.
  destruct (split_loop_pieces token data
              {| results := []; level := 0; curr_data := "" |})
    as (pieces' & final' & Hrun & Hspec');
    [reflexivity | apply only_nested_empty |].
  destruct (top_level_pieces_unique token data pieces pieces' final final'
              Hspec Hspec') as [<- <-].
  unfold split_high_level. rewrite Hrun. simpl.
  unfold keep_final. destruct (String.eqb final ""); simpl.
  - rewrite app_nil_r. reflexivity.
  - rewrite map_app. reflexivity.
Qed.

Lemma without_empty_last_snoc (pieces : list string) (final : string) :
  without_empty_last (pieces ++ [final]) = (pieces ++ keep_final final)%list.
Proof.
  induction pieces as [|p pieces IH]; [reflexivity|].
  simpl. rewrite IH. destruct (pieces ++ [final])%list eqn:E; [|reflexivity].
  destruct pieces; discriminate.
Qed.

Lemma no_parens_cons (c : ascii) (s : string) :
  no_parens (String c s)
  = negb (Ascii.eqb c "(" || Ascii.eqb c ")") && no_parens s.
Proof. reflexivity. Qed.

Lemma no_parens_app (a b : string) :
  no_parens (a +:+ b) = no_parens a && no_parens b.
Proof.
  induction a as [|c a IH]; [reflexivity|].
  simpl String.append. rewrite !no_parens_cons, IH. apply andb_assoc.
Qed.

Lemma no_parens_nesting (s : string) : no_parens s = true -> nesting s = 0%Z.
Proof.
  induction s as [|c s IH]; [reflexivity|].
  rewrite no_parens_cons. intros [Hc Hs]%andb_true_iff.
  simpl. rewrite (IH Hs).
  destruct (Ascii.eqb c "("), (Ascii.eqb c ")"); try discriminate.
  reflexivity.
Qed.

(** [split] and [join] with the same separator give the text back. *)
Lemma split_on_join (c : ascii) (s : string) :
  PyStr.join (String c "") (PyStr.split_on c s) = s.
Proof.
  induction s as [|x s IH]; [reflexivity|].
  simpl. destruct (Ascii.eqb_spec x c) as [->|Hx].
  - unfold PyStr.join in *. simpl.
    destruct (split_on_nonempty c s) as (a & l & E). rewrite E in *.
    rewrite IH. reflexivity.
  - destruct (split_on_nonempty c s) as (a & l & E). rewrite E in *.
    unfold PyStr.join in *. simpl in *.
    destruct l; simpl in *; rewrite <- IH; reflexivity.
Qed.

(** No piece of [split] has the separator in it. *)
Lemma split_on_free (c : ascii) (s : string) :
  Forall (free_of (String c "")) (PyStr.split_on c s).
Proof.
  induction s as [|x s IH]; simpl.
  - constructor; [|constructor]. intros [|? ?] ? ? H; discriminate.
  - destruct (Ascii.eqb_spec x c) as [->|Hx].
    + constructor; [|exact IH]. intros [|? ?] ? ? H; discriminate.
    + destruct (split_on_nonempty c s) as (a & l & E). rewrite E in *.
      apply Forall_cons in IH as [Ha Hl]. constructor; [|exact Hl].
      intros [|y pre] c' post H; simpl in H; injection H as <- H.
      * congruence.
      * exact (Ha _ _ _ H).
Qed.

Lemma split_on_no_parens (c : ascii) (s : string) :
  no_parens s = true ->
  Forall (fun p => no_parens p = true) (PyStr.split_on c s).
Proof.
  induction s as [|x s IH]; simpl; intros H.
  - repeat constructor.
  - rewrite no_parens_cons in H. apply andb_true_iff in H as [Hx Hs].
    specialize (IH Hs). destruct (Ascii.eqb x c).
    + constructor; [reflexivity | exact IH].
    + destruct (split_on_nonempty c s) as (a & l & E). rewrite E in *.
      apply Forall_cons in IH as [Ha Hl]. constructor; [|exact Hl].
      rewrite no_parens_cons, Hx, Ha. reflexivity.
Qed.

Lemma free_of_only_nested (token p : string) :
  free_of token p -> only_nested token p.
Proof. intros H pre c post E Htok. destruct (H _ _ _ E Htok). Qed.

End SplitMore.

(** X2. On a text without parentheses, [split_high_level] with a
    separator of one character is [str.split] with that separator,
    each piece stripped, without the last piece when it is empty. *)
Theorem split_high_level_flat (data : string) (c : ascii) :
  no_parens data = true ->
  split_high_level data (String c "")
  = map PyStr.strip (without_empty_last (PyStr.split_on c data)).
Proof.
  intros Hflat.
  destruct (split_on_nonempty c data) as (a & l & E).
  assert (exists pieces final, PyStr.split_on c data = (pieces ++ [final])%list)
    as (pieces & final & Hl).
  { rewrite E. destruct (exists_last (l := a :: l)) as (p & f & ->);
      [discriminate | eauto]. }
  rewrite Hl, without_empty_last_snoc.
  apply split_high_level_pieces.
  pose proof (split_on_join c data) as Hjoin.
  pose proof (split_on_free c data) as Hfree.
  pose proof (split_on_no_parens c data Hflat) as Hpar.
  rewrite Hl in Hjoin, Hfree, Hpar.
  apply Forall_app in Hfree as [Hfree Hfinal].
  apply Forall_app in Hpar as [Hpar _].
  apply Forall_cons in Hfinal as [Hfinal _].
  split; [|split; [|split]].
  - symmetry. exact Hjoin.
  - apply Forall_forall. intros p Hp. split.
    + apply free_of_only_nested.
      exact (proj1 (Forall_forall _ _) Hfree p Hp).
    + apply no_parens_nesting.
      exact (proj1 (Forall_forall _ _) Hpar p Hp).
  - apply free_of_only_nested, Hfinal.
  - reflexivity.
Qed.

Lemma split_high_level_flat_witness :
  split_high_level "DROP a , DROP b," ","
  = map PyStr.strip (without_empty_last (PyStr.split_on "," "DROP a , DROP b,")).
Proof. exact (split_high_level_flat "DROP a , DROP b," "," eq_refl). Defined.

(** X3. Every piece that [split_high_level] returns is stripped; and a
    text in which the separator does not occur comes back as one
    stripped piece, or as no piece when it is empty: a text of spaces
    gives one empty piece. *)
Theorem split_high_level_stripped :
  (forall data token,
      Forall (fun p => PyStr.strip p = p) (split_high_level data token))
  /\ (forall data token,
         free_of token data ->
         split_high_level data token
         = if String.eqb data "" then [] else [PyStr.strip data])
  /\ (forall ws c token,
         PyStr.all_space (String c ws) = true -> String c "" <> token ->
         free_of token ws ->
         split_high_level (String c ws) token = [""]).
Proof.
  assert (Hfree : forall data token,
             free_of token data ->
             split_high_level data token
             = if String.eqb data "" then [] else [PyStr.strip data]).
  { intros data token H.
    rewrite (split_high_level_pieces token data [] data).
    - unfold keep_final. destruct (String.eqb data ""); reflexivity.
    - split; [reflexivity|]. split; [constructor|].
      split; [apply free_of_only_nested, H | congruence]. }
  split; [|split; [exact Hfree|]].
  - intros data token.
    destruct (split_loop_pieces token data
                {| results := []; level := 0; curr_data := "" |})
      as (pieces & final & Hrun & _);
      [reflexivity | apply only_nested_empty |].
    unfold split_high_level. rewrite Hrun. simpl.
    destruct (String.eqb final ""); simpl.
    + apply Forall_forall. intros p [q [-> _]]%list_elem_of_fmap.
      apply strip_idem.
    + apply Forall_app. split.
      * apply Forall_forall. intros p [q [-> _]]%list_elem_of_fmap.
        apply strip_idem.
      * repeat constructor. apply strip_idem.
  - intros ws c token Hws Hc Hfr. rewrite Hfree.
    + simpl. unfold PyStr.strip.
      destruct (lstrip_sound (String c ws)) as (w & E & Hw & _).
      f_equal. rewrite all_space_cons in Hws.
      apply andb_true_iff in Hws as [Hc' Hws].
      simpl. rewrite Hc'.
      replace (PyStr.lstrip ws) with "";
        [reflexivity|].
      clear -Hws. induction ws as [|x ws IH]; [reflexivity|].
      rewrite all_space_cons in Hws. apply andb_true_iff in Hws as [Hx Hws].
      simpl. rewrite Hx. exact (IH Hws).
    + intros [|y pre] c' post E; simpl in E; injection E as <- E.
      * exact Hc.
      * exact (Hfr _ _ _ E).
Qed.

Lemma split_high_level_stripped_witness :
  split_high_level "ADD COLUMN a INT" "," = ["ADD COLUMN a INT"]
  /\ split_high_level "  " "," = [""].
Proof.
  destruct split_high_level_stripped as (_ & Hfree & Hblank).
  split.
  - apply (Hfree "ADD COLUMN a INT" ",").
    intros pre c post E.
    assert (PyStr.contains "," "ADD COLUMN a INT" = false) by reflexivity.
    intros Hc. injection Hc as ->.
    rewrite E in H. rewrite (contains_app_r "," pre) in H; [discriminate|].
    apply (contains_here ",").
  - apply (Hblank " " " "%char ","); [reflexivity | discriminate |].
    intros [|? [|? ?]] c post E; try discriminate.
    injection E as <- _. discriminate.
Defined.

(** * More on the type mapping *)

Section Timestamp.

Lemma lower_length (s : string) :
  String.length (PyStr.lower s) = String.length s.
Proof. induction s as [|c s IH]; simpl; congruence. Qed.

Lemma substring_drop (n : nat) (s : string) :
  String.substring 0 n s +:+ PyStr.drop n s = s.
Proof.
  revert s. induction n as [|n IH]; intros [|c s]; simpl; try reflexivity.
  rewrite IH. reflexivity.
Qed.

Lemma substring_length (n : nat) (s : string) :
  (String.length (String.substring 0 n s) <= n)%nat.
Proof.
  revert s. induction n as [|n IH]; intros [|c s]; simpl; try lia.
  specialize (IH s). lia.
Qed.

Lemma substring_app (kw rest : string) :
  String.substring 0 (String.length kw) (kw +:+ rest) = kw.
Proof.
  induction kw as [|c kw IH]; simpl.
  - destruct rest; reflexivity.
  - rewrite IH. reflexivity.
Qed.

Lemma drop_app (kw rest : string) :
  PyStr.drop (String.length kw) (kw +:+ rest) = rest.
Proof. induction kw as [|c kw IH]; simpl; auto. Qed.

Lemma timestamp_keyword_length (kw : string) :
  PyStr.lower kw = "timestamp" -> String.length kw = 9%nat.
Proof. intros H. rewrite <- lower_length, H. reflexivity. Qed.

(** The matcher of [timestamp] finds the forms of the pattern, and
    nothing else. *)
Lemma match_timestamp_form (s : string) (p : option string) :
  match_timestamp s = Some p <-> timestamp_form s p.
Proof.
  unfold match_timestamp, timestamp_form. split.
  - intros H.
    destruct (String.eqb_spec (PyStr.lower (String.substring 0 9 s))
                "timestamp") as [Hkw|]; [|discriminate].
    exists (String.substring 0 9 s). split; [exact Hkw|].
    pose proof (substring_drop 9 s) as Hs.
    destruct (PyStr.drop 9 s) as [|c rest].
    + injection H as <-. rewrite str_app_nil_r in Hs. congruence.
    + destruct (Ascii.eqb_spec c "("); [subst c|discriminate].
      destruct (PyStr.span_digits rest) as [ds rest'] eqn:S.
      apply span_digits_sound in S as (-> & Hd & _).
      destruct (String.eqb_spec ds ""); [discriminate|]. simpl in H.
      destruct (String.eqb_spec rest' ")"); [subst rest'|discriminate].
      injection H as <-. repeat split; auto.
  - intros (kw & Hkw & Hp).
    pose proof (timestamp_keyword_length kw Hkw) as Hlen.
    destruct p as [ds|].
    + destruct Hp as (-> & Hne & Hd).
      rewrite <- Hlen, substring_app, drop_app, Hkw. simpl.
      rewrite (span_digits_app ds ")") by (auto; reflexivity).
      apply String.eqb_neq in Hne. rewrite Hne. reflexivity.
    + subst s. rewrite <- Hlen.
      pose proof (substring_app kw "") as Hsub.
      pose proof (drop_app kw "") as Hdrop.
      rewrite str_app_nil_r in Hsub, Hdrop.
      rewrite Hsub, Hdrop, Hkw. reflexivity.
Qed.

End Timestamp.

(** X4. [convert_timestamp_to_datetime64] accepts, once the spaces
    around it are removed, the word [timestamp] in any letter case,
    alone or followed by a run of digits in parentheses, and nothing
    else; it returns [DateTime64], with the digits as they were written
    when there are some, and otherwise raises a [ValueError] that
    quotes its argument. *)
Theorem convert_timestamp_to_datetime64_forms (input_str : string) :
  (forall r,
      convert_timestamp_to_datetime64 input_str = Ok r <->
      exists p, timestamp_form (PyStr.strip input_str) p /\ r = datetime64 p)
  /\ (forall e,
         convert_timestamp_to_datetime64 input_str = Raise e <->
         (forall p, ~ timestamp_form (PyStr.strip input_str) p)
         /\ e = ValueError ("Invalid input string format: '" +:+ input_str
                            +:+ "'")).
Proof.
  unfold convert_timestamp_to_datetime64.
  destruct (match_timestamp (PyStr.strip input_str)) as [p|] eqn:M.
  - apply match_timestamp_form in M. split.
    + intros r. split.
      * destruct p; intros [= <-]; eauto.
      * intros (p' & Hp' & ->).
        apply match_timestamp_form in M, Hp'.
        assert (p' = p) as -> by congruence.
        destruct p; reflexivity.
    + intros e. split; [destruct p; discriminate|].
      intros [Hno _]. destruct (Hno p M).
  - split.
    + intros r. split; [discriminate|].
      intros (p & Hp & _). apply match_timestamp_form in Hp. congruence.
    + intros e. split.
      * intros [= <-]. split; [|reflexivity].
        intros p Hp. apply match_timestamp_form in Hp. congruence.
      * intros [_ ->]. reflexivity.
Qed.

Lemma convert_timestamp_to_datetime64_forms_witness :
  convert_timestamp_to_datetime64 " TimeStamp(6) " = Ok "DateTime64(6)".
Proof.
  apply (proj1 (convert_timestamp_to_datetime64_forms " TimeStamp(6) ")).
  exists (Some "6"). split; [|reflexivity].
  exists "TimeStamp". split; [reflexivity|].
  split; [reflexivity|]. split; [discriminate | reflexivity].
Defined.

Section Precision.

(** A run of digits and a closing parenthesis have no occurrence of a
    word that starts with another character. *)
Lemma contains_digits_paren (a : ascii) (needle ds : string) :
  PyStr.is_digit a = false -> a <> ")"%char ->
  PyStr.all_digits ds = true ->
  PyStr.contains (String a needle) (ds +:+ ")") = false.
Proof.
  intros Ha Hp Hd. induction ds as [|d ds IH]; simpl.
  - destruct (ascii_dec a ")"); [contradiction|reflexivity].
  - rewrite all_digits_cons in Hd. apply andb_true_iff in Hd as [Hd Hds].
    destruct (ascii_dec a d) as [->|_]; [congruence|].
    exact (IH Hds).
Qed.

(** [replace] leaves a text without occurrence as it is. *)
Lemma replace_go_absent (fuel : nat) (old new s : string) :
  PyStr.contains old s = false -> PyStr.replace_go fuel old new s = s.
Proof.
  revert s. induction fuel as [|fuel IH]; intros s H; [reflexivity|].
  destruct s as [|c s]; [reflexivity|].
  cbn [PyStr.contains] in H. apply orb_false_iff in H as [Hp Hs].
  cbn [PyStr.replace_go]. rewrite Hp, (IH s Hs). reflexivity.
Qed.

Lemma replace_go_here (fuel : nat) (old new : string) (c : ascii)
  (s : string) :
  String.prefix old (String c s) = true ->
  PyStr.replace_go (S fuel) old new (String c s)
  = new +:+ PyStr.replace_go fuel old new
              (PyStr.drop (String.length old) (String c s)).
Proof. intros H. cbn [PyStr.replace_go]. rewrite H. reflexivity. Qed.

Lemma replace_datetime_head (rest : string) :
  PyStr.contains "datetime" rest = false ->
  PyStr.replace ("datetime" +:+ rest) "datetime" "DateTime64"
  = "DateTime64" +:+ rest.
Proof.
  intros H. unfold PyStr.replace.
  rewrite str_length_app.
  transitivity ("DateTime64"
                +:+ PyStr.replace_go (7 + String.length rest) "datetime"
                      "DateTime64" rest).
  - exact (replace_go_here (7 + String.length rest) "datetime" "DateTime64"
             "d" ("atetime" +:+ rest) (str_prefix_app "datetime" rest)).
  - rewrite replace_go_absent by exact H. reflexivity.
Qed.

Lemma rstrip_paren (s : string) :
  PyStr.rstrip (s +:+ ")") = s +:+ ")".
Proof. exact (rstrip_pad s ")" "" eq_refl eq_refl). Qed.

Lemma convert_timestamp_digits (ds : string) :
  PyStr.all_digits ds = true -> ds <> "" ->
  convert_timestamp_to_datetime64 ("timestamp(" +:+ ds +:+ ")")
  = Ok ("DateTime64(" +:+ ds +:+ ")").
Proof.
  intros Hd Hne. unfold convert_timestamp_to_datetime64.
  assert (Hform : timestamp_form ("timestamp(" +:+ ds +:+ ")") (Some ds)).
  { exists "timestamp". repeat split; assumption. }
  assert (Hstrip : PyStr.strip ("timestamp(" +:+ ds +:+ ")")
                   = "timestamp(" +:+ ds +:+ ")").
  { unfold PyStr.strip.
    rewrite (lstrip_head ("timestamp(" +:+ ds +:+ ")") eq_refl).
    exact (rstrip_paren ("timestamp(" +:+ ds)). }
  rewrite Hstrip.
  apply match_timestamp_form in Hform. rewrite Hform. reflexivity.
Qed.

(** The words that [convert_type] looks for before it comes to the
    temporal types are not in [timestamp(p)]. *)
Lemma timestamp_digits_free (ds needle : string) :
  PyStr.all_digits ds = true ->
  needle ∈ ["smallint"; "tinyint"; "mediumint"; "datetime"; "longtext";
            "varchar"; "text"; "blob"; "char"; "json"; "decimal"; "float";
            "double"; "bigint"; "integer"; "int("; "real"] ->
  PyStr.contains needle ("timestamp(" +:+ ds +:+ ")") = false.
Proof.
  intros Hd Hin.
  assert (Hno : forall a needle,
             PyStr.is_digit a = false -> a <> ")"%char ->
             PyStr.contains (String a needle) (ds +:+ ")") = false).
  { intros. apply contains_digits_paren; assumption. }
  repeat (apply elem_of_cons in Hin as [-> | Hin];
          [simpl; rewrite ?Hno by (try reflexivity; discriminate);
           reflexivity|]).
  apply elem_of_nil in Hin. destruct Hin.
Qed.

End Precision.

(** X5. The precision of a temporal type is kept as it is written:
    where the override table has no entry for them, [datetime(p)] and
    [timestamp(p)], p a run of digits, are both mapped to
    [DateTime64(p)], whatever the parameters. *)
Theorem convert_type_temporal_precision
  (parse_mysql_enum : string -> result (list string))
  (self : MysqlToClickhouseConverter) (ds params : string) :
  PyStr.all_digits ds = true -> ds <> "" ->
  (types_mapping self !! ("datetime(" +:+ ds +:+ ")") = None ->
   convert_type parse_mysql_enum self ("datetime(" +:+ ds +:+ ")") params
   = Ok ("DateTime64(" +:+ ds +:+ ")"))
  /\ (types_mapping self !! ("timestamp(" +:+ ds +:+ ")") = None ->
      convert_type parse_mysql_enum self ("timestamp(" +:+ ds +:+ ")") params
      = Ok ("DateTime64(" +:+ ds +:+ ")")).
Proof.
  intros Hd Hne.
  assert (Hno : forall a needle,
             PyStr.is_digit a = false -> a <> ")"%char ->
             PyStr.contains (String a needle) (ds +:+ ")") = false).
  { intros. apply contains_digits_paren; assumption. }
  split; intros Hmap; unfold convert_type; rewrite Hmap; cbv zeta.
  - set (replaced := PyStr.replace _ _ _).
    unfold PyStr.startswith. simpl.
    rewrite !Hno by (try reflexivity; discriminate). simpl.
    subst replaced. f_equal. apply replace_datetime_head.
    apply (Hno "d"%char "atetime"); [reflexivity|discriminate].
  - rewrite (convert_timestamp_digits ds Hd Hne).
    rewrite !(timestamp_digits_free ds _ Hd)
      by (apply list_elem_of_In; simpl; tauto).
    reflexivity.
Qed.

Lemma convert_type_temporal_precision_witness :
  convert_type (fun _ => Ok []) (__init__ None) "datetime(6)" ""
  = Ok "DateTime64(6)"
  /\ convert_type (fun _ => Ok []) (__init__ None) "timestamp(3)" "not null"
     = Ok "DateTime64(3)".
Proof.
  split.
  - apply (proj1 (convert_type_temporal_precision (fun _ => Ok [])
                    (__init__ None) "6" "" eq_refl ltac:(discriminate))).
    reflexivity.
  - apply (proj2 (convert_type_temporal_precision (fun _ => Ok [])
                    (__init__ None) "3" "not null" eq_refl
                    ltac:(discriminate))).
    reflexivity.
Defined.

Section Sign.

Lemma same_up_to_sign_refl (r : result string) : same_up_to_sign r r.
Proof. destruct r; simpl; auto. Qed.

Lemma same_up_to_sign_width (bits : string) :
  bits ∈ ["8"; "16"; "32"; "64"] ->
  same_up_to_sign (signedness false ("UInt" +:+ bits) ("Int" +:+ bits))
                  (signedness true ("UInt" +:+ bits) ("Int" +:+ bits)).
Proof. intros H. simpl. right. exists bits. auto. Qed.

Lemma convert_numeric_sign (t : string) :
  same_up_to_sign (convert_numeric t false) (convert_numeric t true).
Proof.
  unfold convert_numeric.
  destruct (PyStr.contains "(" t && PyStr.contains ")" t);
    [destruct (search_numeric t) as [[g1 g2]|]|];
    cbn [mbind result_bind]; try reflexivity;
    repeat match goal with
      | |- context [if ?b then _ else _] => destruct b
      end;
    try apply same_up_to_sign_refl;
    simpl; right; [exists "32" | exists "64" | exists "32" | exists "64"];
    (split; [set_solver|split; reflexivity]).
Qed.

End Sign.

(** X6. The word [unsigned] in the parameters changes nothing but the
    sign of an integer type: for every converter and type string, the
    results of [convert_type] without and with it are the same
    exception, or the same type, or [IntN] without and [UIntN] with, N
    being 8, 16, 32 or 64. *)
Theorem convert_type_unsigned_sign
  (parse_mysql_enum : string -> result (list string))
  (self : MysqlToClickhouseConverter) (t signed unsigned : string) :
  PyStr.contains "unsigned" (PyStr.lower signed) = false ->
  PyStr.contains "unsigned" (PyStr.lower unsigned) = true ->
  same_up_to_sign (convert_type parse_mysql_enum self t signed)
                  (convert_type parse_mysql_enum self t unsigned).
Proof.
  intros Hs Hu. unfold convert_type. rewrite Hs, Hu. cbv zeta.
  destruct (types_mapping self !! t); [apply same_up_to_sign_refl|].
  repeat match goal with
    | |- same_up_to_sign (if ?b then _ else _) (if ?b then _ else _) =>
        destruct b;
        [first [ apply same_up_to_sign_refl
               | apply convert_numeric_sign
               | apply (same_up_to_sign_width "8"); set_solver
               | apply (same_up_to_sign_width "16"); set_solver
               | apply (same_up_to_sign_width "32"); set_solver
               | apply (same_up_to_sign_width "64"); set_solver ]|]
    end.
  apply same_up_to_sign_refl.
Qed.

Lemma convert_type_unsigned_sign_witness :
  same_up_to_sign
    (convert_type (fun _ => Ok []) (__init__ None) "bigint(20)" "not null")
    (convert_type (fun _ => Ok []) (__init__ None) "bigint(20)"
       "UNSIGNED NOT NULL").
Proof.
  exact (convert_type_unsigned_sign (fun _ => Ok []) (__init__ None)
           "bigint(20)" "not null" "UNSIGNED NOT NULL" eq_refl eq_refl).
Defined.

Section LetterCase.

Lemma lower_char_idem (c : ascii) :
  PyStr.lower_char (PyStr.lower_char c) = PyStr.lower_char c.
Proof.
  destruct c as [[] [] [] [] [] [] [] []]; vm_compute; reflexivity.
Qed.

Lemma lower_idem (s : string) : PyStr.lower (PyStr.lower s) = PyStr.lower s.
Proof.
  induction s as [|c s IH]; [reflexivity|].
  simpl. rewrite lower_char_idem, IH. reflexivity.
Qed.

End LetterCase.

(** X7. [convert_field_type] does not look at the letter case of the
    type nor of the parameters: two spellings that differ by their
    letter case only give the same result, that of the spelling in
    lower case. *)
Theorem convert_field_type_letter_case
  (parse_mysql_enum : string -> result (list string))
  (self : MysqlToClickhouseConverter) (t t' p p' : string) :
  PyStr.lower t = PyStr.lower t' -> PyStr.lower p = PyStr.lower p' ->
  convert_field_type parse_mysql_enum self t p
  = convert_field_type parse_mysql_enum self t' p'
  /\ convert_field_type parse_mysql_enum self t p
     = convert_field_type parse_mysql_enum self (PyStr.lower t)
         (PyStr.lower p).
Proof.
  intros Ht Hp. unfold convert_field_type.
  rewrite !lower_idem, Ht, Hp. split; reflexivity.
Qed.

Lemma convert_field_type_letter_case_witness :
  convert_field_type (fun _ => Ok []) (__init__ None) "BigInt" "Unsigned"
  = convert_field_type (fun _ => Ok []) (__init__ None) "BIGINT" "UNSIGNED".
Proof.
  exact (proj1 (convert_field_type_letter_case (fun _ => Ok [])
                  (__init__ None) "BigInt" "BIGINT" "Unsigned" "UNSIGNED"
                  eq_refl eq_refl)).
Defined.

(** * More on [convert_record] *)

(** X8. On the range of a width, the unsigned-width correction is the
    reduction modulo 2^bits: an integer z with -2^bits <= z < 2^bits, in
    a column that is not a [mediumint] and whose destination names the
    one unsigned width of that many bits, becomes z mod 2^bits; and an
    integer with -2^24 <= z < 2^24 of a [mediumint] column whose
    destination names neither UInt8 nor UInt16 becomes z mod 2^24. *)
Theorem unsigned_correction_modulo (mt ct : string) (z : Z) :
  (forall bits,
      PyStr.contains "mediumint" (PyStr.lower mt) = false ->
      names_width ct bits ->
      (- 2 ^ bits <= z < 2 ^ bits)%Z ->
      unsigned_correction mt ct (VInt z) = Ok (VInt (z mod 2 ^ bits)))
  /\ (PyStr.contains "mediumint" (PyStr.lower mt) = true ->
      PyStr.contains "UInt16" ct = false ->
      PyStr.contains "UInt8" ct = false ->
      (- 2 ^ 24 <= z < 2 ^ 24)%Z ->
      unsigned_correction mt ct (VInt z) = Ok (VInt (z mod 2 ^ 24))).
Proof.
  assert (Hmod : forall m, (0 < m)%Z -> (- m <= z < m)%Z ->
                 (if (z <? 0)%Z then z + m else z)%Z = (z mod m)%Z).
  { intros m Hm Hz. destruct (Z.ltb_spec z 0).
    - rewrite <- (Z.mod_small (z + m) m) by lia.
      rewrite <- (Z.mul_1_l m) at 1. rewrite Z.mod_add by lia. reflexivity.
    - symmetry. apply Z.mod_small. lia. }
  split.
  - intros bits Hm (w8 & w16 & w32 & w64 & H8 & H16 & H32 & H64 & W) Hz.
    rewrite unsigned_correction_int. unfold sequential_correction.
    rewrite Hm, H8, H16, H32, H64.
    destruct W as [[-> [= -> -> -> ->]]|[[-> [= -> -> -> ->]]
                  |[[-> [= -> -> -> ->]]|[-> [= -> -> -> ->]]]]];
      rewrite ?add_if_negative_skip; unfold add_if_negative;
      cbn [andb];
      (apply f_equal, f_equal, Hmod; [reflexivity | exact Hz]).
  - intros Hm H16 H8 Hz.
    rewrite unsigned_correction_int. unfold sequential_correction.
    rewrite Hm, H8, H16, !add_if_negative_skip.
    assert (H24 : (2 ^ 24 = 16777216)%Z) by reflexivity.
    assert (Hw : add_if_negative true (2 ^ 24) z = (z mod 2 ^ 24)%Z).
    { unfold add_if_negative. cbn [andb]. apply Hmod; [reflexivity|exact Hz]. }
    rewrite Hw.
    assert (0 <= z mod 2 ^ 24)%Z by (apply Z.mod_pos_bound; lia).
    rewrite !(add_if_negative_nonneg _ _ (z mod 2 ^ 24)) by assumption.
    reflexivity.
Qed.

Lemma unsigned_correction_modulo_witness :
  unsigned_correction "tinyint" "UInt8" (VInt (-128)) = Ok (VInt 128)
  /\ unsigned_correction "mediumint" "UInt32" (VInt (-8388608))
     = Ok (VInt 8388608).
Proof.
  split.
  - apply (proj1 (unsigned_correction_modulo "tinyint" "UInt8" (-128)) 8%Z);
      [reflexivity | | lia].
    exists true, false, false, false. repeat split; auto.
  - apply (proj2 (unsigned_correction_modulo "mediumint" "UInt32" (-8388608)));
      [reflexivity .. | lia].
Defined.

Section Rows.

Variable py_str : value -> string.
Variable repr_list : list string -> string.
Variable json_dumps : value -> result string.
Variable decode : list byte -> string -> result string.
Variable uuid_bytes : value -> result (list byte).
Variable to_enum : value -> option (list string) -> string -> result value.
Variable mysql_field_types clickhouse_field_types : list string.
Variable mysql_structure : TableStructure.t.
Variable only_primary : bool.

Local Abbreviation column :=
  (convert_column py_str repr_list json_dumps decode uuid_bytes to_enum
     mysql_field_types clickhouse_field_types mysql_structure only_primary).

Local Abbreviation columns :=
  (convert_columns py_str repr_list json_dumps decode uuid_bytes to_enum
     mysql_field_types clickhouse_field_types mysql_structure only_primary).

Local Abbreviation row :=
  (convert_record py_str repr_list json_dumps decode uuid_bytes to_enum
     mysql_field_types clickhouse_field_types mysql_structure only_primary).

Lemma convert_columns_length (record : list value) :
  forall rest idx out,
    columns record idx rest = Ok out -> length out = length rest.
Proof.
  induction rest as [|x rest IH]; intros idx out H; simpl in H.
  - injection H as <-. reflexivity.
  - destruct (column record idx x) as [x'|]; [|discriminate]. simpl in H.
    destruct (columns record (S idx) rest) as [out'|] eqn:Hrest;
      [|discriminate].
    injection H as <-. simpl. f_equal. eapply IH, Hrest.
Qed.

(** A column skipped by [only_primary] is not looked at. *)
Lemma convert_column_not_primary (record : list value) (idx : nat)
  (v : value) :
  only_primary = true ->
  idx ∉ TableStructure.primary_key_ids mysql_structure ->
  column record idx v = Ok v.
Proof.
  intros -> Hidx. unfold convert_column.
  rewrite (bool_decide_eq_false_2 _ Hidx). reflexivity.
Qed.

(** A column that is converted and has no type in the MySQL list fails
    with the message that describes the mismatch. *)
Lemma convert_column_beyond_schema (record : list value) (idx : nat)
  (v : value) :
  only_primary = false
  \/ idx ∈ TableStructure.primary_key_ids mysql_structure ->
  mysql_field_types !! idx = None ->
  column record idx v
  = Raise (IndexError
             (index_error_message py_str repr_list mysql_field_types
                mysql_structure idx record v)).
Proof.
  intros Hprim Hidx. unfold convert_column.
  assert (only_primary
          && negb (bool_decide
                     (idx ∈ TableStructure.primary_key_ids mysql_structure))
          = false) as ->.
  { destruct Hprim as [->|Hin]; [reflexivity|].
    rewrite (bool_decide_eq_true_2 _ Hin). apply andb_false_r. }
  rewrite Hidx. reflexivity.
Qed.

Lemma convert_column_beyond_destination (record : list value) (idx : nat)
  (v : value) :
  only_primary = false
  \/ idx ∈ TableStructure.primary_key_ids mysql_structure ->
  clickhouse_field_types !! idx = None ->
  exists e, column record idx v = Raise e.
Proof.
  intros Hprim Hidx. unfold convert_column.
  assert (only_primary
          && negb (bool_decide
                     (idx ∈ TableStructure.primary_key_ids mysql_structure))
          = false) as ->.
  { destruct Hprim as [->|Hin]; [reflexivity|].
    rewrite (bool_decide_eq_true_2 _ Hin). apply andb_false_r. }
  destruct (mysql_field_types !! idx); [|eauto].
  unfold getitem. rewrite Hidx. eauto.
Qed.

End Rows.

(** X9. A converted row has as many columns as the row it comes from,
    and with [only_primary] the columns that are not part of the
    primary key are in it as they were. *)
Theorem convert_record_arity
  (py_str : value -> string) (repr_list : list string -> string)
  (json_dumps : value -> result string)
  (decode : list byte -> string -> result string)
  (uuid_bytes : value -> result (list byte))
  (to_enum : value -> option (list string) -> string -> result value)
  (mysql_field_types clickhouse_field_types : list string)
  (mysql_structure : TableStructure.t) (only_primary : bool)
  (record out : list value) :
  convert_record py_str repr_list json_dumps decode uuid_bytes to_enum
    mysql_field_types clickhouse_field_types mysql_structure only_primary
    record
  = Ok out ->
  length out = length record
  /\ (only_primary = true ->
      forall idx,
        idx ∉ TableStructure.primary_key_ids mysql_structure ->
        out !! idx = record !! idx).
Proof.
  intros H. pose proof (convert_columns_length _ _ _ _ _ _ _ _ _ _ _ _ _ _ H)
    as Hlen.
  split; [exact Hlen|]. intros Hprim idx Hidx.
  destruct (record !! idx) as [v|] eqn:Hv.
  - destruct (convert_columns_lookup _ _ _ _ _ _ _ _ _ _ _ _ _ _ H idx v Hv)
      as (v' & Hv' & Hcol).
    simpl in Hcol.
    rewrite convert_column_not_primary in Hcol by assumption.
    congruence.
  - apply lookup_ge_None. apply lookup_ge_None in Hv. lia.
Qed.

Lemma convert_record_arity_witness :
  convert_record no_str no_repr no_json no_decode no_uuid
    (fun v _ _ => Ok v) ["smallint"; "varchar(5)"] ["UInt16"; "String"]
    empty_structure true [VInt (-1); VStr "x"]
  = Ok [VInt (-1); VStr "x"]
  /\ length [VInt (-1); VStr "x"] = 2%nat.
Proof.
  split; [reflexivity|].
  exact (proj1 (convert_record_arity no_str no_repr no_json no_decode no_uuid
                  (fun v _ _ => Ok v) ["smallint"; "varchar(5)"]
                  ["UInt16"; "String"] empty_structure true
                  [VInt (-1); VStr "x"] [VInt (-1); VStr "x"] eq_refl)).
Defined.

(** X10. A row that is converted in full never comes out when it has
    more columns than one of the two type lists: the conversion fails,
    and at a column without MySQL type it fails with the [IndexError]
    whose message names the index, the table, the value, the two
    numbers of fields and the types of the schema. *)
Theorem convert_record_schema_mismatch
  (py_str : value -> string) (repr_list : list string -> string)
  (json_dumps : value -> result string)
  (decode : list byte -> string -> result string)
  (uuid_bytes : value -> result (list byte))
  (to_enum : value -> option (list string) -> string -> result value)
  (mysql_field_types clickhouse_field_types : list string)
  (mysql_structure : TableStructure.t) (record : list value) :
  (forall out,
      convert_record py_str repr_list json_dumps decode uuid_bytes to_enum
        mysql_field_types clickhouse_field_types mysql_structure false record
      = Ok out ->
      (length record <= length mysql_field_types)%nat
      /\ (length record <= length clickhouse_field_types)%nat)
  /\ (forall idx v,
         mysql_field_types !! idx = None ->
         convert_column py_str repr_list json_dumps decode uuid_bytes to_enum
           mysql_field_types clickhouse_field_types mysql_structure false
           record idx v
         = Raise (IndexError
                    (index_error_message py_str repr_list mysql_field_types
                       mysql_structure idx record v))).
Proof.
  split.
  - intros out H.
    assert (Hcol : forall idx v, record !! idx = Some v ->
               exists v',
                 convert_column py_str repr_list json_dumps decode uuid_bytes
                   to_enum mysql_field_types clickhouse_field_types
                   mysql_structure false record idx v = Ok v').
    { intros idx v Hv.
      destruct (convert_columns_lookup _ _ _ _ _ _ _ _ _ _ _ _ _ _ H idx v Hv)
        as (v' & _ & Hcol). eauto. }
    split.
    + destruct (Nat.le_gt_cases (length record) (length mysql_field_types))
        as [|Hgt]; [assumption|exfalso].
      destruct (lookup_lt_is_Some_2 record (length mysql_field_types) Hgt)
        as [v Hv].
      destruct (Hcol _ _ Hv) as [v' Hv'].
      rewrite convert_column_beyond_schema in Hv'; [discriminate|auto|].
      apply lookup_ge_None. lia.
    + destruct (Nat.le_gt_cases (length record)
                  (length clickhouse_field_types)) as [|Hgt];
        [assumption|exfalso].
      destruct (lookup_lt_is_Some_2 record (length clickhouse_field_types)
                  Hgt) as [v Hv].
      destruct (Hcol _ _ Hv) as [v' Hv'].
      destruct (convert_column_beyond_destination py_str repr_list json_dumps
                  decode uuid_bytes to_enum mysql_field_types
                  clickhouse_field_types mysql_structure false record
                  (length clickhouse_field_types) v) as [e He];
        [auto | apply lookup_ge_None; lia | congruence].
  - intros idx v Hidx. apply convert_column_beyond_schema; auto.
Qed.

Lemma convert_record_schema_mismatch_witness :
  exists msg,
    convert_record no_str no_repr no_json no_decode no_uuid
      (fun v _ _ => Ok v) ["int"] ["Int32"] empty_structure false
      [VInt 1; VInt 2]
    = Raise (IndexError msg).
Proof.
  eexists. unfold convert_record. cbn [convert_columns].
  change (convert_column _ _ _ _ _ _ _ _ _ _ _ 0 (VInt 1)) with (Ok (VInt 1)).
  cbn [mbind result_bind].
  rewrite (proj2 (convert_record_schema_mismatch no_str no_repr no_json
                    no_decode no_uuid (fun v _ _ => Ok v) ["int"] ["Int32"]
                    empty_structure [VInt 1; VInt 2]) 1%nat (VInt 2) eq_refl).
  reflexivity.
Defined.

Section SetExpansion.

(** [mask & (1 << i)] is not zero exactly when bit [i] of [mask] is
    set. *)
Lemma land_shiftl_testbit (mask : Z) (i : nat) :
  negb (Z.land mask (Z.shiftl 1 (Z.of_nat i)) =? 0)%Z
  = Z.testbit mask (Z.of_nat i).
Proof.
  rewrite Z.shiftl_1_l.
  destruct (Z.testbit mask (Z.of_nat i)) eqn:B.
  - assert (Z.testbit (Z.land mask (2 ^ Z.of_nat i)) (Z.of_nat i) = true) as T.
    { rewrite Z.land_spec, B, Z.pow2_bits_true by lia. reflexivity. }
    destruct (Z.eqb_spec (Z.land mask (2 ^ Z.of_nat i)) 0) as [E|]; [|reflexivity].
    rewrite E, Z.bits_0 in T. discriminate.
  - assert (Z.land mask (2 ^ Z.of_nat i) = 0)%Z as ->; [|reflexivity].
    apply Z.bits_inj'. intros k Hk. rewrite Z.land_spec, Z.bits_0.
    destruct (Z.eq_dec k (Z.of_nat i)) as [->|Hne].
    + rewrite B. reflexivity.
    + rewrite Z.pow2_bits_false by lia. apply andb_false_r.
Qed.

(** A comprehension that keeps the values whose position has its bit
    set in [mask]. *)
Lemma omap_flagged (mask : Z) (g : nat * string -> option string)
  (labels : list string) (k : nat) :
  (forall i v, g (i, v) = if Z.testbit mask (Z.of_nat i) then Some v else None) ->
  omap g (imap (fun idx val => ((k + idx)%nat, val)) labels)
  = flagged_from k mask labels.
Proof.
  intros Hg. revert k.
  induction labels as [|l labels IH]; intros k; [reflexivity|].
  rewrite imap_cons.
  rewrite (imap_ext _ (fun idx val => ((S k + idx)%nat, val)))
    by (intros; simpl; f_equal; lia).
  simpl. rewrite Hg, Nat.add_0_r.
  specialize (IH (S k)). simpl in IH. unfold omap in IH. rewrite IH.
  destruct (Z.testbit mask (Z.of_nat k)); reflexivity.
Qed.

(** The comprehension over [enumerate(set_values)]. *)
Lemma bitmask_labels (mask : Z) (labels : list string) :
  omap (fun '(idx, val) =>
          if negb (Z.land mask (Z.shiftl 1 (Z.of_nat idx)) =? 0)%Z
          then Some val else None)
       (imap (fun idx val => (idx, val)) labels)
  = flagged mask labels.
Proof.
  apply (omap_flagged mask _ labels 0).
  intros i v. rewrite land_shiftl_testbit. reflexivity.
Qed.

Lemma flagged_sublist (mask : Z) (labels : list string) (k : nat) :
  flagged_from k mask labels `sublist_of` labels.
Proof.
  revert k. induction labels as [|l labels IH]; intros k; simpl.
  - constructor.
  - destruct (Z.testbit mask (Z.of_nat k)); constructor; apply IH.
Qed.

(** The labels kept for a set of members are those of a mask that has
    the bits of the members. *)
Lemma flagged_members (mask : Z) (members labels : list string) (k : nat) :
  (forall i l, labels !! i = Some l ->
               Z.testbit mask (Z.of_nat (k + i)) = true <-> l ∈ members) ->
  filter (fun v => v ∈ members) labels = flagged_from k mask labels.
Proof.
  revert k. induction labels as [|l labels IH]; intros k H; [reflexivity|].
  rewrite filter_cons. cbn [flagged_from].
  pose proof (H 0%nat l eq_refl) as H0. rewrite Nat.add_0_r in H0.
  rewrite (IH (S k)).
  - destruct (decide (l ∈ members)) as [Hin|Hout].
    + rewrite (proj2 H0 Hin). reflexivity.
    + destruct (Z.testbit mask (Z.of_nat k)); [|reflexivity].
      destruct Hout. apply H0. reflexivity.
  - intros i l' Hl. rewrite <- (H (S i) l' Hl).
    replace (S k + i)%nat with (k + S i)%nat by lia. reflexivity.
Qed.

Lemma set_step_mask (mysql_structure : TableStructure.t) (idx : nat)
  (mt : string) (field : TableField.t) (labels : list string) (mask : Z) :
  PyStr.contains "set(" mt = true ->
  TableStructure.fields mysql_structure !! idx = Some field ->
  TableField.additional_data field = Some labels ->
  set_step mysql_structure idx mt (VInt mask)
  = Ok (VStr (PyStr.join "," (flagged mask labels))).
Proof.
  intros Hset Hfield Hdata. unfold set_step, getitem.
  rewrite Hset, Hfield. cbn [mbind result_bind]. rewrite Hdata.
  cbn [iterate mbind result_bind].
  rewrite (bitmask_labels mask labels). reflexivity.
Qed.

Lemma set_step_members (mysql_structure : TableStructure.t) (idx : nat)
  (mt : string) (field : TableField.t) (labels members : list string) :
  PyStr.contains "set(" mt = true ->
  TableStructure.fields mysql_structure !! idx = Some field ->
  TableField.additional_data field = Some labels ->
  set_step mysql_structure idx mt (VSet members)
  = Ok (VStr (PyStr.join "," (filter (fun v => v ∈ members) labels))).
Proof.
  intros Hset Hfield Hdata. unfold set_step, getitem.
  rewrite Hset, Hfield. cbn [mbind result_bind]. rewrite Hdata.
  reflexivity.
Qed.

End SetExpansion.

Section SetColumn.

Variable py_str : value -> string.
Variable repr_list : list string -> string.
Variable json_dumps : value -> result string.
Variable decode : list byte -> string -> result string.
Variable uuid_bytes : value -> result (list byte).
Variable to_enum : value -> option (list string) -> string -> result value.
Variable mysql_field_types clickhouse_field_types : list string.
Variable mysql_structure : TableStructure.t.
Variable only_primary : bool.

Local Abbreviation column :=
  (convert_column py_str repr_list json_dumps decode uuid_bytes to_enum
     mysql_field_types clickhouse_field_types mysql_structure only_primary).

(** What a column of a [set] type mapped to a string goes through
    before the set expansion leaves the value as it is, when the
    unsigned-width correction does. *)
Lemma convert_column_set (record : list value) (idx : nat) (rest ct : string)
  (v : value) :
  mysql_field_types !! idx = Some ("set(" +:+ rest) ->
  clickhouse_field_types !! idx = Some ct ->
  ct = "String" \/ ct = "Nullable(String)" ->
  only_primary = false
  \/ idx ∈ TableStructure.primary_key_ids mysql_structure ->
  (exists z, v = VInt z) \/ (exists members, v = VSet members) ->
  unsigned_correction ("set(" +:+ rest) ct v = Ok v ->
  column record idx v = set_step mysql_structure idx ("set(" +:+ rest) v.
Proof.
  intros Hmt Hct Hstring Hprim Hv Hcorr. unfold convert_column.
  assert (only_primary
          && negb (bool_decide
                     (idx ∈ TableStructure.primary_key_ids mysql_structure))
          = false) as ->.
  { destruct Hprim as [->|Hin]; [reflexivity|].
    rewrite (bool_decide_eq_true_2 _ Hin). apply andb_false_r. }
  unfold getitem. rewrite Hmt, Hct. cbn [mbind result_bind].
  change (PyStr.startswith ("set(" +:+ rest) "time") with false.
  change (String.eqb ("set(" +:+ rest) "json") with false.
  change (PyStr.startswith ("set(" +:+ rest) "point") with false.
  change (PyStr.startswith ("set(" +:+ rest) "enum(") with false.
  cbn [andb mbind result_bind].
  assert (is_not_None v = true) as ->
      by (destruct Hv as [[z ->]|[m ->]]; reflexivity).
  assert (uuid_step decode uuid_bytes ct v = Ok v) as ->
      by (unfold uuid_step; destruct Hstring as [-> | ->]; reflexivity).
  cbn [mbind result_bind]. rewrite Hcorr. cbn [mbind result_bind].
  assert (charset_step decode mysql_structure ("set(" +:+ rest) ct v = Ok v)
    as ->.
  { unfold charset_step.
    destruct Hv as [[z ->]|[m ->]]; destruct (_ && _); reflexivity. }
  cbn [mbind result_bind].
  destruct (set_step mysql_structure idx ("set(" +:+ rest) v); reflexivity.
Qed.

Lemma parse_mysql_point_value_pair (v r : value) :
  parse_mysql_point_value v = Ok r -> exists x y, r = VPoint x y.
Proof.
  unfold parse_mysql_point_value.
  destruct v; cbn [py_len mbind result_bind];
    try (destruct (parse_mysql_point _) as [[x y]|]; cbn [mbind result_bind];
         [intros [= <-]; eauto | discriminate]);
    try discriminate;
    repeat match goal with
      | |- context [if ?b then _ else _] => destruct b
      end; discriminate.
Qed.

End SetColumn.

(** X11. A column of a [set(...)] type mapped to a string, holding a
    bit mask that is not negative, becomes the labels of the field
    whose bit is set (bit 0 for the first label), in the order of the
    declaration and joined by commas; these labels are a sub-list of
    the declared ones. *)
Theorem convert_column_set_mask
  (py_str : value -> string) (repr_list : list string -> string)
  (json_dumps : value -> result string)
  (decode : list byte -> string -> result string)
  (uuid_bytes : value -> result (list byte))
  (to_enum : value -> option (list string) -> string -> result value)
  (mysql_field_types clickhouse_field_types : list string)
  (mysql_structure : TableStructure.t) (only_primary : bool)
  (record : list value) (idx : nat) (rest ct : string)
  (field : TableField.t) (labels : list string) (mask : Z) :
  mysql_field_types !! idx = Some ("set(" +:+ rest) ->
  clickhouse_field_types !! idx = Some ct ->
  ct = "String" \/ ct = "Nullable(String)" ->
  only_primary = false
  \/ idx ∈ TableStructure.primary_key_ids mysql_structure ->
  TableStructure.fields mysql_structure !! idx = Some field ->
  TableField.additional_data field = Some labels ->
  (0 <= mask)%Z ->
  convert_column py_str repr_list json_dumps decode uuid_bytes to_enum
    mysql_field_types clickhouse_field_types mysql_structure only_primary
    record idx (VInt mask)
  = Ok (VStr (PyStr.join "," (flagged mask labels)))
  /\ flagged mask labels `sublist_of` labels.
Proof.
  intros Hmt Hct Hstring Hprim Hfield Hdata Hmask.
  split; [|apply flagged_sublist].
  rewrite (convert_column_set _ _ _ _ _ _ _ _ _ _ record idx rest ct
             (VInt mask)); eauto.
  - apply (set_step_mask _ _ _ field); auto. apply (contains_here "set(").
  - rewrite unsigned_correction_int, sequential_correction_nonneg by exact Hmask.
    reflexivity.
Qed.

Lemma convert_column_set_mask_witness :
  convert_column no_str no_repr no_json no_decode no_uuid (fun v _ _ => Ok v)
    ["set('a','b','c')"] ["Nullable(String)"] set_structure false
    [VInt 5] 0 (VInt 5)
  = Ok (VStr "a,c").
Proof.
  exact (proj1 (convert_column_set_mask no_str no_repr no_json no_decode
                  no_uuid (fun v _ _ => Ok v) ["set('a','b','c')"]
                  ["Nullable(String)"] set_structure false [VInt 5] 0
                  "'a','b','c')" "Nullable(String)" _ ["a"; "b"; "c"] 5
                  eq_refl eq_refl (or_intror eq_refl) (or_introl eq_refl)
                  eq_refl eq_refl ltac:(lia))).
Defined.

(** X12. The two ways a driver hands over the value of a [set] column
    agree: a set of labels and a bit mask that is not negative and has
    the bits of the labels of that set give the same string, provided
    the MySQL type does not contain [mediumint]. *)
Theorem convert_column_set_members
  (py_str : value -> string) (repr_list : list string -> string)
  (json_dumps : value -> result string)
  (decode : list byte -> string -> result string)
  (uuid_bytes : value -> result (list byte))
  (to_enum : value -> option (list string) -> string -> result value)
  (mysql_field_types clickhouse_field_types : list string)
  (mysql_structure : TableStructure.t) (only_primary : bool)
  (record : list value) (idx : nat) (rest ct : string)
  (field : TableField.t) (labels members : list string) (mask : Z) :
  mysql_field_types !! idx = Some ("set(" +:+ rest) ->
  clickhouse_field_types !! idx = Some ct ->
  ct = "String" \/ ct = "Nullable(String)" ->
  only_primary = false
  \/ idx ∈ TableStructure.primary_key_ids mysql_structure ->
  TableStructure.fields mysql_structure !! idx = Some field ->
  TableField.additional_data field = Some labels ->
  PyStr.contains "mediumint" (PyStr.lower ("set(" +:+ rest)) = false ->
  (0 <= mask)%Z ->
  (forall i l, labels !! i = Some l ->
               Z.testbit mask (Z.of_nat i) = true <-> l ∈ members) ->
  convert_column py_str repr_list json_dumps decode uuid_bytes to_enum
    mysql_field_types clickhouse_field_types mysql_structure only_primary
    record idx (VSet members)
  = convert_column py_str repr_list json_dumps decode uuid_bytes to_enum
      mysql_field_types clickhouse_field_types mysql_structure only_primary
      record idx (VInt mask).
Proof.
  intros Hmt Hct Hstring Hprim Hfield Hdata Hmedium Hmask Hbits.
  rewrite (convert_column_set _ _ _ _ _ _ _ _ _ _ record idx rest ct
             (VInt mask)); eauto.
  2: { rewrite unsigned_correction_int, sequential_correction_nonneg
         by exact Hmask. reflexivity. }
  rewrite (convert_column_set _ _ _ _ _ _ _ _ _ _ record idx rest ct
             (VSet members)); eauto.
  2: { unfold unsigned_correction. rewrite Hmedium.
       destruct Hstring as [-> | ->]; reflexivity. }
  rewrite (set_step_mask mysql_structure idx _ field labels mask
             (contains_here "set(" rest) Hfield Hdata).
  rewrite (set_step_members mysql_structure idx _ field labels members
             (contains_here "set(" rest) Hfield Hdata).
  rewrite (flagged_members mask members labels 0); [reflexivity|].
  intros i l Hl. apply Hbits, Hl.
Qed.

Lemma convert_column_set_members_witness :
  convert_column no_str no_repr no_json no_decode no_uuid (fun v _ _ => Ok v)
    ["set('a','b','c')"] ["String"] set_structure false
    [VSet ["c"; "a"]] 0 (VSet ["c"; "a"])
  = Ok (VStr "a,c").
Proof.
  rewrite (convert_column_set_members no_str no_repr no_json no_decode
             no_uuid (fun v _ _ => Ok v) ["set('a','b','c')"] ["String"]
             set_structure false [VSet ["c"; "a"]] 0 "'a','b','c')" "String"
             _ ["a"; "b"; "c"] ["c"; "a"] 5
             eq_refl eq_refl (or_introl eq_refl) (or_introl eq_refl)
             eq_refl eq_refl eq_refl ltac:(lia)).
  - reflexivity.
  - intros [|[|[|i]]] l Hl; simpl in Hl; try discriminate;
      injection Hl as <-; simpl; split; intros H;
      try reflexivity; try discriminate;
      try (apply list_elem_of_In; simpl; tauto);
      apply list_elem_of_In in H; simpl in H;
      destruct H as [H|[H|[]]]; discriminate.
Defined.

(** X13. A column of a [point] type that is converted gives a pair of
    coordinates or fails: it never gives a null, nor the bytes it was
    given. *)
Theorem convert_column_point_pair
  (py_str : value -> string) (repr_list : list string -> string)
  (json_dumps : value -> result string)
  (decode : list byte -> string -> result string)
  (uuid_bytes : value -> result (list byte))
  (to_enum : value -> option (list string) -> string -> result value)
  (mysql_field_types clickhouse_field_types : list string)
  (mysql_structure : TableStructure.t) (only_primary : bool)
  (record : list value) (idx : nat) (mt : string) (v r : value) :
  mysql_field_types !! idx = Some mt ->
  PyStr.startswith mt "point" = true ->
  only_primary = false
  \/ idx ∈ TableStructure.primary_key_ids mysql_structure ->
  convert_column py_str repr_list json_dumps decode uuid_bytes to_enum
    mysql_field_types clickhouse_field_types mysql_structure only_primary
    record idx v
  = Ok r ->
  exists x y, r = VPoint x y.
Proof.
  intros Hmt Hpoint Hprim. unfold convert_column.
  assert (only_primary
          && negb (bool_decide
                     (idx ∈ TableStructure.primary_key_ids mysql_structure))
          = false) as ->.
  { destruct Hprim as [->|Hin]; [reflexivity|].
    rewrite (bool_decide_eq_true_2 _ Hin). apply andb_false_r. }
  rewrite Hmt. clear Hmt.
  destruct (str_prefix_inv _ _ Hpoint) as [rest ->].
  cbn [mbind result_bind].
  destruct (getitem clickhouse_field_types idx) as [ct|]; [|discriminate].
  cbn [mbind result_bind].
  change (PyStr.startswith ("point" +:+ rest) "time") with false.
  change (String.eqb ("point" +:+ rest) "json") with false.
  change (PyStr.startswith ("point" +:+ rest) "enum(") with false.
  rewrite Hpoint. cbn [andb mbind result_bind].
  match goal with
  | |- (?steps ≫= _) = _ -> _ => destruct steps as [v'|]; [|discriminate]
  end.
  cbn [mbind result_bind].
  destruct (parse_mysql_point_value v') as [r'|] eqn:P; [|discriminate].
  cbn [mbind result_bind]. intros [= <-].
  exact (parse_mysql_point_value_pair _ _ P).
Qed.

Lemma convert_column_point_pair_witness :
  exists x y,
    convert_column no_str no_repr no_json no_decode no_uuid
      (fun v _ _ => Ok v) ["point"] ["Tuple(x Float32, y Float32)"]
      empty_structure false [VNone] 0 VNone
    = Ok (VPoint x y).
Proof.
  destruct (convert_column_point_pair no_str no_repr no_json no_decode
              no_uuid (fun v _ _ => Ok v) ["point"]
              ["Tuple(x Float32, y Float32)"] empty_structure false [VNone] 0
              "point" VNone (VPoint (NInt 0) (NInt 0)) eq_refl eq_refl
              (or_introl eq_refl) eq_refl) as (x & y & E).
  exists x, y. rewrite <- E. reflexivity.
Defined.

(** * More on [parse_mysql_point] *)

Section PointMore.

Lemma byte_value_of_Z (z : Z) : byte_value (byte_of_Z z) = (z mod 256)%Z.
Proof.
  unfold byte_of_Z, byte_value.
  pose proof (Z.mod_pos_bound z 256 eq_refl) as Hb.
  destruct (Byte.of_N (Z.to_N (z mod 256))) as [b|] eqn:E.
  - apply Byte.to_of_N in E. rewrite E. lia.
  - apply Byte.of_N_None_iff in E. lia.
Qed.

Lemma be_value_snoc (bs : list byte) (b : byte) :
  be_value (bs ++ [b])%list = (be_value bs * 256 + byte_value b)%Z.
Proof. unfold be_value. rewrite fold_left_app. reflexivity. Qed.

(** Reading the bytes that write [w] gives [w] back. *)
Lemma be_value_bytes_of_uint (n : nat) (w : Z) :
  (0 <= w < 256 ^ Z.of_nat n)%Z -> be_value (bytes_of_uint n w) = w.
Proof.
  revert w. induction n as [|n IH]; intros w Hw.
  - simpl in *. unfold be_value. simpl. lia.
  - cbn [bytes_of_uint]. rewrite be_value_snoc, byte_value_of_Z.
    rewrite IH.
    + pose proof (Z.div_mod w 256). lia.
    + rewrite Nat2Z.inj_succ, Z.pow_succ_r in Hw by lia.
      split; [apply Z.div_pos; lia|].
      apply Z.div_lt_upper_bound; lia.
Qed.

Lemma length_bytes_of_uint (n : nat) (w : Z) :
  length (bytes_of_uint n w) = n.
Proof.
  revert w. induction n as [|n IH]; intros w; [reflexivity|].
  cbn [bytes_of_uint]. rewrite length_app, IH. simpl. lia.
Qed.

Lemma uint_of_bytes_in_order (e : endian) (bs : list byte) :
  uint_of_bytes e (in_order e bs) = be_value bs.
Proof.
  destruct e; unfold uint_of_bytes, in_order; [reflexivity|].
  rewrite rev_involutive. reflexivity.
Qed.

Lemma length_in_order (e : endian) (bs : list byte) :
  length (in_order e bs) = length bs.
Proof. destruct e; simpl; [reflexivity|]. apply length_rev. Qed.

Lemma srid_prefix_21 (srid : list byte) (flag : byte) (ty xs ys : list byte) :
  srid_prefix srid ->
  length ty = 4%nat -> length xs = 8%nat -> length ys = 8%nat ->
  length (srid ++ flag :: ty ++ xs ++ ys)%list = 21%nat -> srid = [].
Proof.
  intros [H|H] Hty Hxs Hys Hlen.
  - destruct srid; [reflexivity|discriminate].
  - rewrite length_app in Hlen. simpl in Hlen. rewrite !length_app in Hlen.
    lia.
Qed.

End PointMore.

(** X14. The SRID in front of a payload has no part in the result: a
    payload of 25 bytes decodes, or fails, as its last 21 bytes do. *)
Theorem parse_mysql_point_srid (srid wkb : list byte) :
  length srid = 4%nat -> length wkb = 21%nat ->
  parse_mysql_point (Some (srid ++ wkb)%list) = parse_mysql_point (Some wkb).
Proof.
  intros Hs Hw.
  destruct (payload_layout wkb (or_introl Hw))
    as (srid0 & flag & ty & xs & ys & -> & Hs0 & Hty & Hxs & Hys).
  assert (srid0 = []) as ->
      by exact (srid_prefix_21 srid0 flag ty xs ys Hs0 Hty Hxs Hys Hw).
  rewrite (app_nil_l (flag :: ty ++ xs ++ ys)).
  rewrite (parse_payload srid flag ty xs ys) by (auto; right; exact Hs).
  exact (eq_sym (parse_payload [] flag ty xs ys (or_introl eq_refl)
                   Hty Hxs Hys)).
Qed.

Lemma parse_mysql_point_srid_witness :
  parse_mysql_point
    (Some ([x00; x00; x10; xe6]
             ++ [x00; x00; x00; x00; x01;
                 x3f; xf0; x00; x00; x00; x00; x00; x00;
                 x40; x00; x00; x00; x00; x00; x00; x00])%list)
  = Ok (NFloat (S754_finite false 4503599627370496 (-52)),
        NFloat (S754_finite false 4503599627370496 (-51))).
Proof.
  rewrite (parse_mysql_point_srid [x00; x00; x10; xe6]
             [x00; x00; x00; x00; x01;
              x3f; xf0; x00; x00; x00; x00; x00; x00;
              x40; x00; x00; x00; x00; x00; x00; x00] eq_refl eq_refl).
  reflexivity.
Defined.

(** X15. The two byte orders are read alike: a little-endian payload
    decodes as the big-endian payload whose type and coordinates have
    their bytes in the opposite order. *)
Theorem parse_mysql_point_byte_order (srid ty xs ys : list byte) :
  srid_prefix srid ->
  length ty = 4%nat -> length xs = 8%nat -> length ys = 8%nat ->
  parse_mysql_point (Some (srid ++ x01 :: rev ty ++ rev xs ++ rev ys)%list)
  = parse_mysql_point (Some (srid ++ x00 :: ty ++ xs ++ ys)%list).
Proof.
  intros Hs Hty Hxs Hys.
  rewrite !parse_payload by (rewrite ?length_rev; assumption).
  unfold decode_after_flag.
  change (endian_of_byte_order (byte_value x01)) with (Ok Little).
  change (endian_of_byte_order (byte_value x00)) with (Ok Big).
  cbn [mbind result_bind].
  unfold double_of_bytes, uint_of_bytes. rewrite !rev_involutive.
  reflexivity.
Qed.

Lemma parse_mysql_point_byte_order_witness :
  parse_mysql_point
    (Some [x01; x01; x00; x00; x00;
           x00; x00; x00; x00; x00; x00; xf0; x3f;
           x00; x00; x00; x00; x00; x00; x00; x40])
  = Ok (NFloat (S754_finite false 4503599627370496 (-52)),
        NFloat (S754_finite false 4503599627370496 (-51))).
Proof.
  refine (eq_trans (parse_mysql_point_byte_order []
             [x00; x00; x00; x01]
             [x3f; xf0; x00; x00; x00; x00; x00; x00]
             [x40; x00; x00; x00; x00; x00; x00; x00]
             (or_introl eq_refl) eq_refl eq_refl eq_refl) _).
  reflexivity.
Defined.

(** X16. Decoding undoes the writing of a POINT: the payload that
    writes two coordinates of 64 bits each in either byte order, with
    an SRID in front or not, decodes to the two numbers of these bit
    patterns. *)
Theorem parse_mysql_point_encode (e : endian) (srid : list byte) (wx wy : Z) :
  srid_prefix srid ->
  (0 <= wx < 2 ^ 64)%Z -> (0 <= wy < 2 ^ 64)%Z ->
  parse_mysql_point (Some (srid ++ encode_point e wx wy)%list)
  = Ok (NFloat (double_of_bits wx), NFloat (double_of_bits wy)).
Proof.
  intros Hs Hx Hy. unfold encode_point.
  rewrite parse_payload
    by (rewrite ?length_in_order, ?length_bytes_of_uint; auto).
  unfold decode_after_flag.
  assert (endian_of_byte_order (byte_value (flag_of e)) = Ok e) as ->
      by (destruct e; reflexivity).
  cbn [mbind result_bind].
  unfold double_of_bytes. rewrite !uint_of_bytes_in_order.
  rewrite !be_value_bytes_of_uint by (simpl Z.of_nat; lia).
  reflexivity.
Qed.

Lemma parse_mysql_point_encode_witness :
  parse_mysql_point
    (Some (encode_point Little 4607182418800017408 4611686018427387904))
  = Ok (NFloat (S754_finite false 4503599627370496 (-52)),
        NFloat (S754_finite false 4503599627370496 (-51))).
Proof.
  refine (eq_trans (parse_mysql_point_encode Little []
            4607182418800017408 4611686018427387904
            (or_introl eq_refl) _ _) _).
  - split; [discriminate | reflexivity].
  - split; [discriminate | reflexivity].
  - reflexivity.
Defined.

(** * More on the statements of [convert_alter_query] *)

Section Words.

Lemma none_of_cons (bad : ascii -> bool) (c : ascii) (s : string) :
  none_of bad (String c s) = negb (bad c) && none_of bad s.
Proof. reflexivity. Qed.

Lemma none_of_app (bad : ascii -> bool) (a b : string) :
  none_of bad (a +:+ b) = none_of bad a && none_of bad b.
Proof.
  induction a as [|c a IH]; [reflexivity|].
  simpl String.append. rewrite !none_of_cons, IH. apply andb_assoc.
Qed.

Lemma word_inv (w : string) :
  word w = true ->
  exists c w', w = String c w' /\ PyStr.is_space c = false
               /\ none_of PyStr.is_space w' = true.
Proof.
  unfold word. destruct w as [|c w]; [discriminate|].
  rewrite none_of_cons. simpl.
  intros [Hc Hw]%andb_true_iff. exists c, w.
  apply negb_true_iff in Hc. auto.
Qed.

Lemma word_none (w : string) :
  word w = true -> none_of PyStr.is_space w = true.
Proof. unfold word. intros [_ H]%andb_true_iff. exact H. Qed.

Lemma split_go_run (cur w rest : string) :
  none_of PyStr.is_space w = true ->
  PyStr.split_go (Some cur) (w +:+ rest)
  = PyStr.split_go (Some (cur +:+ w)) rest.
Proof.
  revert cur. induction w as [|c w IH]; intros cur H.
  - rewrite str_app_nil_r. reflexivity.
  - rewrite none_of_cons in H. apply andb_true_iff in H as [Hc Hw].
    apply negb_true_iff in Hc. simpl. rewrite Hc, (IH _ Hw).
    rewrite str_app_assoc. reflexivity.
Qed.

Lemma split_go_word (w rest : string) :
  word w = true ->
  PyStr.split_go None (w +:+ rest) = PyStr.split_go (Some w) rest.
Proof.
  intros (c & w' & -> & Hc & Hw)%word_inv.
  simpl. rewrite Hc. exact (split_go_run (String c "") w' rest Hw).
Qed.

(** [split] undoes [join] on words. *)
Lemma split_join_words (ws : list string) :
  Forall (fun w => word w = true) ws ->
  PyStr.split (PyStr.join " " ws) = ws.
Proof.
  unfold PyStr.split, PyStr.join.
  induction ws as [|w ws IH]; [reflexivity|].
  intros [Hw Hws]%Forall_cons. specialize (IH Hws).
  destruct ws as [|w' ws].
  - simpl. rewrite <- (str_app_nil_r w) at 1.
    rewrite (split_go_word w "" Hw). reflexivity.
  - change (String.concat " " (w :: w' :: ws))
      with (w +:+ String " " (String.concat " " (w' :: ws))).
    rewrite (split_go_word w _ Hw).
    change (PyStr.split_go (Some w) (String " " ?s))
      with (w :: PyStr.split_go None s).
    rewrite IH. reflexivity.
Qed.

Lemma rstrip_run (w : string) :
  none_of PyStr.is_space w = true -> PyStr.rstrip w = w.
Proof.
  induction w as [|c w IH]; [reflexivity|].
  rewrite none_of_cons. intros [Hc Hw]%andb_true_iff.
  apply negb_true_iff in Hc. simpl. rewrite (IH Hw), Hc.
  destruct w; reflexivity.
Qed.

Lemma rstrip_app_fixed (a b : string) :
  PyStr.rstrip b = b -> b <> "" -> PyStr.rstrip (a +:+ b) = a +:+ b.
Proof.
  intros Hb Hne. induction a as [|c a IH]; [exact Hb|].
  simpl. rewrite IH. destruct (a +:+ b) eqn:E; [|reflexivity].
  destruct a; simpl in E; [contradiction | discriminate].
Qed.

Lemma join_words_nonempty (w : string) (ws : list string) :
  word w = true -> PyStr.join " " (w :: ws) <> "".
Proof.
  intros (c & w' & -> & _)%word_inv. destruct ws; discriminate.
Qed.

Lemma rstrip_join_words (ws : list string) :
  Forall (fun w => word w = true) ws ->
  PyStr.rstrip (PyStr.join " " ws) = PyStr.join " " ws.
Proof.
  induction ws as [|w ws IH]; [reflexivity|].
  intros [Hw Hws]%Forall_cons. specialize (IH Hws).
  destruct ws as [|w' ws].
  - exact (rstrip_run w (word_none w Hw)).
  - change (PyStr.join " " (w :: w' :: ws))
      with (w +:+ String " " (PyStr.join " " (w' :: ws))).
    apply rstrip_app_fixed; [|discriminate].
    apply Forall_cons in Hws as [Hw' _].
    exact (rstrip_app_fixed " " _ IH (join_words_nonempty w' ws Hw')).
Qed.

(** A text made of words with one space between them has nothing to
    strip. *)
Lemma strip_join_words (ws : list string) :
  Forall (fun w => word w = true) ws ->
  PyStr.strip (PyStr.join " " ws) = PyStr.join " " ws.
Proof.
  intros H. unfold PyStr.strip. rewrite lstrip_head.
  - exact (rstrip_join_words ws H).
  - destruct ws as [|w ws]; [exact I|].
    apply Forall_cons in H as [(c & w' & -> & Hc & _)%word_inv _].
    destruct ws; simpl; rewrite Hc; reflexivity.
Qed.

Lemma has_char_without (c : ascii) (s : string) :
  PyStr.has_char c s = negb (without c s).
Proof.
  unfold PyStr.has_char, without.
  induction s as [|x s IH]; [reflexivity|].
  rewrite none_of_cons. simpl. rewrite IH.
  destruct (ascii_dec c x) as [->|Hx].
  - rewrite Ascii.eqb_refl. destruct s; reflexivity.
  - apply Ascii.eqb_neq in Hx. rewrite Hx. reflexivity.
Qed.

Lemma without_join (c : ascii) (ws : list string) :
  c <> " "%char ->
  Forall (fun w => without c w = true) ws ->
  without c (PyStr.join " " ws) = true.
Proof.
  intros Hc. induction ws as [|w ws IH]; [reflexivity|].
  intros [Hw Hws]%Forall_cons. specialize (IH Hws).
  destruct ws as [|w' ws]; [exact Hw|].
  change (PyStr.join " " (w :: w' :: ws))
    with (w +:+ String " " (PyStr.join " " (w' :: ws))).
  unfold without in *. rewrite none_of_app, none_of_cons, Hw, IH.
  apply Ascii.eqb_neq in Hc. rewrite Hc. reflexivity.
Qed.

Lemma without_free (c : ascii) (s : string) :
  without c s = true -> free_of (String c "") s.
Proof.
  intros H pre x post -> E. injection E as ->.
  unfold without in H. rewrite none_of_app, none_of_cons in H.
  rewrite Ascii.eqb_refl in H. simpl in H.
  rewrite andb_false_r in H. discriminate.
Qed.

End Words.

Section Validation.

Lemma endswith_without (c : ascii) (s : string) :
  without c s = true -> PyStr.endswith s (String c "") = false.
Proof.
  unfold without. induction s as [|x s IH]; [reflexivity|].
  rewrite none_of_cons. intros [Hx Hs]%andb_true_iff.
  simpl. rewrite (IH Hs). apply negb_true_iff in Hx.
  destruct s as [|y s]; simpl.
  - rewrite Ascii.eqb_sym, Hx. reflexivity.
  - destruct (Ascii.eqb x c); reflexivity.
Qed.

Lemma endswith_last (s : string) (c : ascii) :
  PyStr.endswith s (String c "") = true ->
  exists body, s = body +:+ String c "".
Proof.
  induction s as [|x s IH]; [discriminate|].
  simpl. intros [H | H]%orb_true_iff.
  - destruct s; [|destruct (Ascii.eqb x c); discriminate].
    destruct (Ascii.eqb_spec x c) as [->|]; [|discriminate].
    exists "". reflexivity.
  - destruct (IH H) as (body & ->). exists (String x body). reflexivity.
Qed.

(** What [__basic_validate_query] returns, in terms of the stripped
    statement. *)
Lemma basic_validate_query_cases (q : string) :
  (exists body, PyStr.strip q = body +:+ ";"
                /\ __basic_validate_query q
                   = if PyStr.has_char ";" body
                     then Raise (Exception "multi-query statement not supported")
                     else Ok body)
  \/ (PyStr.endswith (PyStr.strip q) ";" = false
      /\ __basic_validate_query q
         = if PyStr.has_char ";" (PyStr.strip q)
           then Raise (Exception "multi-query statement not supported")
           else Ok (PyStr.strip q)).
Proof.
  unfold __basic_validate_query.
  destruct (PyStr.endswith (PyStr.strip q) ";") eqn:E.
  - left. destruct (endswith_last _ _ E) as (body & Hb).
    exists body. split; [exact Hb|]. rewrite Hb, init_snoc. reflexivity.
  - right. split; reflexivity.
Qed.

Lemma basic_validate_query_words (ws : list string) :
  Forall (fun w => word w = true) ws ->
  Forall (fun w => without ";" w = true) ws ->
  __basic_validate_query (PyStr.join " " ws) = Ok (PyStr.join " " ws).
Proof.
  intros Hw Hs.
  pose proof (without_join ";" ws ltac:(discriminate) Hs) as H.
  unfold __basic_validate_query.
  rewrite (strip_join_words ws Hw), (endswith_without _ _ H).
  rewrite has_char_without, H. reflexivity.
Qed.

End Validation.

(** X17. [__basic_validate_query] returns the stripped statement,
    without the semicolon that ends it if there is one, when no other
    semicolon is in it; this is the only way it returns, and the only
    exception it raises is the one of a multi-query statement. *)
Theorem basic_validate_query_spec (q : string) :
  (forall q',
      __basic_validate_query q = Ok q'
      <-> PyStr.has_char ";" q' = false
          /\ (PyStr.strip q = q' \/ PyStr.strip q = q' +:+ ";"))
  /\ (forall e,
         __basic_validate_query q = Raise e ->
         e = Exception "multi-query statement not supported").
Proof.
  assert (Hsemi : forall body, PyStr.has_char ";" (body +:+ ";") = true).
  { intros body. apply contains_app_r. exact (contains_here ";" ""). }
  destruct (basic_validate_query_cases q)
    as [(body & Hb & Hr) | (Hend & Hr)]; rewrite Hr; clear Hr.
  - split.
    + intros q'. split.
      * destruct (PyStr.has_char ";" body) eqn:E; [discriminate|].
        intros [= <-]. split; [exact E | right; exact Hb].
      * intros [Hq' [H | H]].
        -- rewrite <- H, Hb, Hsemi in Hq'. discriminate.
        -- rewrite Hb in H. apply (f_equal PyStr.init) in H.
           rewrite !init_snoc in H. subst q'. rewrite Hq'. reflexivity.
    + intros e. destruct (PyStr.has_char ";" body); congruence.
  - split.
    + intros q'. split.
      * destruct (PyStr.has_char ";" (PyStr.strip q)) eqn:E; [discriminate|].
        intros [= <-]. split; [exact E | left; reflexivity].
      * intros [Hq' [H | H]].
        -- rewrite H, Hq'. reflexivity.
        -- rewrite H, endswith_snoc in Hend. discriminate.
    + intros e. destruct (PyStr.has_char ";" (PyStr.strip q)); congruence.
Qed.

Lemma basic_validate_query_spec_witness :
  __basic_validate_query " ALTER TABLE t DROP c; " = Ok "ALTER TABLE t DROP c".
Proof.
  apply (proj1 (basic_validate_query_spec " ALTER TABLE t DROP c; ")).
  split; [reflexivity | right; reflexivity].
Defined.

Section Names.

Lemma split_on_app (c : ascii) (a b : string) :
  PyStr.split_on c (a +:+ String c b)
  = (PyStr.split_on c a ++ PyStr.split_on c b)%list.
Proof.
  induction a as [|x a IH]; simpl.
  - rewrite Ascii.eqb_refl. reflexivity.
  - rewrite IH. destruct (Ascii.eqb x c); [reflexivity|].
    destruct (split_on_nonempty c a) as (p & l & ->). reflexivity.
Qed.

Lemma split_on_without (c : ascii) (s : string) :
  without c s = true -> PyStr.split_on c s = [s].
Proof.
  unfold without. induction s as [|x s IH]; [reflexivity|].
  rewrite none_of_cons. intros [Hx Hs]%andb_true_iff.
  apply negb_true_iff in Hx. simpl.
  rewrite Ascii.eqb_sym, Hx, (IH Hs). reflexivity.
Qed.

Lemma contains_dot (a b : string) :
  PyStr.contains "." (a +:+ String "." b) = true.
Proof. apply contains_app_r. exact (contains_here "." b). Qed.

Lemma get_db_and_table_name_plain (self : MysqlToClickhouseConverter)
  (token db : string) :
  without "." token = true ->
  get_db_and_table_name self token db
  = match db_replicator self with
    | Some r =>
        Ok (target r (strip_sql_name db), strip_sql_name token,
            Config.is_database_matches (DbReplicator.config r)
              (target r (strip_sql_name db))
            && Config.is_table_matches (DbReplicator.config r)
                 (strip_sql_name token))
    | None => Ok (strip_sql_name db, strip_sql_name token, true)
    end.
Proof.
  intros H. unfold get_db_and_table_name.
  change (PyStr.contains "." token) with (PyStr.has_char "." token).
  rewrite has_char_without, H. reflexivity.
Qed.

End Names.

(** X18. A table name qualified by a database is resolved as the bare
    table name with that database as the default one: the database
    given beside the token plays no part. *)
Theorem get_db_and_table_name_qualified (self : MysqlToClickhouseConverter)
  (d t db : string) :
  without "." d = true -> without "." t = true ->
  get_db_and_table_name self (d +:+ "." +:+ t) db
  = get_db_and_table_name self t d.
Proof.
  intros Hd Ht. rewrite (get_db_and_table_name_plain self t d Ht).
  unfold get_db_and_table_name.
  change (d +:+ "." +:+ t) with (d +:+ String "." t).
  rewrite (contains_dot d t), (split_on_app "." d t).
  rewrite (split_on_without "." d Hd), (split_on_without "." t Ht).
  reflexivity.
Qed.

Lemma get_db_and_table_name_qualified_witness :
  get_db_and_table_name (__init__ None) "`shop`.`orders`" "other"
  = Ok ("shop", "orders", true).
Proof.
  refine (eq_trans (get_db_and_table_name_qualified (__init__ None)
                      "`shop`" "`orders`" "other" eq_refl eq_refl) _).
  reflexivity.
Defined.

(** X19. A token with two dots or more is refused with the
    [ValueError] of an unpacking, also when a dot is inside a quoted
    name. *)
Theorem get_db_and_table_name_dots (self : MysqlToClickhouseConverter)
  (a b c db : string) :
  get_db_and_table_name self (a +:+ "." +:+ b +:+ "." +:+ c) db
  = Raise (ValueError "too many values to unpack (expected 2)").
Proof.
  unfold get_db_and_table_name.
  change (a +:+ "." +:+ b +:+ "." +:+ c)
    with (a +:+ String "." (b +:+ String "." c)).
  rewrite (contains_dot a (b +:+ String "." c)).
  rewrite (split_on_app "." a (b +:+ String "." c)), (split_on_app "." b c).
  destruct (split_on_nonempty "." a) as (pa & la & ->).
  destruct (split_on_nonempty "." b) as (pb & lb & ->).
  destruct (split_on_nonempty "." c) as (pc & lc & ->).
  destruct la as [|? [|? ?]]; [destruct lb|..]; reflexivity.
Qed.

Section Statements.

Variable World : Type.
Variables add_column drop_column modify_column change_column :
  string -> string -> list string -> World -> result World.

Local Abbreviation alter_ :=
  (convert_alter_query World add_column drop_column modify_column
     change_column).
Local Abbreviation subqueries_ :=
  (convert_subqueries World add_column drop_column modify_column
     change_column).

Lemma split_high_level_free (data token : string) :
  free_of token data ->
  split_high_level data token
  = if String.eqb data "" then [] else [PyStr.strip data].
Proof.
  intros H. rewrite (split_high_level_pieces token data [] data).
  - unfold keep_final. destruct (String.eqb data ""); reflexivity.
  - split; [reflexivity|]. split; [constructor|].
    split; [apply free_of_only_nested, H | congruence].
Qed.

(** A statement of words with one space between them. *)
Lemma convert_alter_query_words (self : MysqlToClickhouseConverter)
  (kw1 kw2 name : string) (rest : list string) (db : string) (w : World) :
  Forall (fun t => word t = true) (kw1 :: kw2 :: name :: rest) ->
  Forall (fun t => without ";" t = true) (kw1 :: kw2 :: name :: rest) ->
  alter_ self (PyStr.join " " (kw1 :: kw2 :: name :: rest)) db w
  = if negb (String.eqb (PyStr.lower kw1) "alter")
    then Raise (Exception "wrong query")
    else if negb (String.eqb (PyStr.lower kw2) "table")
    then Raise (Exception "wrong query")
    else
      '(d, t, matches_config) ← get_db_and_table_name self name db;
      if negb matches_config then Ok w
      else subqueries_ (PyStr.join " " (kw1 :: kw2 :: name :: rest)) d t
             (split_high_level (PyStr.join " " rest) ",") w.
Proof.
  intros Hw Hs. unfold convert_alter_query.
  rewrite (basic_validate_query_words _ Hw Hs).
  cbn [mbind result_bind]. rewrite (split_join_words _ Hw).
  reflexivity.
Qed.

End Statements.



Section ColumnKeyword.

Variable World : Type.
Variables add_column drop_column modify_column change_column :
  string -> string -> list string -> World -> result World.

Local Abbreviation subquery_ :=
  (convert_subquery World add_column drop_column modify_column
     change_column).

(** The optional [COLUMN] after a known keyword makes no difference
    to a sub-operation of words. *)
Lemma convert_subquery_column (q q' db table op col t : string)
  (rest : list string) (w : World) :
  Forall (fun x => word x = true) (op :: col :: t :: rest) ->
  PyStr.lower op ∈ known_operations ->
  PyStr.lower col = "column" -> PyStr.lower t <> "column" ->
  subquery_ q db table (PyStr.join " " (op :: col :: t :: rest)) w
  = subquery_ q' db table (PyStr.join " " (op :: t :: rest)) w.
Proof.
  intros Hw Hop Hcol Ht.
  assert (Hw' : Forall (fun x => word x = true) (op :: t :: rest)).
  { apply Forall_cons in Hw as [Ho [_ Hr]%Forall_cons].
    constructor; assumption. }
  unfold convert_subquery.
  rewrite !strip_join_words, !split_join_words by assumption.
  cbn [getitem lookup list_lookup mbind result_bind drop].
  apply String.eqb_neq in Ht. rewrite Hcol, Ht.
  cbn [String.eqb Ascii.eqb Bool.eqb drop].
  unfold known_operations in Hop.
  repeat (apply elem_of_cons in Hop as [-> | Hop]; [reflexivity|]).
  apply elem_of_nil in Hop. destruct Hop.
Qed.

Lemma join_words_eqb (x : string) (l : list string) :
  word x = true -> String.eqb (PyStr.join " " (x :: l)) "" = false.
Proof. intros H. apply String.eqb_neq, join_words_nonempty, H. Qed.

End ColumnKeyword.

(** X21. The word [COLUMN] after the keyword of a sub-operation is
    optional: a statement with one sub-operation of a known keyword is
    converted, or refused, in the same way with and without it, when
    the word that follows is not itself [COLUMN]. *)
Theorem convert_alter_query_column_keyword
  (World : Type)
  (add_column drop_column modify_column change_column :
     string -> string -> list string -> World -> result World)
  (self : MysqlToClickhouseConverter)
  (kw1 kw2 name op col t : string) (rest : list string)
  (db : string) (w : World) :
  Forall (fun x => word x = true)
    (kw1 :: kw2 :: name :: op :: col :: t :: rest) ->
  Forall (fun x => without ";" x = true)
    (kw1 :: kw2 :: name :: op :: col :: t :: rest) ->
  Forall (fun x => without "," x = true) (op :: col :: t :: rest) ->
  PyStr.lower op ∈ known_operations ->
  PyStr.lower col = "column" -> PyStr.lower t <> "column" ->
  convert_alter_query World add_column drop_column modify_column
    change_column self
    (PyStr.join " " (kw1 :: kw2 :: name :: op :: col :: t :: rest)) db w
  = convert_alter_query World add_column drop_column modify_column
      change_column self
      (PyStr.join " " (kw1 :: kw2 :: name :: op :: t :: rest)) db w.
Proof.
  intros Hw Hs Hc Hop Hcol Ht.
  assert (Hdrop : forall (P : string -> Prop),
             Forall P (kw1 :: kw2 :: name :: op :: col :: t :: rest) ->
             Forall P (kw1 :: kw2 :: name :: op :: t :: rest)
             /\ Forall P (op :: col :: t :: rest)).
  { intros P H. repeat (apply Forall_cons in H as [? H]).
    split; repeat constructor; assumption. }
  destruct (Hdrop _ Hw) as [Hw1 Hw2]. destruct (Hdrop _ Hs) as [Hs1 _].
  rewrite !convert_alter_query_words by assumption.
  destruct (negb (String.eqb (PyStr.lower kw1) "alter")); [reflexivity|].
  destruct (negb (String.eqb (PyStr.lower kw2) "table")); [reflexivity|].
  destruct (get_db_and_table_name self name db) as [[[d tbl] m]|e];
    [|reflexivity].
  cbn [mbind result_bind]. destruct m; [|reflexivity].
  cbn [negb].
  assert (Hc' : Forall (fun x => without "," x = true) (op :: t :: rest)).
  { apply Forall_cons in Hc as [? [_ ?]%Forall_cons].
    constructor; assumption. }
  assert (Hw3 : Forall (fun x => word x = true) (op :: t :: rest)).
  { apply Forall_cons in Hw2 as [? [_ ?]%Forall_cons].
    constructor; assumption. }
  rewrite !split_high_level_free
    by (apply (without_free ","), without_join; [discriminate | assumption]).
  rewrite !join_words_eqb
    by (apply Forall_cons in Hw2 as [? _]; assumption).
  rewrite !strip_join_words by assumption.
  cbn [convert_subqueries].
  rewrite (convert_subquery_column World _ _ _ _ _
             (PyStr.join " " (kw1 :: kw2 :: name :: op :: t :: rest))
             d tbl op col t rest w Hw2 Hop Hcol Ht).
  reflexivity.
Qed.

Lemma convert_alter_query_column_keyword_witness :
  convert_alter_query unit (fun _ _ _ w => Ok w) (fun _ _ _ w => Ok w)
    (fun _ _ _ w => Ok w) (fun _ _ _ w => Ok w) (__init__ None)
    "ALTER TABLE t DROP COLUMN c" "db" tt
  = convert_alter_query unit (fun _ _ _ w => Ok w) (fun _ _ _ w => Ok w)
      (fun _ _ _ w => Ok w) (fun _ _ _ w => Ok w) (__init__ None)
      "ALTER TABLE t DROP c" "db" tt.
Proof.
  refine (convert_alter_query_column_keyword unit _ _ _ _ (__init__ None)
            "ALTER" "TABLE" "t" "DROP" "COLUMN" "c" [] "db" tt
            _ _ _ _ eq_refl _).
  - repeat constructor.
  - repeat constructor.
  - repeat constructor.
  - apply list_elem_of_In. simpl. tauto.
  - discriminate.
Defined.

(** * [convert_records] *)

Section Batch.

Variable py_str : value -> string.
Variable repr_list : list string -> string.
Variable json_dumps : value -> result string.
Variable decode : list byte -> string -> result string.
Variable uuid_bytes : value -> result (list byte).
Variable to_enum : value -> option (list string) -> string -> result value.
Variable mysql_field_types clickhouse_field_types : list string.
Variable mysql_structure : TableStructure.t.
Variable only_primary : bool.

Local Abbreviation row :=
  (convert_record py_str repr_list json_dumps decode uuid_bytes to_enum
     mysql_field_types clickhouse_field_types mysql_structure only_primary).

Local Abbreviation rows :=
  (convert_rows py_str repr_list json_dumps decode uuid_bytes to_enum
     mysql_field_types clickhouse_field_types mysql_structure only_primary).

Lemma convert_rows_all (records out : list (list value)) :
  rows records = Ok out <-> Forall2 (fun r c => row r = Ok c) records out.
Proof.
  revert out. induction records as [|r records IH]; intros out; simpl.
  - split.
    + intros [= <-]. constructor.
    + intros H. inversion H. reflexivity.
  - split.
    + destruct (row r) as [c|] eqn:Hr; [|discriminate]. simpl.
      destruct (rows records) as [cs|] eqn:Hrs; [|discriminate]. simpl.
      intros [= <-]. constructor; [exact Hr|]. apply IH. reflexivity.
    + intros H. inversion H as [|? c ? cs Hr Hrs]; subst.
      rewrite Hr. simpl. apply IH in Hrs. rewrite Hrs. reflexivity.
Qed.

Lemma convert_rows_first_failure (good : list (list value))
  (bad : list value) (rest : list (list value)) (e : exn) :
  Forall (fun r => is_ok (row r) = true) good ->
  row bad = Raise e ->
  rows (good ++ bad :: rest)%list = Raise e.
Proof.
  intros Hgood Hbad. induction good as [|r good IH]; simpl.
  - rewrite Hbad. reflexivity.
  - apply Forall_cons in Hgood as [Hr Hgood].
    destruct (row r); [|discriminate]. simpl.
    rewrite (IH Hgood). reflexivity.
Qed.

End Batch.

(** X22. A batch of rows is converted all or nothing: [convert_records]
    returns rows exactly when every row of the batch is converted by
    [convert_record] with the field types of the two structures, and
    then returns these conversions in the order of the batch, so as
    many rows as it was given, each with the number of columns it had;
    and when a row fails after rows that are converted, the batch
    fails with the exception of that row. *)
Theorem convert_records_all_or_nothing
  (py_str : value -> string) (repr_list : list string -> string)
  (json_dumps : value -> result string)
  (decode : list byte -> string -> result string)
  (uuid_bytes : value -> result (list byte))
  (to_enum : value -> option (list string) -> string -> result value)
  (mysql_structure clickhouse_structure : TableStructure.t)
  (only_primary : bool) :
  let one :=
    convert_record py_str repr_list json_dumps decode uuid_bytes to_enum
      (map TableField.field_type (TableStructure.fields mysql_structure))
      (map TableField.field_type (TableStructure.fields clickhouse_structure))
      mysql_structure only_primary in
  let batch records :=
    convert_records py_str repr_list json_dumps decode uuid_bytes to_enum
      records mysql_structure clickhouse_structure only_primary in
  (forall records out,
      batch records = Ok out
      <-> Forall2 (fun r c => one r = Ok c) records out)
  /\ (forall records out,
         batch records = Ok out ->
         Forall2 (fun r c => length c = length r) records out)
  /\ (forall good bad rest e,
         Forall (fun r => is_ok (one r) = true) good ->
         one bad = Raise e ->
         batch (good ++ bad :: rest)%list = Raise e).
Proof.
  intros one batch.
  pose (mysql_types :=
          map TableField.field_type (TableStructure.fields mysql_structure)).
  pose (clickhouse_types :=
          map TableField.field_type
              (TableStructure.fields clickhouse_structure)).
  assert (Hall : forall records out,
             batch records = Ok out
             <-> Forall2 (fun r c => one r = Ok c) records out).
  { intros records out.
    exact (convert_rows_all py_str repr_list json_dumps decode uuid_bytes
             to_enum mysql_types clickhouse_types mysql_structure
             only_primary records out). }
  split; [exact Hall|]. split.
  - intros records out H. apply Hall in H.
    induction H as [|r c records out Hr _ IH]; constructor; [|exact IH].
    exact (convert_columns_length py_str repr_list json_dumps decode
             uuid_bytes to_enum mysql_types clickhouse_types mysql_structure
             only_primary r r 0%nat c Hr).
  - intros good bad rest e Hgood Hbad.
    exact (convert_rows_first_failure py_str repr_list json_dumps decode
             uuid_bytes to_enum mysql_types clickhouse_types mysql_structure
             only_primary good bad rest e Hgood Hbad).
Qed.

Lemma convert_records_all_or_nothing_witness :
  convert_records no_str no_repr no_json no_decode no_uuid
    (fun v _ _ => Ok v)
    [[VInt (-1)]; [VInt 2; VInt 3]] enum_structure enum_structure false
  = Raise (IndexError (index_error_message no_str no_repr
             (map TableField.field_type (TableStructure.fields enum_structure))
             enum_structure 1 [VInt 2; VInt 3] (VInt 3))).
Proof.
  apply (proj2 (proj2 (convert_records_all_or_nothing no_str no_repr no_json
                         no_decode no_uuid (fun v _ _ => Ok v)
                         enum_structure enum_structure false))
           [[VInt (-1)]] [VInt 2; VInt 3] []).
  - repeat constructor.
  - reflexivity.
Defined.

(** * [convert_bytes] *)

Section Objects.

(** Induction on an object, with the property for the items of a list
    and of a tuple and for the values of a [dict]. *)
Lemma pyobj_nested_ind (P : pyobj -> Prop) :
  (forall items, Forall (fun kv => P (snd kv)) items -> P (PDict items)) ->
  (forall items, Forall P items -> P (PTuple items)) ->
  (forall items, Forall P items -> P (PList items)) ->
  (forall b, P (PBytes b)) ->
  (forall s, P (PStr s)) ->
  (forall z, P (PInt z)) ->
  (forall b, P (PBool b)) ->
  P PNone ->
  forall obj, P obj.
Proof.
  intros Hdict Htuple Hlist Hbytes Hstr Hint Hbool Hnone.
  fix IH 1. intros [items|items|items|b|s|z|b|].
  - apply Hdict. induction items as [|[k v] items IHitems];
      constructor; [apply IH | exact IHitems].
  - apply Htuple. induction items as [|x items IHitems];
      constructor; [apply IH | exact IHitems].
  - apply Hlist. induction items as [|x items IHitems];
      constructor; [apply IH | exact IHitems].
  - apply Hbytes.
  - apply Hstr.
  - apply Hint.
  - apply Hbool.
  - apply Hnone.
Qed.

Lemma bytes_eqb_eq (a b : list byte) : bytes_eqb a b = true <-> a = b.
Proof.
  revert b. induction a as [|x a IH]; intros [|y b]; simpl;
    try (split; [discriminate | congruence]); [tauto|].
  rewrite andb_true_iff, IH. split.
  - intros [H ->]. apply Byte.byte_dec_bl in H. congruence.
  - intros [= -> ->]. split; [apply Byte.byte_dec_lb|]; reflexivity.
Qed.

Lemma key_eqb_eq (k1 k2 : key) : key_eqb k1 k2 = true <-> k1 = k2.
Proof.
  destruct k1, k2; simpl; try (split; [discriminate | congruence]).
  - rewrite bytes_eqb_eq. split; congruence.
  - rewrite String.eqb_eq. split; congruence.
  - rewrite Z.eqb_eq. split; congruence.
Qed.

Lemma key_eqb_neq (k1 k2 : key) : key_eqb k1 k2 = false <-> k1 <> k2.
Proof.
  rewrite <- key_eqb_eq. destruct (key_eqb k1 k2); split; congruence.
Qed.

(** The keys after [d[k] = v]. *)
Lemma dict_set_keys (d : list (key * pyobj)) (k : key) (v : pyobj) :
  ((k ∈ map fst d) /\ map fst (dict_set d k v) = map fst d)
  \/ ((k ∉ map fst d) /\ map fst (dict_set d k v) = (map fst d ++ [k])%list).
Proof.
  induction d as [|[k' v'] d IH]; simpl.
  - right. split; [apply not_elem_of_nil | reflexivity].
  - destruct (key_eqb k' k) eqn:E.
    + apply key_eqb_eq in E as ->. left. split; [left | reflexivity].
    + apply key_eqb_neq in E. simpl.
      destruct IH as [[Hin ->] | [Hout ->]].
      * left. split; [right; exact Hin | reflexivity].
      * right. split; [|reflexivity].
        intros [->|H]%elem_of_cons; [apply E; reflexivity | exact (Hout H)].
Qed.

Lemma dict_set_new (d : list (key * pyobj)) (k : key) (v : pyobj) :
  k ∉ map fst d -> dict_set d k v = (d ++ [(k, v)])%list.
Proof.
  induction d as [|[k' v'] d IH]; [reflexivity|]. simpl.
  intros H. apply not_elem_of_cons in H as [Hk Hd].
  assert (key_eqb k' k = false) as -> by (apply key_eqb_neq; congruence).
  rewrite (IH Hd). reflexivity.
Qed.

Lemma dict_set_NoDup (d : list (key * pyobj)) (k : key) (v : pyobj) :
  NoDup (map fst d) -> NoDup (map fst (dict_set d k v)).
Proof.
  intros H. destruct (dict_set_keys d k v) as [[_ ->] | [Hout ->]];
    [exact H|].
  apply NoDup_app. split; [exact H|]. split.
  - intros x Hx [->|[]%elem_of_nil]%elem_of_cons. exact (Hout Hx).
  - apply NoDup_singleton.
Qed.

Lemma dict_set_length (d : list (key * pyobj)) (k : key) (v : pyobj) :
  (length (dict_set d k v) <= S (length d))%nat.
Proof.
  induction d as [|[k' v'] d IH]; simpl; [lia|].
  destruct (key_eqb k' k); simpl; lia.
Qed.

(** A property of the items that [d[k] = v] keeps. *)
Lemma dict_set_Forall (P : key * pyobj -> Prop) (d : list (key * pyobj))
  (k : key) (v : pyobj) :
  Forall P d -> P (k, v) -> Forall P (dict_set d k v).
Proof.
  intros Hd Hkv. induction Hd as [|[k' v'] d Hx Hd IH]; simpl.
  - repeat constructor. exact Hkv.
  - destruct (key_eqb k' k) eqn:E.
    + apply key_eqb_eq in E as ->. constructor; [exact Hkv | exact Hd].
    + constructor; [exact Hx | exact IH].
Qed.

End Objects.

Section BytesFree.

Variable decode_utf8 : list byte -> result string.

Local Abbreviation convert := (convert_bytes decode_utf8).

Lemma convert_bytes_list (items : list pyobj) :
  convert (PList items)
  = (new_obj ← convert_each convert items; Ok (PList new_obj)).
Proof. reflexivity. Qed.

Lemma convert_bytes_tuple (items : list pyobj) :
  convert (PTuple items)
  = (new_obj ← convert_each convert items; Ok (PTuple new_obj)).
Proof. reflexivity. Qed.

Lemma convert_bytes_dict (items : list (key * pyobj)) :
  convert (PDict items) = convert_items decode_utf8 convert items [].
Proof. reflexivity. Qed.

Lemma has_bytes_items (items : list (key * pyobj)) :
  has_bytes (PDict items) = false <-> Forall clean_item items.
Proof.
  simpl. induction items as [|[k v] items IH]; simpl.
  - split; [constructor | reflexivity].
  - rewrite orb_false_iff, IH, Forall_cons. unfold clean_item. simpl.
    rewrite orb_false_iff. tauto.
Qed.

Lemma has_bytes_each (items : list pyobj) :
  existsb has_bytes items = false
  <-> Forall (fun x => has_bytes x = false) items.
Proof.
  induction items as [|x items IH]; simpl.
  - split; [constructor | reflexivity].
  - rewrite orb_false_iff, IH, Forall_cons. tauto.
Qed.

Lemma convert_key_clean (k k' : key) :
  convert_key decode_utf8 k = Ok k' -> is_bytes_key k' = false.
Proof.
  destruct k as [b|s|z]; simpl.
  - destruct (decode_utf8 b); [|discriminate]. intros [= <-]. reflexivity.
  - intros [= <-]. reflexivity.
  - intros [= <-]. reflexivity.
Qed.

Lemma convert_key_fixed (k : key) :
  is_bytes_key k = false -> convert_key decode_utf8 k = Ok k.
Proof. destruct k; [discriminate | reflexivity..]. Qed.

(** The loops, for a conversion [f] that has the property [P] on the
    objects of the loop. *)
Lemma convert_each_Forall (P : pyobj -> Prop) (f : pyobj -> result pyobj)
  (items : list pyobj) :
  Forall (fun x => forall x', f x = Ok x' -> P x') items ->
  forall out, convert_each f items = Ok out ->
              Forall P out /\ length out = length items.
Proof.
  induction 1 as [|x items Hx _ IH]; simpl; intros out.
  - intros [= <-]. split; [constructor | reflexivity].
  - destruct (f x) as [x'|]; [|discriminate]. simpl.
    destruct (convert_each f items) as [xs|]; [|discriminate]. simpl.
    intros [= <-]. destruct (IH xs eq_refl) as [Hxs Hlen].
    split; [constructor; auto | simpl; congruence].
Qed.

Lemma convert_items_Forall (P : key * pyobj -> Prop)
  (f : pyobj -> result pyobj) (items : list (key * pyobj)) :
  Forall (fun kv => forall k' v', convert_key decode_utf8 (fst kv) = Ok k' ->
                                  f (snd kv) = Ok v' -> P (k', v')) items ->
  forall new_obj out,
    Forall P new_obj -> NoDup (map fst new_obj) ->
    convert_items decode_utf8 f items new_obj = Ok out ->
    exists d, out = PDict d /\ Forall P d /\ NoDup (map fst d)
              /\ (length d <= length new_obj + length items)%nat.
Proof.
  induction 1 as [|[k v] items Hkv _ IH]; simpl;
    intros new_obj out Hnew Hdup.
  - intros [= <-]. exists new_obj. repeat split; auto. lia.
  - destruct (convert_key decode_utf8 k) as [k'|] eqn:Ek; [|discriminate].
    simpl. destruct (f v) as [v'|] eqn:Ev; [|discriminate]. simpl.
    intros Hrun.
    destruct (IH (dict_set new_obj k' v') out) as (d & -> & Hd & Hnd & Hlen);
      [| apply dict_set_NoDup, Hdup | exact Hrun |].
    + apply dict_set_Forall; [exact Hnew | exact (Hkv k' v' Ek Ev)].
    + exists d. repeat split; auto.
      pose proof (dict_set_length new_obj k' v'). lia.
Qed.

Lemma distinct_keys_dict (items : list (key * pyobj)) :
  distinct_keys (PDict items)
  <-> NoDup (map fst items) /\ distinct_in_values items.
Proof.
  simpl. unfold distinct_in_values.
  assert (H : (fix all (items0 : list (key * pyobj)) : Prop :=
                 match items0 with
                 | [] => True
                 | kv :: rest => distinct_keys (snd kv) /\ all rest
                 end) items
              <-> Forall (fun kv => distinct_keys (snd kv)) items).
  { induction items as [|kv items IH].
    - split; [constructor | exact (fun _ => I)].
    - rewrite Forall_cons, <- IH. reflexivity. }
  rewrite H. reflexivity.
Qed.

Lemma distinct_keys_each (items : list pyobj) :
  (distinct_keys (PList items) <-> Forall distinct_keys items)
  /\ (distinct_keys (PTuple items) <-> Forall distinct_keys items).
Proof.
  simpl.
  assert (H : (fix all (items0 : list pyobj) : Prop :=
                 match items0 with
                 | [] => True
                 | item :: rest => distinct_keys item /\ all rest
                 end) items
              <-> Forall distinct_keys items).
  { induction items as [|x items IH].
    - split; [constructor | exact (fun _ => I)].
    - rewrite Forall_cons, <- IH. reflexivity. }
  split; exact H.
Qed.

(** What comes out has no [bytes] and no [dict] with two equal
    keys. *)
Lemma convert_bytes_clean (obj : pyobj) :
  forall out, convert obj = Ok out ->
              has_bytes out = false /\ distinct_keys out.
Proof.
  induction obj as [items IH|items IH|items IH|b|s|z|b|]
    using pyobj_nested_ind; intros out.
  - rewrite convert_bytes_dict. intros H.
    destruct (convert_items_Forall
                (fun kv => clean_item kv /\ distinct_keys (snd kv))
                convert items) with (new_obj := @nil (key * pyobj))
                                    (out := out)
      as (d & -> & Hd & Hnd & _);
      [| constructor | constructor | exact H |].
    + eapply Forall_impl; [exact IH|]. intros [k v] Hv k' v' Hk' Hv'.
      simpl in *. destruct (Hv v' Hv') as [Hb Hdk].
      split; [split|]; simpl; [exact (convert_key_clean k k' Hk') | exact Hb
                               | exact Hdk].
    + split.
      * apply has_bytes_items. eapply Forall_impl; [exact Hd|].
        intros kv [Hc _]. exact Hc.
      * apply distinct_keys_dict. split; [exact Hnd|].
        eapply Forall_impl; [exact Hd|]. intros kv [_ Hk]. exact Hk.
  - rewrite convert_bytes_tuple.
    destruct (convert_each convert items) as [new_obj|] eqn:E; [|discriminate].
    intros [= <-].
    destruct (convert_each_Forall
                (fun x => has_bytes x = false /\ distinct_keys x)
                convert items IH new_obj E) as [Hall _].
    split.
    + apply has_bytes_each. eapply Forall_impl; [exact Hall|].
      intros x [Hx _]. exact Hx.
    + apply distinct_keys_each. eapply Forall_impl; [exact Hall|].
      intros x [_ Hx]. exact Hx.
  - rewrite convert_bytes_list.
    destruct (convert_each convert items) as [new_obj|] eqn:E; [|discriminate].
    intros [= <-].
    destruct (convert_each_Forall
                (fun x => has_bytes x = false /\ distinct_keys x)
                convert items IH new_obj E) as [Hall _].
    split.
    + apply has_bytes_each. eapply Forall_impl; [exact Hall|].
      intros x [Hx _]. exact Hx.
    + apply distinct_keys_each. eapply Forall_impl; [exact Hall|].
      intros x [_ Hx]. exact Hx.
  - simpl. destruct (decode_utf8 b); [|discriminate].
    intros [= <-]. split; [reflexivity | exact I].
  - intros [= <-]. split; [reflexivity | exact I].
  - intros [= <-]. split; [reflexivity | exact I].
  - intros [= <-]. split; [reflexivity | exact I].
  - intros [= <-]. split; [reflexivity | exact I].
Qed.

Lemma convert_each_fixed (items : list pyobj) :
  Forall (fun x => convert x = Ok x) items ->
  convert_each convert items = Ok items.
Proof.
  induction 1 as [|x items Hx _ IH]; simpl; [reflexivity|].
  rewrite Hx. simpl. rewrite IH. reflexivity.
Qed.

Lemma convert_items_fixed (items : list (key * pyobj)) :
  Forall (fun kv => is_bytes_key (fst kv) = false
                    /\ convert (snd kv) = Ok (snd kv)) items ->
  forall new_obj,
    NoDup (map fst (new_obj ++ items)%list) ->
    convert_items decode_utf8 convert items new_obj
    = Ok (PDict (new_obj ++ items)%list).
Proof.
  induction 1 as [|[k v] items [Hk Hv] _ IH]; simpl; intros new_obj Hnd.
  - rewrite app_nil_r. reflexivity.
  - simpl in Hk, Hv. rewrite (convert_key_fixed k Hk), Hv. simpl.
    rewrite map_app in Hnd. simpl in Hnd.
    assert (Hout : k ∉ map fst new_obj).
    { apply NoDup_app in Hnd as (_ & Hdis & _). intros Hin.
      apply (Hdis k Hin). left. }
    rewrite (dict_set_new new_obj k v Hout), IH.
    + rewrite <- app_assoc. reflexivity.
    + rewrite <- app_assoc, map_app. exact Hnd.
Qed.

(** An object without [bytes] comes back as it is. *)
Lemma convert_bytes_fixed (obj : pyobj) :
  has_bytes obj = false -> distinct_keys obj -> convert obj = Ok obj.
Proof.
  induction obj as [items IH|items IH|items IH|b|s|z|b|]
    using pyobj_nested_ind; intros Hb Hd; try reflexivity.
  - rewrite convert_bytes_dict.
    apply has_bytes_items in Hb. apply distinct_keys_dict in Hd as [Hnd Hd].
    apply (convert_items_fixed items); [|exact Hnd].
    unfold distinct_in_values in Hd.
    induction items as [|[k v] items IHitems]; constructor.
    + apply Forall_cons in Hb as [[Hk Hv] _].
      apply Forall_cons in Hd as [Hdv _].
      apply Forall_cons in IH as [IHv _].
      split; [exact Hk | exact (IHv Hv Hdv)].
    + apply Forall_cons in Hb as [_ Hb].
      apply Forall_cons in Hd as [_ Hd].
      apply Forall_cons in IH as [_ IH].
      apply NoDup_cons in Hnd as [_ Hnd].
      exact (IHitems IH Hb Hnd Hd).
  - rewrite convert_bytes_tuple.
    simpl in Hb. apply has_bytes_each in Hb.
    apply (proj2 (distinct_keys_each items)) in Hd.
    rewrite convert_each_fixed; [reflexivity|].
    induction items as [|x items IHitems]; constructor.
    + apply Forall_cons in Hb as [Hx _].
      apply Forall_cons in Hd as [Hdx _].
      apply Forall_cons in IH as [IHx _]. exact (IHx Hx Hdx).
    + apply Forall_cons in Hb as [_ Hb].
      apply Forall_cons in Hd as [_ Hd].
      apply Forall_cons in IH as [_ IH]. exact (IHitems IH Hb Hd).
  - rewrite convert_bytes_list.
    simpl in Hb. apply has_bytes_each in Hb.
    apply (proj1 (distinct_keys_each items)) in Hd.
    rewrite convert_each_fixed; [reflexivity|].
    induction items as [|x items IHitems]; constructor.
    + apply Forall_cons in Hb as [Hx _].
      apply Forall_cons in Hd as [Hdx _].
      apply Forall_cons in IH as [IHx _]. exact (IHx Hx Hdx).
    + apply Forall_cons in Hb as [_ Hb].
      apply Forall_cons in Hd as [_ Hd].
      apply Forall_cons in IH as [_ IH]. exact (IHitems IH Hb Hd).
  - discriminate.
Qed.

(** The shape of what comes out. *)
Lemma convert_bytes_shape (obj out : pyobj) :
  convert obj = Ok out ->
  match obj with
  | PDict items =>
      exists d, out = PDict d /\ (length d <= length items)%nat
  | PTuple items =>
      exists l, out = PTuple l /\ length l = length items
  | PList items =>
      exists l, out = PList l /\ length l = length items
  | PBytes _ => exists s, out = PStr s
  | _ => out = obj
  end.
Proof.
  destruct obj as [items|items|items|b|s|z|b|];
    try (intros [= <-]; reflexivity).
  - rewrite convert_bytes_dict. intros H.
    destruct (convert_items_Forall (fun _ => True) convert items)
      with (new_obj := @nil (key * pyobj)) (out := out)
      as (d & -> & _ & _ & Hlen);
      [| constructor | constructor | exact H |].
    + apply Forall_forall. intros; exact I.
    + exists d. split; [reflexivity | exact Hlen].
  - rewrite convert_bytes_tuple.
    destruct (convert_each convert items) as [l|] eqn:E; [|discriminate].
    intros [= <-]. exists l. split; [reflexivity|].
    apply (convert_each_Forall (fun _ => True) convert items); [|exact E].
    apply Forall_forall. intros; exact I.
  - rewrite convert_bytes_list.
    destruct (convert_each convert items) as [l|] eqn:E; [|discriminate].
    intros [= <-]. exists l. split; [reflexivity|].
    apply (convert_each_Forall (fun _ => True) convert items); [|exact E].
    apply Forall_forall. intros; exact I.
  - simpl. destruct (decode_utf8 b) as [s|]; [|discriminate].
    intros [= <-]. eauto.
Qed.

End BytesFree.

(** X23. What [convert_bytes] returns has no [bytes] object left in
    it: not as an item of a list or of a tuple, not as a key nor as a
    value of a [dict], at any depth. *)
Theorem convert_bytes_no_bytes (decode_utf8 : list byte -> result string)
  (obj out : pyobj) :
  convert_bytes decode_utf8 obj = Ok out -> has_bytes out = false.
Proof. intros H. exact (proj1 (convert_bytes_clean decode_utf8 obj out H)). Qed.

Lemma convert_bytes_no_bytes_witness :
  has_bytes (PDict [(KStr "a", PList [PStr "x"; PInt 1])]) = false.
Proof.
  exact (convert_bytes_no_bytes decode_ascii
           (PDict [(KBytes [x61], PList [PBytes [x78]; PInt 1])])
           (PDict [(KStr "a", PList [PStr "x"; PInt 1])]) eq_refl).
Defined.

(** X24. [convert_bytes] changes nothing where there is nothing to
    decode: an object without [bytes] comes back as it is, and so does
    every object that [convert_bytes] has returned. *)
Theorem convert_bytes_idempotent (decode_utf8 : list byte -> result string)
  (obj : pyobj) :
  (has_bytes obj = false -> distinct_keys obj ->
   convert_bytes decode_utf8 obj = Ok obj)
  /\ (forall out,
         convert_bytes decode_utf8 obj = Ok out ->
         convert_bytes decode_utf8 out = Ok out).
Proof.
  split; [apply convert_bytes_fixed|].
  intros out H. destruct (convert_bytes_clean decode_utf8 obj out H).
  apply convert_bytes_fixed; assumption.
Qed.

Lemma convert_bytes_idempotent_witness :
  convert_bytes decode_ascii (PDict [(KStr "a", PList [PStr "x"; PInt 1])])
  = Ok (PDict [(KStr "a", PList [PStr "x"; PInt 1])]).
Proof.
  exact (proj2 (convert_bytes_idempotent decode_ascii
                  (PDict [(KBytes [x61], PList [PBytes [x78]; PInt 1])]))
           (PDict [(KStr "a", PList [PStr "x"; PInt 1])]) eq_refl).
Defined.

(** X25. [convert_bytes] keeps the shape of an object: a list gives a
    list and a tuple a tuple of the same length, [bytes] give a [str],
    a [dict] gives a [dict] that has no more items, and another object
    is returned as it is. A [dict] can lose items: a [bytes] key and a
    [str] key that are the same text once decoded become one item,
    which has the value of the later one. *)
Theorem convert_bytes_shapes (decode_utf8 : list byte -> result string) :
  (forall obj out,
      convert_bytes decode_utf8 obj = Ok out ->
      match obj with
      | PDict items =>
          exists d, out = PDict d /\ (length d <= length items)%nat
      | PTuple items =>
          exists l, out = PTuple l /\ length l = length items
      | PList items =>
          exists l, out = PList l /\ length l = length items
      | PBytes _ => exists s, out = PStr s
      | _ => out = obj
      end)
  /\ (forall b s x y x' y',
         decode_utf8 b = Ok s ->
         convert_bytes decode_utf8 x = Ok x' ->
         convert_bytes decode_utf8 y = Ok y' ->
         convert_bytes decode_utf8 (PDict [(KBytes b, x); (KStr s, y)])
         = Ok (PDict [(KStr s, y')])).
Proof.
  split; [apply convert_bytes_shape|].
  intros b s x y x' y' Hb Hx Hy.
  rewrite convert_bytes_dict. simpl. rewrite Hb, Hx, Hy. simpl.
  rewrite String.eqb_refl. reflexivity.
Qed.

Lemma convert_bytes_shapes_witness :
  convert_bytes decode_ascii
    (PDict [(KBytes [x61], PBytes [x78]); (KStr "a", PInt 2)])
  = Ok (PDict [(KStr "a", PInt 2)]).
Proof.
  exact (proj2 (convert_bytes_shapes decode_ascii)
           [x61] "a" (PBytes [x78]) (PInt 2) (PStr "x") (PInt 2)
           eq_refl eq_refl eq_refl).
Defined.
